(** * NeerSetu backend: location resolution, record aggregation and
      temporal resolution

    A shallow embedding of the groundwater query core:
    - [utils/yearFiltering]   ([getFilteredYears], [filterRecordsByYear]),
    - [utils/aggregation]     ([aggregateGroundwaterRecords],
                               [determineCategoryFromStage]),
    - [services/locationSearch] ([initLocationSearch], [searchLocation]),
    - [services/groundwaterService] ([getGroundwaterDataByLocationId],
                               [getTopLocationsByField]),
    - [services/gwTools]      (the ranking tool [getTopLocationsTool]).

    Conventions of the embedding.  JavaScript numbers, and the values of
    [double precision] columns, are IEEE 754 binary64 numbers: the
    primitive type [float], with its own rounding addition, subtraction and
    division, its comparisons, its infinities, its two zeros and its NaN;
    strings are [string], compared lexicographically by character code as
    JavaScript does; untyped field bags ([Record<string, unknown>]) are
    [gmap string value]; a promise is its resolved value, a rejected promise
    or a [throw] an error result. *)

From Stdlib Require Import Ascii String ZArith Floats.
From stdpp Require Import gmap strings list fin_maps sorting.

Set Warnings "-clear-no-such-hyp,-inexact-float".

Open Scope string_scope.
Open Scope list_scope.

(** ** JavaScript values *)

Module Js.

(** The values a field of a database row or of an aggregated record can
    hold; [Other] stands for the values that are neither of these (objects
    of [jsonb] columns, booleans). *)
Inductive value : Type :=
| Undefined
| Null
| Str (s : string)
| Num (x : float)
| Other.

(** The least exponent of a double: the exponent of its subnormal
    numbers. *)
Definition emin64 : Z := (-1074)%Z.

(** [isNaN(x)] on a number. *)
Definition isNaN (x : float) : bool := PrimFloat.is_nan x.

(** [!x] on a number: the two zeros and NaN are falsy. *)
Definition falsy (x : float) : bool := PrimFloat.eqb x 0 || isNaN x.

(** [x] is the zero with the minus sign. *)
Definition isNegZero (x : float) : bool :=
  match PrimFloat.classify x with
  | NZero => true
  | _ => false
  end.

(** [Math.min(a, b)] and [Math.max(a, b)]: NaN when either is NaN, and the
    negative zero is below the positive one. *)
Definition min2 (a b : float) : float :=
  if isNaN a then a
  else if isNaN b then b
  else if PrimFloat.ltb a b then a
  else if PrimFloat.ltb b a then b
  else if isNegZero a then a else b.

Definition max2 (a b : float) : float :=
  if isNaN a then a
  else if isNaN b then b
  else if PrimFloat.ltb a b then b
  else if PrimFloat.ltb b a then a
  else if isNegZero a then b else a.

(** [Math.min(...values)] and [Math.max(...values)], which start from
    plus and minus infinity. *)
Definition minOf (values : list float) : float :=
  fold_left min2 values PrimFloat.infinity.

Definition maxOf (values : list float) : float :=
  fold_left max2 values PrimFloat.neg_infinity.

(** [values.length] as a number. *)
Definition lengthOf {A : Type} (values : list A) : float :=
  PrimFloat.of_uint63 (Uint63.of_Z (Z.of_nat (length values))).

(** [!!s] for an optional string property: [undefined] and [""] are
    falsy. *)
Definition truthy_str (o : option string) : bool :=
  match o with
  | Some s => negb (String.eqb s "")
  | None => false
  end.

(** [!!a] for an optional array property: every array is truthy, also the
    empty one. *)
Definition truthy_arr {A : Type} (o : option (list A)) : bool :=
  match o with
  | Some _ => true
  | None => false
  end.

(** [a.includes(x)] on an array of strings. *)
Definition includes (a : list string) (x : string) : bool :=
  existsb (String.eqb x) a.

(** [x >= y] and [x <= y] on strings. *)
Definition str_ge (x y : string) : bool := String.leb y x.
Definition str_le (x y : string) : bool := String.leb x y.

(** [c] is one of the ASCII white-space characters removed by [trim]. *)
Definition isWhiteSpace (c : ascii) : bool :=
  match nat_of_ascii c with
  | 9%nat | 10%nat | 11%nat | 12%nat | 13%nat | 32%nat => true
  | _ => false
  end.

Fixpoint trimStart (s : string) : string :=
  match s with
  | String c s' => if isWhiteSpace c then trimStart s' else s
  | EmptyString => EmptyString
  end.

Definition string_rev (s : string) : string :=
  string_of_list_ascii (rev (list_ascii_of_string s)).

(** [s.trim()] *)
Definition trim (s : string) : string :=
  string_rev (trimStart (string_rev (trimStart s))).

Fixpoint mapChars (f : ascii → ascii) (s : string) : string :=
  match s with
  | String c s' => String (f c) (mapChars f s')
  | EmptyString => EmptyString
  end.

(** [s.replace(/[_-]/g, " ")] *)
Definition replaceSeparators (s : string) : string :=
  mapChars (λ c, if Ascii.eqb c "_" || Ascii.eqb c "-" then " "%char else c) s.

(** [s.toLowerCase()] on ASCII letters. *)
Definition toLowerCase (s : string) : string :=
  mapChars (λ c, let n := nat_of_ascii c in
                 if (65 <=? n)%nat && (n <=? 90)%nat
                 then ascii_of_nat (n + 32) else c) s.

(** The outcome of a call that may [throw] (or of a promise that may
    reject). *)
Inductive result (E A : Type) : Type :=
| Ok (a : A)
| Throw (e : E).
Arguments Ok {E A} a.
Arguments Throw {E A} e.

End Js.

(** ** Temporal resolver ([utils/yearFiltering]) *)

Module YearFiltering.
Import Js.

Record YearFilterParams : Type := {
  year : option string;
  fromYear : option string;
  toYear : option string;
  specificYears : option (list string);
}.

Record FilteredYearsResult : Type := {
  isHistorical : bool;
  yearsToQuery : list string;
  targetYear : string;
}.

(** The literal of [year || "2024-2025"]. *)
Definition defaultYear : string := "2024-2025".

(** [year || "2024-2025"] *)
Definition orDefaultYear (o : option string) : string :=
  match o with
  | Some s => if String.eqb s "" then defaultYear else s
  | None => defaultYear
  end.

(** The callback of the range filter, shared by [getFilteredYears] and
    [filterRecordsByYear]. *)
Definition inRange (fromYear toYear : option string) (y : string) : bool :=
  if truthy_str fromYear && truthy_str toYear
  then str_ge y (default "" fromYear) && str_le y (default "" toYear)
  else if truthy_str fromYear then str_ge y (default "" fromYear)
  else if truthy_str toYear then str_le y (default "" toYear)
  else true.

(** [getFilteredYears(params)]; [availableYears] is what
    [getAvailableYears()] resolves to (the distinct years of the store,
    sorted). *)
Definition getFilteredYears (params : YearFilterParams)
    (availableYears : list string) : FilteredYearsResult :=
  let targetYear := orDefaultYear (year params) in
  if negb (truthy_str (fromYear params)) && negb (truthy_str (toYear params))
     && negb (truthy_arr (specificYears params))
  then {| isHistorical := false; yearsToQuery := [targetYear];
          targetYear := targetYear |}
  else
    let yearsToQuery :=
      match specificYears params with
      | Some (s :: l) => List.filter (λ y, includes (s :: l) y) availableYears
      | _ =>
          if truthy_str (fromYear params) || truthy_str (toYear params)
          then List.filter (inRange (fromYear params) (toYear params))
                 availableYears
          else availableYears
      end in
    {| isHistorical := true; yearsToQuery := yearsToQuery;
       targetYear := targetYear |}.

(** [filterRecordsByYear(records, params)], for records carrying a [year]
    projection. *)
Definition filterRecordsByYear {T : Type} (yearOf : T → string)
    (records : list T) (params : YearFilterParams) : list T :=
  match specificYears params with
  | Some (s :: l) => List.filter (λ r, includes (s :: l) (yearOf r)) records
  | _ =>
      if truthy_str (fromYear params) || truthy_str (toYear params)
      then List.filter (λ r, inRange (fromYear params) (toYear params) (yearOf r))
             records
      else records
  end.

(** A range bound or a list was supplied, the way the code tests it. *)
Definition supplied (params : YearFilterParams) : Prop :=
  truthy_str (fromYear params) = true ∨ truthy_str (toYear params) = true
  ∨ is_Some (specificYears params).

(** [y] respects the bounds that were supplied. *)
Definition withinBounds (params : YearFilterParams) (y : string) : Prop :=
  (∀ f, fromYear params = Some f → f ≠ "" → String.leb f y = true)
  ∧ (∀ t, toYear params = Some t → t ≠ "" → String.leb y t = true).

(** The most recent year of a sorted list of years. *)
Definition mostRecentAvailable (availableYears : list string) : option string :=
  last availableYears.

(** Requests and a store's years used as examples below. *)
Definition exampleYears : list string :=
  ["2016-2017"; "2018-2019"; "2024-2025"].

Definition oldYears : list string := ["2016-2017"; "2018-2019"].

Definition noSpec : YearFilterParams :=
  {| year := None; fromYear := None; toYear := None; specificYears := None |}.

Definition emptyListSpec : YearFilterParams :=
  {| year := None; fromYear := None; toYear := None; specificYears := Some [] |}.

Definition emptyListFrom2024 : YearFilterParams :=
  {| year := None; fromYear := Some "2024-2025"; toYear := None;
     specificYears := Some [] |}.

Definition listSpec : YearFilterParams :=
  {| year := None; fromYear := Some "2024-2025"; toYear := None;
     specificYears := Some ["2018-2019"; "1999-2000"] |}.

Definition rangeSpec : YearFilterParams :=
  {| year := None; fromYear := Some "2016-2017"; toYear := Some "2020-2021";
     specificYears := None |}.

End YearFiltering.

(** ** Tables of the store ([db/gw-schema]) *)

Module Schema.

Inductive LocationType : Type := COUNTRY | STATE | DISTRICT | TALUK.

Definition LocationType_eqb (a b : LocationType) : bool :=
  match a, b with
  | COUNTRY, COUNTRY | STATE, STATE | DISTRICT, DISTRICT | TALUK, TALUK => true
  | _, _ => false
  end.

#[global] Instance LocationType_eq_dec : EqDecision LocationType.
Proof. solve_decision. Defined.

(** A row of table [locations]. *)
Record LocationRecord : Type := {
  id : string;
  externalId : option string;
  name : string;
  type : LocationType;
  parentId : option string;
}.

(** A row of table [groundwater_data]: the key columns, the nullable
    [double precision] columns and the nullable [text] columns, both keyed
    by the property name the row object carries; a key that is absent is a
    SQL NULL. *)
Record GwRow : Type := {
  rowId : string;
  locationId : string;
  year : string;
  nums : gmap string float;
  texts : gmap string string;
}.

Record Store : Type := {
  locations : list LocationRecord;
  groundwaterData : list GwRow;
}.

(** The object the driver builds for a row of [groundwater_data]. *)
Definition rowObject (g : GwRow) : gmap string Js.value :=
  (Js.Num <$> nums g) ∪ (Js.Str <$> texts g)
  ∪ <["id" := Js.Str (rowId g)]>
      (<["locationId" := Js.Str (locationId g)]>
         (<["year" := Js.Str (year g)]> ∅)).

(** [from(groundwaterData).innerJoin(locations, eq(locationId, id))] *)
Definition innerJoin (s : Store) : list (GwRow * LocationRecord) :=
  flat_map (λ g, (λ l, (g, l)) <$>
              List.filter (λ l, String.eqb (locationId g) (id l)) (locations s))
    (groundwaterData s).

End Schema.

(** ** Aggregator ([utils/aggregation]) *)

Module Aggregation.
Import Js.

(** [GroundwaterRecord], declared by the groundwater service. *)
Record RecordLocation : Type := {
  id : string;
  name : string;
  type : Schema.LocationType;
}.

Record GroundwaterRecord : Type := {
  location : RecordLocation;
  year : string;
  data : gmap string value;
}.

(** [aggregated[key] || 0] *)
Definition orZero (o : option float) : float :=
  match o with
  | Some x => if falsy x then 0%float else x
  | None => 0%float
  end.

(** The body of the inner loop: one entry of [Object.entries(data)]; the
    test is [typeof value === "number" && !isNaN(value)]. *)
Definition addEntry (aggregated : gmap string float) (entry : string * value)
    : gmap string float :=
  match entry.2 with
  | Num v =>
      if isNaN v then aggregated
      else <[entry.1 := PrimFloat.add (orZero (aggregated !! entry.1)) v]> aggregated
  | _ => aggregated
  end.

(** The body of the outer loop: all entries of one record. *)
Definition addRecord (aggregated : gmap string float) (record : GroundwaterRecord)
    : gmap string float :=
  fold_left addEntry (map_to_list (data record)) aggregated.

Definition sumRecords (records : list GroundwaterRecord) : gmap string float :=
  fold_left addRecord records ∅.

(** [determineCategoryFromStage(stage)]; [None] is [undefined]. *)
Definition determineCategoryFromStage (stage : option float) : string :=
  match stage with
  | None => "Unknown"
  | Some stage =>
      if falsy stage then "Unknown"
      else if PrimFloat.ltb stage 70 then "Safe"
      else if PrimFloat.ltb stage 90 then "Semi-Critical"
      else if PrimFloat.ltb stage 100 then "Critical"
      else "Over-Exploited"
  end.

Definition aggregateGroundwaterRecords (records : list GroundwaterRecord)
    : option GroundwaterRecord :=
  match records with
  | [] => None
  | [record] => Some record
  | first :: _ =>
      let aggregated := sumRecords records in
      Some {| location := location first;
              year := year first;
              data :=
                <["categoryPoorQuality" := Null]>
                  (<["categoryNonCommand" := Null]>
                     (<["categoryCommand" := Null]>
                        (<["categoryTotal" :=
                             Str (determineCategoryFromStage
                                    (aggregated !! "stageOfExtractionTotal"))]>
                           (Num <$> aggregated)))) |}
  end.

(** The value of numeric field [key] in a record, [None] when the record
    does not define it as a number that is summed (a number other than
    NaN). *)
Definition numericField (key : string) (record : GroundwaterRecord)
    : option float :=
  match data record !! key with
  | Some (Num v) => if isNaN v then None else Some v
  | _ => None
  end.

(** [(acc || 0) + v] on numbers. *)
Definition addTo (acc v : float) : float :=
  PrimFloat.add (if falsy acc then 0%float else acc) v.

(** The sum of a list of numbers as the loop computes it: the numbers are
    added one after the other, from left to right, each addition rounding
    to the nearest double. *)
Definition sum (values : list float) : float := fold_left addTo values 0%float.

(** The numbers that the records hold under [key], in the order of the
    records; a record that holds none is passed over (which is what
    counting it as zero amounts to). *)
Definition fieldValues (key : string) (records : list GroundwaterRecord)
    : list float :=
  omap (numericField key) records.

(** The summed field as the merged record sees it: absent when no record
    defines it. *)
Definition summedField (key : string) (records : list GroundwaterRecord)
    : option float :=
  match fieldValues key records with
  | [] => None
  | values => Some (sum values)
  end.

(** The running value of [aggregated[key]] over the values that the
    records hold for one key. *)
Definition sumFrom (acc : option float) (values : list (option float))
    : option float :=
  fold_left (λ acc o, match o with
                      | Some v => Some (PrimFloat.add (orZero acc) v)
                      | None => acc
                      end) values acc.

(** The four properties the merged record sets itself. *)
Definition categoryKeys : list string :=
  ["categoryTotal"; "categoryCommand"; "categoryNonCommand"; "categoryPoorQuality"].

(** Two raw rows of one location and year: a command-area and a
    non-command-area row, with extraction 10 and 15. *)
Definition exampleLocation : RecordLocation :=
  {| id := "loc-1"; name := "Karnataka"; type := Schema.STATE |}.

Definition exampleRow1 : GroundwaterRecord :=
  {| location := exampleLocation; year := "2024-2025";
     data := <["draftTotalTotal" := Num 10]>
               (<["stageOfExtractionTotal" := Num 40]>
                  (<["categoryTotal" := Str "safe"]> ∅)) |}.

Definition exampleRow2 : GroundwaterRecord :=
  {| location := exampleLocation; year := "2024-2025";
     data := <["draftTotalTotal" := Num 15]>
               (<["stageOfExtractionTotal" := Num 45]>
                  (<["rainfallTotal" := Null]> ∅)) |}.

Definition exampleRows : list GroundwaterRecord := [exampleRow1; exampleRow2].

(** Two raw rows whose stages of extraction, 60.3 and 9.7, add up to 70 as
    doubles, and three whose extractions do not add up to a round number. *)
Definition stageRow (stage extraction : float) : GroundwaterRecord :=
  {| location := exampleLocation; year := "2024-2025";
     data := <["stageOfExtractionTotal" := Num stage]>
               (<["draftTotalTotal" := Num extraction]> ∅) |}.

Definition roundedRows : list GroundwaterRecord :=
  [stageRow 60.3 84.99; stageRow 9.7 3.99; stageRow 0 1.02].

End Aggregation.

(** ** Location catalog and fuzzy resolver ([services/locationSearch]) *)

Module LocationSearch.
Import Js Schema.

(** One match reported by the fuzzy-search library: the matched catalog
    entry and its distance, when the library reports one. *)
Record FuseResult : Type := {
  item : LocationRecord;
  score : option float;
}.

(** The index object built by [new Fuse(list, options)]; only its [search]
    method is used.  The library is external: its matching is whatever the
    object does. *)
Record Fuse : Type := {
  search : string → list FuseResult;
}.

(** The module-level variables [locationCache] and [fuse]. *)
Record State : Type := {
  locationCache : list LocationRecord;
  fuse : option Fuse;
}.

(** [let locationCache = []; let fuse = null;] *)
Definition initialState : State :=
  {| locationCache := []; fuse := None |}.

Inductive Error : Type :=
| NotInitialized
    (* "Location search not initialized. Call initLocationSearch first." *)
| InitFailed (retries : nat)
    (* "Failed to initialize location search after ${retries} attempts" *).

(** The loop of [initLocationSearch(retries, delay)].  [newFuse] is the
    library constructor, [select i] the outcome of the [i]-th run of
    [db.select().from(locations)] ([None] when it rejects); [remaining] is
    [retries - i].  The delay between two attempts takes time only. *)
Fixpoint initLoop (newFuse : list LocationRecord → Fuse)
    (select : nat → option (list LocationRecord))
    (retries remaining i : nat) (st : State) : result Error unit * State :=
  match remaining with
  | O => (Ok tt, st)
  | S remaining' =>
      match select i with
      | Some rows =>
          (Ok tt, {| locationCache := rows; fuse := Some (newFuse rows) |})
      | None =>
          if (i <? retries - 1)%nat
          then initLoop newFuse select retries remaining' (S i) st
          else (Throw (InitFailed retries), st)
      end
  end.

Definition initLocationSearch (newFuse : list LocationRecord → Fuse)
    (select : nat → option (list LocationRecord))
    (retries : nat) (st : State) : result Error unit * State :=
  initLoop newFuse select retries retries 0 st.

Record SearchResult : Type := {
  location : LocationRecord;
  score_ : float;
}.

Definition hasType (t : LocationType) (r : FuseResult) : bool :=
  LocationType_eqb (type (item r)) t.

(** The parent-hint block of [searchLocation], the same for both levels:
    [parentType] is STATE for a DISTRICT query and DISTRICT for a TALUK
    query. *)
Definition filterByParent (fz : Fuse) (parentType : LocationType)
    (parentName : string) (filtered : list FuseResult) : list FuseResult :=
  let normalizedParent := toLowerCase (trim (replaceSeparators parentName)) in
  let parentResults := search fz normalizedParent in
  let matchingIds :=
    List.map (λ r, id (item r)) (firstn 3 (List.filter (hasType parentType) parentResults)) in
  if (0 <? length matchingIds)%nat then
    let parentFiltered :=
      List.filter (λ r, includes matchingIds (default "" (parentId (item r)))) filtered in
    if (0 <? length parentFiltered)%nat then parentFiltered else filtered
  else filtered.

Definition toSearchResult (r : FuseResult) : SearchResult :=
  {| location := item r; score_ := PrimFloat.sub 1 (default 0%float (score r)) |}.

(** [searchLocation(query, type?, parentName?)] *)
Definition searchLocation (query : string) (type : option LocationType)
    (parentName : option string) (st : State)
    : result Error (list SearchResult) :=
  match fuse st with
  | None => Throw NotInitialized
  | Some fz =>
      let normalizedQuery := trim (replaceSeparators query) in
      let results := search fz normalizedQuery in
      let filtered :=
        match type with
        | Some t => List.filter (hasType t) results
        | None => results
        end in
      let filtered :=
        match type with
        | Some DISTRICT =>
            if truthy_str parentName
            then filterByParent fz STATE (default "" parentName) filtered
            else filtered
        | _ => filtered
        end in
      let filtered :=
        match type with
        | Some TALUK =>
            if truthy_str parentName
            then filterByParent fz DISTRICT (default "" parentName) filtered
            else filtered
        | _ => filtered
        end in
      Ok (List.map toSearchResult (firstn 5 filtered))
  end.

Definition searchState (query : string) (st : State) :=
  searchLocation query (Some STATE) None st.

Definition searchDistrict (query : string) (stateName : option string)
    (st : State) :=
  searchLocation query (Some DISTRICT) stateName st.

Definition searchTaluk (query : string) (districtName : option string)
    (st : State) :=
  searchLocation query (Some TALUK) districtName st.

(** The level one above a level that has one in the catalog search. *)
Definition parentLevel (t : LocationType) : option LocationType :=
  match t with
  | DISTRICT => Some STATE
  | TALUK => Some DISTRICT
  | _ => None
  end.

(** A stand-in for the library on small examples: an index that reports
    the entries whose name is the query up to letter case, at distance
    zero. *)
Definition exactFuse (list : list LocationRecord) : Fuse :=
  {| search := λ pattern,
       (λ l, {| item := l; score := Some 0%float |})
         <$> List.filter (λ l, String.eqb (toLowerCase (name l)) (toLowerCase pattern))
               list |}.

Definition exampleLocations : list LocationRecord :=
  [ {| id := "s1"; externalId := None; name := "Karnataka"; type := STATE;
       parentId := Some "c1" |};
    {| id := "s2"; externalId := None; name := "Maharashtra"; type := STATE;
       parentId := Some "c1" |};
    {| id := "d1"; externalId := None; name := "Bidar"; type := DISTRICT;
       parentId := Some "s1" |};
    {| id := "d2"; externalId := None; name := "Aurangabad"; type := DISTRICT;
       parentId := Some "s2" |};
    {| id := "d3"; externalId := None; name := "Aurangabad"; type := DISTRICT;
       parentId := Some "s3" |} ].

Definition loadedState : State :=
  {| locationCache := exampleLocations; fuse := Some (exactFuse exampleLocations) |}.

End LocationSearch.

(** ** Stable sorting

    [Array.prototype.sort] is stable; [sortBy le] is the stable sort for the
    comparator that keeps [a] before [b] when [le a b].  The same function
    models [ORDER BY], whose order among equal keys the store leaves open:
    nothing proved below depends on that order. *)

Module StableSort.
Section sortBy.
Context {A : Type} (le : A → A → bool).

Fixpoint insertSorted (x : A) (l : list A) : list A :=
  match l with
  | [] => [x]
  | y :: l' => if le x y then x :: l else y :: insertSorted x l'
  end.

Definition sortBy (l : list A) : list A := foldr insertSorted [] l.
End sortBy.
End StableSort.

(** ** Groundwater service ([services/groundwaterService]) *)

Module GroundwaterService.
Import Js Schema Aggregation StableSort.

Definition LATEST_YEAR : string := "2024-2025".

Inductive Order : Type := asc | desc.

(** The record built from one row of the join. *)
Definition toRecord (row : GwRow * LocationRecord) : GroundwaterRecord :=
  {| location := {| Aggregation.id := Schema.id row.2;
                    Aggregation.name := Schema.name row.2;
                    Aggregation.type := Schema.type row.2 |};
     Aggregation.year := Schema.year row.1;
     data := rowObject row.1 |}.

(** The query of [getGroundwaterDataByLocationId]: the joined rows of one
    location and year. *)
Definition selectByLocationAndYear (locationId year : string) (s : Store)
    : list (GwRow * LocationRecord) :=
  List.filter (λ row, String.eqb (Schema.id row.2) locationId
                      && String.eqb (Schema.year row.1) year)
    (innerJoin s).

(** [getGroundwaterDataByLocationId(locationId, year = LATEST_YEAR)] *)
Definition getGroundwaterDataByLocationId (locationId : string)
    (year : option string) (s : Store) : option GroundwaterRecord :=
  let result := selectByLocationAndYear locationId (default LATEST_YEAR year) s in
  if (length result =? 0)%nat then None
  else aggregateGroundwaterRecords (toRecord <$> result).

Definition fieldMap : list (string * string) :=
  [ ("rainfall", "rainfall_total");
    ("recharge", "recharge_total_total");
    ("extraction", "draft_total_total");
    ("draft", "draft_total_total");
    ("extractable", "extractable_total");
    ("stage", "stage_of_extraction_total");
    ("stage_of_extraction", "stage_of_extraction_total");
    ("loss", "loss_total");
    ("availability", "availability_future_total");
    ("irrigation_extraction", "draft_agriculture_total");
    ("domestic_extraction", "draft_domestic_total");
    ("industrial_extraction", "draft_industry_total");
    ("recharge_from_rainfall", "recharge_rainfall_total") ].

(** [table[key]] on a literal object given as its list of entries. *)
Fixpoint assoc (key : string) (table : list (string * string)) : option string :=
  match table with
  | [] => None
  | (k, v) :: table' => if String.eqb k key then Some v else assoc key table'
  end.

Definition fieldToColumn (field : string) : option string :=
  assoc (toLowerCase field) fieldMap.

(** The property of the row object that holds a column, from the schema
    of [groundwater_data]. *)
Definition columnProperties : list (string * string) :=
  [ ("rainfall_total", "rainfallTotal");
    ("recharge_total_total", "rechargeTotalTotal");
    ("draft_total_total", "draftTotalTotal");
    ("extractable_total", "extractableTotal");
    ("stage_of_extraction_total", "stageOfExtractionTotal");
    ("loss_total", "lossTotal");
    ("availability_future_total", "availabilityFutureTotal");
    ("draft_agriculture_total", "draftAgricultureTotal");
    ("draft_domestic_total", "draftDomesticTotal");
    ("draft_industry_total", "draftIndustryTotal");
    ("recharge_rainfall_total", "rechargeRainfallTotal") ].

(** The cell of column [columnName] in a row, [None] for NULL. *)
Definition cell (columnName : string) (g : GwRow) : option float :=
  match assoc columnName columnProperties with
  | Some property => nums g !! property
  | None => None
  end.

(** The order of the store on [double precision] values: NaN is equal to
    itself and larger than every other number. *)
Definition num_le (x y : float) : bool :=
  if isNaN y then true
  else if isNaN x then false
  else PrimFloat.leb x y.

(** The order of [ORDER BY] on a nullable numeric column: NULL sorts as
    larger than every number. *)
Definition sql_le (a b : option float) : bool :=
  match a, b with
  | _, None => true
  | None, Some _ => false
  | Some x, Some y => num_le x y
  end.

(** [orderBy(orderFn(column))] *)
Definition orderBy (order : Order) (columnName : string)
    (rows : list (GwRow * LocationRecord)) : list (GwRow * LocationRecord) :=
  match order with
  | asc => sortBy (λ a b, sql_le (cell columnName a.1) (cell columnName b.1)) rows
  | desc => sortBy (λ a b, sql_le (cell columnName b.1) (cell columnName a.1)) rows
  end.

(** The [where] clause of [getTopLocationsByField]. *)
Definition qualifies (columnName : string) (locationType : LocationType)
    (year : string) (row : GwRow * LocationRecord) : bool :=
  LocationType_eqb (Schema.type row.2) locationType
  && String.eqb (Schema.year row.1) year
  && bool_decide (is_Some (cell columnName row.1)).

(** [getTopLocationsByField(field, locationType, order, limit, year)] *)
Definition getTopLocationsByField (field : string) (locationType : LocationType)
    (order : Order) (limit : nat) (year : string) (s : Store)
    : list GroundwaterRecord :=
  match fieldToColumn field with
  | None => []
  | Some columnName =>
      toRecord <$>
        firstn limit
          (orderBy order columnName
             (List.filter (qualifies columnName locationType year) (innerJoin s)))
  end.

(** The rows a ranking by [property] chooses from: the joined rows of the
    given type and year that hold a value under the property. *)
Definition rankable (property : string) (locationType : LocationType)
    (year : string) (s : Store) : list (GwRow * LocationRecord) :=
filter (λ row, Schema.type row.2 = locationType ∧ Schema.year row.1 = year
               ∧ is_Some (nums row.1 !! property))
  (innerJoin s).

(** The number a record holds under [property]. *)
Definition numberAt (property : string) (r : GroundwaterRecord) : option float :=
  match data r !! property with
  | Some (Num v) => Some v
  | _ => None
  end.

(** Record [a] may precede record [b] in a ranking by [property]: both hold
    a number there, and the numbers are in the requested order. *)
Definition rankedBefore (order : Order) (property : string)
    (a b : GroundwaterRecord) : Prop :=
  ∃ x y, numberAt property a = Some x ∧ numberAt property b = Some y
         ∧ match order with
           | desc => num_le y x = true
           | asc => num_le x y = true
           end.

(** A small store: four states and a district; Karnataka has two raw rows
    for 2024-2025, Goa has no extraction value. *)
Definition exampleState (i n : string) : LocationRecord :=
  {| Schema.id := i; externalId := None; Schema.name := n; Schema.type := STATE;
     parentId := Some "c1" |}.

Definition exampleGwRow (i l y : string) (values : list (string * float)) : GwRow :=
  {| rowId := i; locationId := l; Schema.year := y;
     nums := list_to_map values; texts := ∅ |}.

Definition exampleStore : Store :=
  {| locations :=
       [ exampleState "s1" "Karnataka"; exampleState "s2" "Kerala";
         exampleState "s3" "Goa"; exampleState "s4" "Punjab";
         {| Schema.id := "d1"; externalId := None; Schema.name := "Mysuru";
            Schema.type := DISTRICT; parentId := Some "s1" |} ];
     groundwaterData :=
       [ exampleGwRow "g1" "s1" "2024-2025"
           [("draftTotalTotal", 10%float); ("stageOfExtractionTotal", 40%float)];
         exampleGwRow "g2" "s1" "2024-2025"
           [("draftTotalTotal", 15%float); ("stageOfExtractionTotal", 45%float)];
         exampleGwRow "g3" "s2" "2024-2025" [("draftTotalTotal", 30%float)];
         exampleGwRow "g4" "s3" "2024-2025" [("rainfallTotal", 900%float)];
         exampleGwRow "g5" "s4" "2024-2025" [("draftTotalTotal", 20%float)];
         exampleGwRow "g6" "s2" "2023-2024" [("draftTotalTotal", 50%float)];
         exampleGwRow "g7" "s4" "2023-2024" [("draftTotalTotal", 5%float)];
         exampleGwRow "g8" "d1" "2024-2025" [("draftTotalTotal", 99%float)] ] |}.

End GroundwaterService.

(** ** Metric names ([utils/metricHelpers]) *)

Module MetricHelpers.

(** The [field] component of [METRIC_CONFIG]. *)
Definition METRIC_CONFIG : list (string * string) :=
  [ ("rainfall", "rainfallTotal");
    ("recharge", "rechargeTotalTotal");
    ("extraction", "draftTotalTotal");
    ("extractable", "extractableTotal");
    ("stage_of_extraction", "stageOfExtractionTotal");
    ("loss", "lossTotal");
    ("availability", "availabilityFutureTotal");
    ("irrigation_extraction", "draftAgricultureTotal");
    ("domestic_extraction", "draftDomesticTotal");
    ("industrial_extraction", "draftIndustryTotal");
    ("recharge_from_rainfall", "rechargeRainfallTotal");
    ("net_balance", "netBalance") ].

Definition metricToField (metric : string) : string :=
  default metric (GroundwaterService.assoc metric METRIC_CONFIG).

End MetricHelpers.

(** ** Ranking and trend engine ([services/gwTools], tool [get_top_locations]) *)

Module GwTools.
Import Js Schema Aggregation StableSort GroundwaterService MetricHelpers.
Import YearFiltering.

(** [getAvailableYears()]: the distinct years of the store, sorted. *)
Definition getAvailableYears (s : Store) : list string :=
  sortBy String.leb (remove_dups (Schema.year <$> groundwaterData s)).

(** An element of [yearlyRankings[y]]. *)
Record RankedEntry : Type := {
  rank : nat;
  name : string;
  value : option float;
  category : option Js.value;
}.

(** An element of [aggregatedData]. *)
Record AggregateRow : Type := {
  aname : string;
  avgValue : float;
  minValue : float;
  maxValue : float;
}.

(** A point of [trendData]: the year and, for each charted location, its
    value that year ([None] for [null]). *)
Record TrendPoint : Type := {
  pyear : string;
  series : list (string * option float);
}.

(** [d[metricToField(metric)] ?? null], read as the number the column
    holds: the cell of a numeric column is a number (NaN included) or NULL,
    and a metric under which anything is fetched names a numeric column or
    no property at all. *)
Definition metricValue (metric : string) (r : GroundwaterRecord) : option float :=
  numberAt (metricToField metric) r.

(** The callback of [records.map((r, i) => ...)], without its effect on
    [locationAggregates]. *)
Definition rankedEntry (metric : string) (i : nat) (r : GroundwaterRecord)
    : RankedEntry :=
  {| rank := i + 1;
     name := Aggregation.name (location r);
     value := metricValue metric r;
     category := data r !! "categoryTotal" |}.

(** The effect of that callback on [locationAggregates], an object keyed by
    location name, kept here in insertion order: create the entry when the
    name is new, then push the value unless it is [null]. *)
Fixpoint accumulate (name : string) (value : option float)
    (locationAggregates : list (string * list float)) : list (string * list float) :=
  match locationAggregates with
  | [] => [(name, option_list value)]
  | (n, values) :: rest =>
      if String.eqb n name then (n, (values ++ option_list value)%list) :: rest
      else (n, values) :: accumulate name value rest
  end.

(** [values.reduce((a, b) => a + b, 0)]: the values are added from left to
    right, each addition rounding to the nearest double. *)
Definition total (values : list float) : float :=
  fold_left PrimFloat.add values 0%float.

(** The callback of [Object.values(locationAggregates).map(...)]. *)
Definition summarize (loc : string * list float) : AggregateRow :=
  let values := loc.2 in
  {| aname := loc.1;
     avgValue := if (0 <? length values)%nat
                 then PrimFloat.div (total values) (lengthOf values)
                 else 0%float;
     minValue := if (0 <? length values)%nat then minOf values else 0%float;
     maxValue := if (0 <? length values)%nat then maxOf values else 0%float |}.

(** The comparator of the final sort. *)
Definition compareAverage (order : Order) (a b : AggregateRow) : float :=
  match order with
  | desc => PrimFloat.sub (avgValue b) (avgValue a)
  | asc => PrimFloat.sub (avgValue a) (avgValue b)
  end.

(** What the sort makes of it: [a] stays before [b] unless the comparator
    is positive (a comparator that returns NaN counts as returning zero). *)
Definition byAverage (order : Order) (a b : AggregateRow) : bool :=
  negb (PrimFloat.ltb 0 (compareAverage order a b)).

(** The state of the loop over [yearsToQuery]. *)
Record LoopState : Type := {
  locationAggregates : list (string * list float);
  yearlyRankings : gmap string (list RankedEntry);
}.

(** One iteration of [for (const y of yearsToQuery)]. *)
Definition yearStep (metric : string) (type : LocationType) (order : Order)
    (limit : nat) (s : Store) (st : LoopState) (y : string) : LoopState :=
  let records := getTopLocationsByField metric type order (limit * 2) y s in
  let entries := imap (rankedEntry metric) records in
  {| locationAggregates :=
       fold_left (λ aggs e, accumulate (name e) (value e) aggs) entries
         (locationAggregates st);
     yearlyRankings := <[y := entries]> (yearlyRankings st) |}.

Definition yearLoop (metric : string) (type : LocationType) (order : Order)
    (limit : nat) (s : Store) (yearsToQuery : list string) : LoopState :=
  fold_left (yearStep metric type order limit s) yearsToQuery
    {| locationAggregates := []; yearlyRankings := ∅ |}.

Definition aggregatedDataOf (order : Order) (limit : nat) (st : LoopState)
    : list AggregateRow :=
  firstn limit (sortBy (byAverage order) (summarize <$> locationAggregates st)).

(** [yearlyRankings[y]?.find((r) => r.name === loc.name)?.value ?? null] *)
Definition trendValue (st : LoopState) (y : string) (locName : string)
    : option float :=
  match yearlyRankings st !! y with
  | Some entries =>
      match List.find (λ r, String.eqb (name r) locName) entries with
      | Some r => value r
      | None => None
      end
  | None => None
  end.

Definition trendDataOf (st : LoopState) (yearsToQuery : list string)
    (aggregatedData : list AggregateRow) : list TrendPoint :=
  (λ y, {| pyear := y;
           series := (λ loc, (aname loc, trendValue st y (aname loc)))
                       <$> firstn 5 aggregatedData |})
    <$> yearsToQuery.

(** An element of [data] in single-year mode; the properties are passed on
    as the record holds them. *)
Record RankedRow : Type := {
  rrank : nat;
  rname : string;
  rvalue : option Js.value;
  rcategory : option Js.value;
  stageOfExtraction : option Js.value;
  rainfall : option Js.value;
  recharge : option Js.value;
  extraction : option Js.value;
}.

(** The callback of [records.map((r, i) => ...)] in single-year mode. *)
Definition rankedRow (metric : string) (i : nat) (r : GroundwaterRecord)
    : RankedRow :=
{| rrank := i + 1;
   rname := Aggregation.name (location r);
   rvalue := data r !! metricToField metric;
   rcategory := data r !! "categoryTotal";
   stageOfExtraction := data r !! "stageOfExtractionTotal";
   rainfall := data r !! "rainfallTotal";
   recharge := data r !! "rechargeTotalTotal";
   extraction := data r !! "draftTotalTotal" |}.

(** What the tool reports (the object handed to [JSON.stringify], without
    its labels and text summary). *)
Inductive ToolOutput : Type :=
| Historical (yearsAnalyzed : list string) (data : list AggregateRow)
    (trendData : list TrendPoint)
| SingleYear (year : string) (data : list RankedRow)
| NoData.

(** The handler of [getTopLocationsTool]. *)
Definition getTopLocationsTool (metric : string) (type : LocationType)
    (order : Order) (limit : nat) (yearParams : YearFilterParams) (s : Store)
    : ToolOutput :=
  let r := getFilteredYears yearParams (getAvailableYears s) in
  if isHistorical r && (1 <? length (yearsToQuery r))%nat then
    let st := yearLoop metric type order limit s (yearsToQuery r) in
    let aggregatedData := aggregatedDataOf order limit st in
    Historical (yearsToQuery r) aggregatedData
      (trendDataOf st (yearsToQuery r) aggregatedData)
  else
    let records := getTopLocationsByField metric type order limit (targetYear r) s in
    if (length records =? 0)%nat then NoData
    else SingleYear (targetYear r) (imap (rankedRow metric) records).

(** *** Vocabulary for the multi-year ranking *)

(** What is fetched for one year: twice the limit. *)
Definition fetched (metric : string) (type : LocationType) (order : Order)
    (limit : nat) (s : Store) (y : string) : list GroundwaterRecord :=
getTopLocationsByField metric type order (limit * 2) y s.

(** The location named [locName] appears in the fetch of some year in
    scope. *)
Definition appears (metric : string) (type : LocationType) (order : Order)
    (limit : nat) (s : Store) (years : list string) (locName : string) : Prop :=
∃ y r, y ∈ years ∧ r ∈ fetched metric type order limit s y
       ∧ Aggregation.name (location r) = locName.

(** The metric values of the location named [locName], year after year,
    over the years in whose fetch it appears. *)
Definition valuesOf (metric : string) (type : LocationType) (order : Order)
    (limit : nat) (s : Store) (years : list string) (locName : string) : list float :=
flat_map (λ y,
    flat_map (λ r, if String.eqb (Aggregation.name (location r)) locName
                   then option_list (metricValue metric r) else [])
      (fetched metric type order limit s y))
  years.

(** The value of the location named [locName] in the fetch of year [y]. *)
Definition yearValue (metric : string) (type : LocationType) (order : Order)
    (limit : nat) (s : Store) (y : string) (locName : string) : option float :=
match List.find (λ r, String.eqb (Aggregation.name (location r)) locName)
        (fetched metric type order limit s y) with
| Some r => metricValue metric r
| None => None
end.

(** The name and value that one fetched record contributes. *)
Definition eventOf (metric : string) (r : GroundwaterRecord) : string * option float :=
(Aggregation.name (location r), metricValue metric r).

(** The contributions of the years in scope, in the order the loop meets
    them. *)
Definition eventsOf (metric : string) (type : LocationType) (order : Order)
    (limit : nat) (s : Store) (years : list string) : list (string * option float) :=
flat_map (λ y, eventOf metric <$> fetched metric type order limit s y) years.

(** The entry of [locationAggregates] under a name, and the values a list of
    contributions holds for a name. *)
Definition aggValues (aggs : list (string * list float)) (n : string)
    : option (list float) :=
snd <$> List.find (λ p, String.eqb p.1 n) aggs.

Definition valuesIn (events : list (string * option float)) (n : string) : list float :=
flat_map (λ e, if String.eqb e.1 n then option_list e.2 else []) events.

(** [row] is the average, minimum and maximum of a non-empty list of
    numbers: the average is the left-to-right sum divided by the count, and
    when no value is NaN the minimum and the maximum are values of the list
    that bound all of them. *)
Definition summarizes (row : AggregateRow) (values : list float) : Prop :=
avgValue row = PrimFloat.div (total values) (lengthOf values)
∧ minValue row = minOf values
∧ maxValue row = maxOf values
∧ (Forall (λ v, isNaN v = false) values →
   minValue row ∈ values
   ∧ (∀ v, v ∈ values → PrimFloat.leb (minValue row) v = true)
   ∧ maxValue row ∈ values
   ∧ (∀ v, v ∈ values → PrimFloat.leb v (maxValue row) = true)).

(** [a] comes before [b] when ranked by average. *)
Definition averageBefore (order : Order) (a b : AggregateRow) : Prop :=
match order with
| desc => PrimFloat.leb (avgValue b) (avgValue a) = true
| asc => PrimFloat.leb (avgValue a) (avgValue b) = true
end.

(** The rows computed from [locationAggregates] after the loop over the
    years, before they are sorted and cut. *)
Definition summaries (metric : string) (type : LocationType) (order : Order)
    (limit : nat) (s : Store) (years : list string) : list AggregateRow :=
summarize <$> locationAggregates (yearLoop metric type order limit s years).

(** No row has NaN for its average. *)
Definition averagesAreNumbers (rows : list AggregateRow) : Prop :=
Forall (λ row, isNaN (avgValue row) = false) rows.

(** The metric values of the location with id [locId], year after year,
    over the years in whose fetch it appears. *)
Definition valuesOfLocation (metric : string) (type : LocationType) (order : Order)
    (limit : nat) (s : Store) (years : list string) (locId : string) : list float :=
flat_map (λ y,
    flat_map (λ r, if String.eqb (Aggregation.id (location r)) locId
                   then option_list (metricValue metric r) else [])
      (fetched metric type order limit s y))
  years.

(** The store holds at most one row for a location and a year, and one
    location for an id. *)
Definition oneRowPerLocationYear (s : Store) : Prop :=
NoDup ((λ g, (locationId g, Schema.year g)) <$> groundwaterData s)
∧ NoDup (Schema.id <$> locations s).

Definition rangeFrom2023 : YearFilterParams :=
{| YearFiltering.year := None; fromYear := Some "2023-2024"; toYear := None;
   specificYears := None |}.

(** Two districts of the same name in two states, each with one row for
    2023-2024 and one for 2024-2025. *)
Definition namesakeStore : Store :=
{| locations :=
     [ {| Schema.id := "d1"; externalId := None; Schema.name := "Aurangabad";
          Schema.type := DISTRICT; parentId := Some "s1" |};
       {| Schema.id := "d2"; externalId := None; Schema.name := "Aurangabad";
          Schema.type := DISTRICT; parentId := Some "s2" |} ];
   groundwaterData :=
     [ exampleGwRow "g1" "d1" "2023-2024" [("draftTotalTotal", 10%float)];
       exampleGwRow "g2" "d1" "2024-2025" [("draftTotalTotal", 12%float)];
       exampleGwRow "g3" "d2" "2023-2024" [("draftTotalTotal", 20%float)];
       exampleGwRow "g4" "d2" "2024-2025" [("draftTotalTotal", 22%float)] ] |}.

End GwTools.


(** ** Grouping and per-year aggregation ([utils/aggregation], continued) *)

Module HistoricalAggregation.
Import Js Aggregation StableSort.

(** [HistoricalRecord], declared by the groundwater service: a row tagged
    with its year and location, later the aggregate of a year. *)
Record HistoricalRecord : Type := {
  year : string;
  locationId : string;
  locationName : string;
  data : gmap string value;
}.

(** [existing = grouped.get(key) || []; existing.push(record);
    grouped.set(key, existing)] on a [Map], kept as its list of entries in
    insertion order. *)
Fixpoint mapPush {T : Type} (key : string) (record : T)
    (grouped : list (string * list T)) : list (string * list T) :=
  match grouped with
  | [] => [(key, [record])]
  | (k, existing) :: rest =>
      if String.eqb k key then (k, existing ++ [record]) :: rest
      else (k, existing) :: mapPush key record rest
  end.

(** The loop shared by [groupRecordsByName] and [groupRecordsByYear]. *)
Definition groupBy {T : Type} (keyOf : T → string) (records : list T)
    : list (string * list T) :=
  fold_left (λ grouped record, mapPush (keyOf record) record grouped) records [].

(** [groupRecordsByName(records)] *)
Definition groupRecordsByName {T : Type} (locationNameOf : T → string)
    (records : list T) : list (string * list T) :=
  groupBy (λ record, trim (toLowerCase (locationNameOf record))) records.

(** [groupRecordsByYear(records)] *)
Definition groupRecordsByYear {T : Type} (yearOf : T → string)
    (records : list T) : list (string * list T) :=
  groupBy yearOf records.

(** The two summing loops of [aggregateHistoricalRecords], over the records
    of one year. *)
Definition sumData (records : list HistoricalRecord) : gmap string float :=
  fold_left (λ aggregated record,
               fold_left addEntry (map_to_list (data record)) aggregated)
    records ∅.

(** What is pushed for one entry of the map whose list is not empty. *)
Definition aggregateYear (year : string) (first : HistoricalRecord)
    (records : list HistoricalRecord) : HistoricalRecord :=
  let aggregated := sumData records in
  {| year := year;
     locationId := locationId first;
     locationName := locationName first;
     data := <["categoryTotal" :=
                 Str (determineCategoryFromStage
                        (aggregated !! "stageOfExtractionTotal"))]>
               (Num <$> aggregated) |}.

(** [a.localeCompare(b) <= 0]; the collation [localeCompare] belongs to the
    runtime. *)
Definition localeLe (localeCompare : string → string → comparison)
    (a b : string) : bool :=
  match localeCompare a b with
  | Gt => false
  | _ => true
  end.

(** [aggregateHistoricalRecords(recordsByYear)] *)
Definition aggregateHistoricalRecords
    (localeCompare : string → string → comparison)
    (recordsByYear : list (string * list HistoricalRecord))
    : list HistoricalRecord :=
  let aggregatedRecords :=
    fold_left (λ acc entry,
                 match entry.2 with
                 | [] => acc
                 | first :: _ => acc ++ [aggregateYear entry.1 first entry.2]
                 end)
      recordsByYear [] in
  sortBy (λ a b, localeLe localeCompare (year a) (year b)) aggregatedRecords.

(** The number a record holds under a key, the numbers records hold under
    it and their sum, as for [GroundwaterRecord]. *)
Definition numericField (key : string) (record : HistoricalRecord)
    : option float :=
  match data record !! key with
  | Some (Num v) => if isNaN v then None else Some v
  | _ => None
  end.

Definition fieldValues (key : string) (records : list HistoricalRecord)
    : list float :=
  omap (numericField key) records.

Definition summedField (key : string) (records : list HistoricalRecord)
    : option float :=
  match fieldValues key records with
  | [] => None
  | values => Some (sum values)
  end.

(** The list a grouping holds under a key. *)
Definition groupOf {T : Type} (grouped : list (string * list T)) (key : string)
    : option (list T) :=
  snd <$> List.find (λ entry, String.eqb entry.1 key) grouped.

(** Rows of one location over three years, two of them for 2018-2019. *)
Definition exampleHistory : list HistoricalRecord :=
  [ {| year := "2018-2019"; locationId := "s1"; locationName := "Karnataka";
       data := <["draftTotalTotal" := Num 10]>
                 (<["stageOfExtractionTotal" := Num 60]> ∅) |};
    {| year := "2016-2017"; locationId := "s1"; locationName := "Karnataka";
       data := <["draftTotalTotal" := Num 7]>
                 (<["categoryTotal" := Str "safe"]>
                    (<["stageOfExtractionTotal" := Num 95]> ∅)) |};
    {| year := "2018-2019"; locationId := "s1"; locationName := "Karnataka";
       data := <["draftTotalTotal" := Num 15]>
                 (<["stageOfExtractionTotal" := Num 45]> ∅) |} ].

End HistoricalAggregation.

(** ** Catalog reads ([services/locationSearch], continued) *)

Module Catalog.
Import Js Schema LocationSearch.

(** [getAllStates()], [getAllDistricts()] *)
Definition getAllStates (st : State) : list LocationRecord :=
  List.filter (λ l, LocationType_eqb (type l) STATE) (locationCache st).

Definition getAllDistricts (st : State) : list LocationRecord :=
  List.filter (λ l, LocationType_eqb (type l) DISTRICT) (locationCache st).

(** [l.parentId === id] for a parent reference that may be [null]. *)
Definition parentIs (l : LocationRecord) (parent : string) : bool :=
  match parentId l with
  | Some p => String.eqb p parent
  | None => false
  end.

(** [getDistrictsOfState(stateId)], [getTaluksOfDistrict(districtId)] *)
Definition getDistrictsOfState (stateId : string) (st : State)
    : list LocationRecord :=
  List.filter (λ l, LocationType_eqb (type l) DISTRICT && parentIs l stateId)
    (locationCache st).

Definition getTaluksOfDistrict (districtId : string) (st : State)
    : list LocationRecord :=
  List.filter (λ l, LocationType_eqb (type l) TALUK && parentIs l districtId)
    (locationCache st).

(** [name.replace(/[_-]/g, " ").trim().toLowerCase()] *)
Definition normalizeName (name : string) : string :=
  toLowerCase (trim (replaceSeparators name)).

(** [getLocationsByNameAndType(name, type)] *)
Definition getLocationsByNameAndType (name : string) (type : LocationType)
    (st : State) : list LocationRecord :=
  let normalizedName := normalizeName name in
  List.filter (λ l, LocationType_eqb (Schema.type l) type
                    && String.eqb (normalizeName (Schema.name l)) normalizedName)
    (locationCache st).

(** [getLocationById(id)]: the first row of the table with that id, or
    [null]. *)
Definition getLocationById (id : string) (s : Store) : option LocationRecord :=
  head (List.filter (λ l, String.eqb (Schema.id l) id) (locations s)).

(** [getLocationByExternalId(externalId)] *)
Definition getLocationByExternalId (externalId : string) (s : Store)
    : option LocationRecord :=
  head (List.filter (λ l, match Schema.externalId l with
                          | Some e => String.eqb e externalId
                          | None => false
                          end) (locations s)).

(** [getChildren(parentId)] *)
Definition getChildren (parent : string) (s : Store) : list LocationRecord :=
  List.filter (λ l, parentIs l parent) (locations s).

(** The loop of [getLocationHierarchy(locationId)]: [fuel] bounds the number
    of times the loop condition is tested; [None] when the bound is reached
    before the loop ends. *)
Fixpoint hierarchyLoop (fuel : nat) (s : Store) (currentId : option string)
    (hierarchy : list LocationRecord) : option (list LocationRecord) :=
  match fuel with
  | O => None
  | S fuel' =>
      if truthy_str currentId then
        match getLocationById (default "" currentId) s with
        | None => Some hierarchy
        | Some location =>
            hierarchyLoop fuel' s (parentId location) (location :: hierarchy)
        end
      else Some hierarchy
  end.

Definition getLocationHierarchy (fuel : nat) (locationId : string) (s : Store)
    : option (list LocationRecord) :=
  hierarchyLoop fuel s (Some locationId) [].

(** The level of a type in the hierarchy, the country being level 0. *)
Definition level (t : LocationType) : nat :=
  match t with
  | COUNTRY => 0
  | STATE => 1
  | DISTRICT => 2
  | TALUK => 3
  end.

(** Every parent reference that resolves leads one level up. *)
Definition wellLayered (s : Store) : Prop :=
  ∀ l p parent, l ∈ locations s → parentId l = Some p →
                getLocationById p s = Some parent →
                S (level (type parent)) = level (type l).

(** [chain] lists a location's ancestors from the top down to the location
    itself: each entry is the parent of the next. *)
Fixpoint isChain (chain : list LocationRecord) : Prop :=
  match chain with
  | a :: (b :: _) as rest => parentId b = Some (id a) ∧ isChain rest
  | _ => True
  end.

(** A catalog of one state with two districts and a taluk, and one in which
    a location is its own parent. *)
Definition exampleCatalog : Store :=
  {| locations :=
       [ {| id := "c1"; externalId := Some "IN"; name := "India"; type := COUNTRY;
            parentId := None |};
         {| id := "s1"; externalId := Some "KA"; name := "Karnataka"; type := STATE;
            parentId := Some "c1" |};
         {| id := "d1"; externalId := None; name := "Bangalore-Urban";
            type := DISTRICT; parentId := Some "s1" |};
         {| id := "d2"; externalId := None; name := "Mysuru"; type := DISTRICT;
            parentId := Some "s1" |};
         {| id := "t1"; externalId := None; name := "Anekal"; type := TALUK;
            parentId := Some "d1" |} ];
     groundwaterData := [] |}.

Definition loopingCatalog : Store :=
  {| locations :=
       [ {| id := "x1"; externalId := None; name := "Nowhere"; type := STATE;
            parentId := Some "x1" |} ];
     groundwaterData := [] |}.

Definition exampleCatalogState : State :=
  {| locationCache := locations exampleCatalog;
     fuse := Some (exactFuse (locations exampleCatalog)) |}.

End Catalog.

(** ** Strings as lists of characters *)

Module Text.
Import Js.

(** [trimStart] and [trim] on the list of characters of a string. *)
Fixpoint trimStartL (l : list ascii) : list ascii :=
  match l with
  | c :: l' => if isWhiteSpace c then trimStartL l' else l
  | [] => []
  end.

Definition trimL (l : list ascii) : list ascii :=
  rev (trimStartL (rev (trimStartL l))).

(** The character maps of [replaceSeparators] and [toLowerCase]. *)
Definition separatorToSpace (c : ascii) : ascii :=
  if Ascii.eqb c "_" || Ascii.eqb c "-" then " "%char else c.

Definition lowerChar (c : ascii) : ascii :=
  let n := nat_of_ascii c in
  if (65 <=? n)%nat && (n <=? 90)%nat then ascii_of_nat (n + 32) else c.

End Text.

(** ** Lookups by search ([services/groundwaterService], continued) *)

Module GroundwaterQueries.
Import Js Schema Aggregation LocationSearch GroundwaterService.
Import HistoricalAggregation Catalog.

(** [parentName?.replace(/[_-]/g, " ").trim()] *)
Definition normalizeOptional (parentName : option string) : option string :=
  match parentName with
  | Some p => Some (trim (replaceSeparators p))
  | None => None
  end.

(** [searchAndGetGroundwaterData(query, locationType?, parentName?, year)] *)
Definition searchAndGetGroundwaterData (query : string)
    (locationType : option LocationType) (parentName : option string)
    (year : option string) (st : State) (s : Store)
    : result Error (option GroundwaterRecord) :=
  let normalizedQuery := trim (replaceSeparators query) in
  let normalizedParent := normalizeOptional parentName in
  let results :=
    match locationType with
    | Some STATE => searchState normalizedQuery st
    | Some DISTRICT => searchDistrict normalizedQuery normalizedParent st
    | Some TALUK => searchTaluk normalizedQuery normalizedParent st
    | _ => searchLocation normalizedQuery locationType None st
    end in
  match results with
  | Throw e => Throw e
  | Ok [] => Ok None
  | Ok (bestMatch :: _) =>
      Ok (getGroundwaterDataByLocationId (Schema.id (location bestMatch)) year s)
  end.

(** [getGroundwaterDataForYear(query, year, locationType?)] *)
Definition getGroundwaterDataForYear (query year : string)
    (locationType : option LocationType) (st : State) (s : Store) :=
  searchAndGetGroundwaterData query locationType None (Some year) st s.

(** [compareLocations(locationIds, year)] *)
Definition compareLocations (locationIds : list string) (year : option string)
    (s : Store) : list GroundwaterRecord :=
  fold_left (λ results id,
               match getGroundwaterDataByLocationId id year s with
               | Some data => results ++ [data]
               | None => results
               end) locationIds [].

(** [getLocationWithChildren(locationId, year)]: the record of the location
    and the records of its first twenty children that have one. *)
Definition getLocationWithChildren (locationId : string) (year : option string)
    (st : State) (s : Store)
    : option GroundwaterRecord * list GroundwaterRecord :=
  match getGroundwaterDataByLocationId locationId year s with
  | None => (None, [])
  | Some parent =>
      match getLocationById locationId s with
      | None => (Some parent, [])
      | Some location =>
          let childLocations :=
            match Schema.type location with
            | STATE => getDistrictsOfState locationId st
            | DISTRICT => getTaluksOfDistrict locationId st
            | _ => []
            end in
          (Some parent,
           fold_left (λ children child,
                        match getGroundwaterDataByLocationId (Schema.id child) year s with
                        | Some data => children ++ [data]
                        | None => children
                        end) (firstn 20 childLocations) [])
      end
  end.

(** The record built from one row of the join by
    [getHistoricalDataByLocationName]. *)
Definition toHistorical (row : GwRow * LocationRecord) : HistoricalRecord :=
  {| HistoricalAggregation.year := Schema.year row.1;
     HistoricalAggregation.locationId := Schema.id row.2;
     HistoricalAggregation.locationName := Schema.name row.2;
     HistoricalAggregation.data := rowObject row.1 |}.

(** [getHistoricalDataByLocationName(locationName, locationType)] *)
Definition getHistoricalDataByLocationName
    (localeCompare : string → string → comparison)
    (locationName : string) (locationType : LocationType) (st : State) (s : Store)
    : list HistoricalRecord :=
  let matchingLocations := getLocationsByNameAndType locationName locationType st in
  if (length matchingLocations =? 0)%nat then []
  else
    let locationIds := Schema.id <$> matchingLocations in
    let result :=
      List.filter (λ row, includes locationIds (Schema.id row.2)) (innerJoin s) in
    let records := toHistorical <$> result in
    aggregateHistoricalRecords localeCompare
      (groupRecordsByYear HistoricalAggregation.year records).

(** [searchAndGetHistoricalData(query, locationType)] *)
Definition searchAndGetHistoricalData
    (localeCompare : string → string → comparison)
    (query : string) (locationType : option LocationType) (st : State) (s : Store)
    : result Error (list HistoricalRecord) :=
  let normalizedQuery := trim (replaceSeparators query) in
  let results :=
    match locationType with
    | Some STATE => searchState normalizedQuery st
    | Some DISTRICT => searchDistrict normalizedQuery None st
    | Some TALUK => searchTaluk normalizedQuery None st
    | _ => searchLocation normalizedQuery None None st
    end in
  match results with
  | Throw e => Throw e
  | Ok [] => Ok []
  | Ok (bestMatch :: _) =>
      let locationType :=
        match locationType with
        | Some t => t
        | None => Schema.type (location bestMatch)
        end in
      Ok (getHistoricalDataByLocationName localeCompare
            (Schema.name (location bestMatch)) locationType st s)
  end.

(** [compareYears(locationName, locationType, years)] *)
Definition compareYears (localeCompare : string → string → comparison)
    (locationName : string) (locationType : LocationType) (years : list string)
    (st : State) (s : Store) : list HistoricalRecord :=
  let historicalData :=
    getHistoricalDataByLocationName localeCompare locationName locationType st s in
  if (length years =? 0)%nat then historicalData
  else List.filter (λ h, includes years (HistoricalAggregation.year h)) historicalData.

End GroundwaterQueries.

(** ** Vocabulary for the ranking tool's outputs *)

Module Ranking.
Import Js Schema Aggregation GroundwaterService MetricHelpers GwTools.

(** [VALID_METRICS]: the keys of [METRIC_CONFIG], the values the tool's
    schema admits for [metric]. *)
Definition VALID_METRICS : list string := METRIC_CONFIG.*1.

(** The output names no location: no data at all, or an empty ranking and
    empty series. *)
Definition reportsNoLocation (out : ToolOutput) : Prop :=
  match out with
  | NoData => True
  | Historical _ data trend => data = [] ∧ Forall (λ p, series p = []) trend
  | SingleYear _ _ => False
  end.

(** The request for one year that a request falls back to. *)
Definition yearOnly (yearParams : YearFiltering.YearFilterParams)
    : YearFiltering.YearFilterParams :=
  {| YearFiltering.year := YearFiltering.year yearParams;
     YearFiltering.fromYear := None; YearFiltering.toYear := None;
     YearFiltering.specificYears := None |}.

(** The minimum of a row is at most its maximum, or both are NaN. *)
Definition spanned (row : AggregateRow) : Prop :=
  PrimFloat.leb (minValue row) (maxValue row) = true
  ∨ (Js.isNaN (minValue row) = true ∧ Js.isNaN (maxValue row) = true).

Definition range2023Only : YearFiltering.YearFilterParams :=
  {| YearFiltering.year := None; YearFiltering.fromYear := Some "2023-2024";
     YearFiltering.toYear := Some "2023-2024"; YearFiltering.specificYears := None |}.

End Ranking.

(** ** Tool [list_locations] ([services/gwTools]) *)

Module Listing.
Import Js Schema LocationSearch Catalog.

(** The values the tool's schema admits for [locationType]. *)
Inductive ListedType : Type := state | district | taluk.

(** An element of [locations] in the output: [{ id, name, type }]. *)
Record Listed : Type := {
  lid : string;
  lname : string;
  ltype : LocationType;
}.

(** What the tool reports (the object handed to [JSON.stringify]). *)
Inductive ListOutput : Type :=
| Found (count : nat) (locations : list Listed)
| ParentNotFound (level : LocationType) (parentName : string)
    (* `State "${parentName}" not found`, `District "${parentName}" not found` *)
| ParentNeeded
    (* "For districts/taluks, provide parent name." *).

Definition listed (l : LocationRecord) : Listed :=
  {| lid := Schema.id l; lname := Schema.name l; ltype := Schema.type l |}.

Definition found (locations : list LocationRecord) : ListOutput :=
  Found (length locations) (listed <$> locations).

(** The two branches that resolve a parent: search it at [level], take the
    first result, list its children with [children]. *)
Definition listChildren (level : LocationType)
    (children : string → State → list LocationRecord)
    (parentName : string) (st : State) : result Error ListOutput :=
  match searchLocation (replaceSeparators parentName) (Some level) None st with
  | Throw e => Throw e
  | Ok [] => Ok (ParentNotFound level parentName)
  | Ok (first :: _) => Ok (found (children (Schema.id (location first)) st))
  end.

(** The handler of [listLocationsTool]. *)
Definition listLocationsTool (locationType : ListedType)
    (parentName : option string) (st : State) : result Error ListOutput :=
  match locationType with
  | state => Ok (found (getAllStates st))
  | district =>
      if truthy_str parentName
      then listChildren STATE getDistrictsOfState (default "" parentName) st
      else Ok ParentNeeded
  | taluk =>
      if truthy_str parentName
      then listChildren DISTRICT getTaluksOfDistrict (default "" parentName) st
      else Ok ParentNeeded
  end.

(** The catalog type that a listed type names, and the level its parent is
    searched at. *)
Definition catalogType (t : ListedType) : LocationType :=
  match t with
  | state => STATE
  | district => DISTRICT
  | taluk => TALUK
  end.

Definition parentOf (t : ListedType) : option LocationType :=
  match t with
  | state => None
  | district => Some STATE
  | taluk => Some DISTRICT
  end.

End Listing.

(** ** Vocabulary for the history of a name *)

Module History.
Import Js Schema LocationSearch Catalog GroundwaterService.

(** The catalog entry [l] answers to [name] at level [type]: same type, same
    name up to letter case, separators and surrounding white space. *)
Definition answersTo (name : string) (type : LocationType) (l : LocationRecord)
    : bool :=
  LocationType_eqb (Schema.type l) type
  && String.eqb (normalizeName (Schema.name l)) (normalizeName name).

(** The joined rows of every location whose id is the id of a cached entry
    answering to the name. *)
Definition namedRows (name : string) (type : LocationType) (st : State)
    (s : Store) : list (GwRow * LocationRecord) :=
  List.filter (λ row, existsb (λ l, answersTo name type l
                                    && String.eqb (Schema.id l) (Schema.id row.2))
                        (locationCache st))
    (innerJoin s).

Definition rowsOfYear (y : string) (rows : list (GwRow * LocationRecord))
    : list (GwRow * LocationRecord) :=
  List.filter (λ row, String.eqb (Schema.year row.1) y) rows.

(** The numbers that rows hold under a property and that a sum takes in
    (NaN is passed over). *)
Definition valuesUnder (property : string) (rows : list (GwRow * LocationRecord))
    : list float :=
  omap (λ row, match nums row.1 !! property with
               | Some v => if isNaN v then None else Some v
               | None => None
               end) rows.

(** Two districts of the same name in two states, with rows for both in
    2023-2024. *)
Definition twinLocations : list LocationRecord :=
  [ {| Schema.id := "d1"; externalId := None; Schema.name := "Aurangabad";
       Schema.type := DISTRICT; parentId := Some "s1" |};
    {| Schema.id := "d2"; externalId := None; Schema.name := "aurangabad ";
       Schema.type := DISTRICT; parentId := Some "s2" |} ].

Definition twinStore : Store :=
  {| locations := twinLocations;
     groundwaterData :=
       [ exampleGwRow "g1" "d1" "2024-2025" [("draftTotalTotal", 5%float)];
         exampleGwRow "g2" "d1" "2023-2024" [("draftTotalTotal", 10%float)];
         exampleGwRow "g3" "d2" "2023-2024" [("draftTotalTotal", 20%float)] ] |}.

Definition twinState : State :=
  {| locationCache := twinLocations; fuse := Some (exactFuse twinLocations) |}.

End History.

(** ** Tools [search_groundwater_data] and [get_historical_data]
    ([services/gwTools]) *)

Module DataTools.
Import Js Schema Aggregation LocationSearch GroundwaterService.
Import HistoricalAggregation GroundwaterQueries YearFiltering Listing.

(** How an answer words a location type: [search_groundwater_data] gives
    the catalog constant it searched with ("STATE"), [get_historical_data]
    repeats the word of the request ("state"). *)
Inductive TypeLabel : Type :=
| Catalogued (type : LocationType)
| AsRequested (locationType : ListedType).

(** What the two tools report (the object handed to [JSON.stringify]);
    [flagged] tells whether the answer carries [isHistorical: true], and
    [summarized] is what the text summary is formatted from. *)
Inductive DataOutput : Type :=
| FoundHistory (flagged : bool) (locationName locationId : string)
    (locationType : option TypeLabel) (yearsAvailable : list string)
    (dataPointCount : nat) (summarized : list HistoricalRecord)
| FoundRecord (locationId locationName : string) (locationType : LocationType)
    (year : string) (summarized : GroundwaterRecord)
| NoHistory (locationName : string) (availableYears : option (list string))
    (* `No historical data found for "${locationName}"`, with the available
       years when [get_historical_data] says it *)
| NoneInRange (locationName : string)
    (* `No data found for "${locationName}" in specified year range` *)
| NoRecord (locationName : string) (parentName : option string)
    (* `No groundwater data found for "${locationName}"`, followed by
       ` in ${parentName}` when there is one *).

(** [yearParams.fromYear || yearParams.toYear || yearParams.specificYears] *)
Definition wantsHistory (yearParams : YearFilterParams) : bool :=
  truthy_str (fromYear yearParams) || truthy_str (toYear yearParams)
  || truthy_arr (specificYears yearParams).

(** The part the two tools share once the records are there: filter by the
    request, then report. *)
Definition reportHistory (flagged : bool) (locationName : string)
    (locationType : option TypeLabel) (yearParams : YearFilterParams)
    (records : list HistoricalRecord) : DataOutput :=
  let records := filterRecordsByYear HistoricalAggregation.year records yearParams in
  match records with
  | [] => NoneInRange locationName
  | first :: _ =>
      FoundHistory flagged (HistoricalAggregation.locationName first)
        (HistoricalAggregation.locationId first) locationType
        (HistoricalAggregation.year <$> records) (length records) records
  end.

(** The handler of [searchGroundwaterDataTool]. *)
Definition searchGroundwaterDataTool
    (localeCompare : string → string → comparison)
    (locationName : string) (locationType : option ListedType)
    (stateName districtName : option string) (yearParams : YearFilterParams)
    (st : State) (s : Store) : result Error DataOutput :=
  let type : option LocationType := catalogType <$> locationType in
  let parentName :=
    match type with
    | Some DISTRICT => stateName
    | Some TALUK => districtName
    | _ => None
    end in
  if wantsHistory yearParams then
    match searchAndGetHistoricalData localeCompare locationName type st s with
    | Throw e => Throw e
    | Ok records =>
        if (length records =? 0)%nat then Ok (NoHistory locationName None)
        else Ok (reportHistory true locationName (Catalogued <$> type) yearParams
                   records)
    end
  else
    match searchAndGetGroundwaterData locationName type parentName
            (YearFiltering.year yearParams) st s with
    | Throw e => Throw e
    | Ok None =>
        Ok (NoRecord locationName
              (if truthy_str parentName then parentName else None))
    | Ok (Some record) =>
        Ok (FoundRecord (Aggregation.id (Aggregation.location record))
              (Aggregation.name (Aggregation.location record))
              (Aggregation.type (Aggregation.location record))
              (Aggregation.year record) record)
    end.

(** The handler of [getHistoricalDataTool]. *)
Definition getHistoricalDataTool
    (localeCompare : string → string → comparison)
    (locationName : string) (locationType : option ListedType)
    (yearParams : YearFilterParams) (st : State) (s : Store)
    : result Error DataOutput :=
  let type : option LocationType := catalogType <$> locationType in
  match searchAndGetHistoricalData localeCompare locationName type st s with
  | Throw e => Throw e
  | Ok records =>
      if (length records =? 0)%nat
      then Ok (NoHistory locationName (Some (GwTools.getAvailableYears s)))
      else Ok (reportHistory false locationName (AsRequested <$> locationType)
                 yearParams records)
  end.

(** A year that the request admits: in the list when a non-empty list was
    given, else within the bounds that were given. *)
Definition admits (yearParams : YearFilterParams) (y : string) : Prop :=
  match specificYears yearParams with
  | Some (y0 :: l) => y ∈ y0 :: l
  | _ => withinBounds yearParams y
  end.

(** An answer of [get_historical_data] in the wording of
    [search_groundwater_data]: flagged as historical, the type as the
    catalog constant, and no list of available years on a failed search. *)
Definition catalogued (label : TypeLabel) : TypeLabel :=
  match label with
  | AsRequested locationType => Catalogued (catalogType locationType)
  | Catalogued type => Catalogued type
  end.

Definition reworded (out : result Error DataOutput) : result Error DataOutput :=
  match out with
  | Ok (NoHistory locationName _) => Ok (NoHistory locationName None)
  | Ok (FoundHistory _ locationName locationId locationType yearsAvailable
          dataPointCount summarized) =>
      Ok (FoundHistory true locationName locationId (catalogued <$> locationType)
            yearsAvailable dataPointCount summarized)
  | _ => out
  end.

Definition from2024 : YearFilterParams :=
  {| YearFiltering.year := None; fromYear := Some "2024-2025"; toYear := None;
     specificYears := None |}.

End DataTools.

(** ** Token estimate ([services/agent/trimmer]) *)

Module Trimmer.

(** A part of an array content: a string, an object with a string [text],
    or anything else. *)
Inductive Part : Type :=
| PartString (s : string)
| PartText (text : string)
| PartOther.

(** [msg.content]: a string, an array of parts, or anything else. *)
Inductive Content : Type :=
| Text (s : string)
| Parts (parts : list Part)
| OtherContent.

Definition partLength (part : Part) : nat :=
  match part with
  | PartString s => String.length s
  | PartText text => String.length text
  | PartOther => 0
  end.

(** [getContentLength(content)] *)
Definition getContentLength (content : Content) : nat :=
  match content with
  | Text s => String.length s
  | Parts parts => fold_left (λ len part, len + partLength part) parts 0
  | OtherContent => 0
  end.

(** [Math.ceil(n / 4)] on a length. *)
Definition ceilQuarter (n : nat) : nat := (n + 3) / 4.

(** [approximateTokenCount(messages)], on the contents of the messages. *)
Definition approximateTokenCount (messages : list Content) : nat :=
  fold_left (λ count content, count + ceilQuarter (getContentLength content))
    messages 0.

(** The number of characters counted in a list of messages. *)
Definition totalLength (messages : list Content) : nat :=
  foldr (λ content n, getContentLength content + n) 0 messages.

End Trimmer.

(** ** Colours of the stage of extraction (chart helpers, and the same
    function local to the ranking handler) *)

Module ChartHelpers.

(** [getStageColor(stage)]; [None] is a stage that is not a number
    ([undefined]), for which every comparison is false, as it is for NaN. *)
Definition getStageColor (stage : option float) : string :=
  match stage with
  | None => "hsl(142, 71%, 45%)"
  | Some stage =>
      if PrimFloat.leb 100 stage then "hsl(4, 90%, 58%)"
      else if PrimFloat.leb 90 stage then "hsl(38, 92%, 50%)"
      else if PrimFloat.leb 70 stage then "hsl(217, 91%, 60%)"
      else "hsl(142, 71%, 45%)"
  end.

(** The colour that goes with a category of [determineCategoryFromStage]. *)
Definition categoryColor (category : string) : string :=
  if String.eqb category "Over-Exploited" then "hsl(4, 90%, 58%)"
  else if String.eqb category "Critical" then "hsl(38, 92%, 50%)"
  else if String.eqb category "Semi-Critical" then "hsl(217, 91%, 60%)"
  else "hsl(142, 71%, 45%)".

End ChartHelpers.

(** ** Tool [compare_locations] ([services/gwTools]) *)

Module CompareTool.
Import Js Schema Aggregation LocationSearch GroundwaterService.
Import HistoricalAggregation GroundwaterQueries YearFiltering Listing DataTools.

(** An element of [allLocationRecords]. *)
Record LocationHistory : Type := {
  hName : string;
  hId : string;
  hRecords : list HistoricalRecord;
}.

(** What the tool reports (the object handed to [JSON.stringify]).
    [locationData] and the text summary of a historical comparison are
    mapped from [allLocationRecords], kept here as it is; [summarized] is
    what the text summary of a comparison for one year is formatted from. *)
Inductive CompareOutput : Type :=
| HistoricalComparison (count : nat) (locationType : LocationType)
    (locationsCompared : list string) (yearsAvailable : list string)
    (dataPointCount : nat) (allLocationRecords : list LocationHistory)
| NoHistoricalComparison
    (* "No historical data found for specified locations" *)
| Comparison (count : nat) (year : string) (locationsCompared : list string)
    (locationIds : list string) (locations : list Listed)
    (summarized : list GroundwaterRecord)
| NoComparison
    (* "No groundwater data found for specified locations" *).

(** The loop over [locationNames] of a historical comparison. *)
Fixpoint historyLoop (localeCompare : string → string → comparison)
    (type : option LocationType) (yearParams : YearFilterParams)
    (st : State) (s : Store) (locationNames : list string)
    (allLocationRecords : list LocationHistory)
    : result Error (list LocationHistory) :=
  match locationNames with
  | [] => Ok allLocationRecords
  | name :: locationNames' =>
      match searchAndGetHistoricalData localeCompare name type st s with
      | Throw e => Throw e
      | Ok records =>
          if (length records =? 0)%nat
          then historyLoop localeCompare type yearParams st s locationNames'
                 allLocationRecords
          else
            let records :=
              filterRecordsByYear HistoricalAggregation.year records yearParams in
            match records with
            | [] => historyLoop localeCompare type yearParams st s locationNames'
                      allLocationRecords
            | first :: _ =>
                historyLoop localeCompare type yearParams st s locationNames'
                  (allLocationRecords
                   ++ [{| hName := HistoricalAggregation.locationName first;
                          hId := HistoricalAggregation.locationId first;
                          hRecords := records |}])
            end
      end
  end.

(** The loop over [locationNames] of a comparison for one year. *)
Fixpoint recordLoop (type : option LocationType) (targetYear : string)
    (st : State) (s : Store) (locationNames : list string)
    (records : list GroundwaterRecord) : result Error (list GroundwaterRecord) :=
  match locationNames with
  | [] => Ok records
  | name :: locationNames' =>
      match searchAndGetGroundwaterData name type None (Some targetYear) st s with
      | Throw e => Throw e
      | Ok None => recordLoop type targetYear st s locationNames' records
      | Ok (Some record) =>
          recordLoop type targetYear st s locationNames' (records ++ [record])
      end
  end.

Definition listedRecord (r : GroundwaterRecord) : Listed :=
  {| lid := Aggregation.id (Aggregation.location r);
     lname := Aggregation.name (Aggregation.location r);
     ltype := Aggregation.type (Aggregation.location r) |}.

(** The handler of [compareLocationsTool]. *)
Definition compareLocationsTool (localeCompare : string → string → comparison)
    (locationNames : list string) (locationType : option ListedType)
    (yearParams : YearFilterParams) (st : State) (s : Store)
    : result Error CompareOutput :=
  let type : option LocationType := catalogType <$> locationType in
  if wantsHistory yearParams then
    match historyLoop localeCompare type yearParams st s locationNames [] with
    | Throw e => Throw e
    | Ok [] => Ok NoHistoricalComparison
    | Ok (first :: rest) =>
        let allLocationRecords := first :: rest in
        Ok (HistoricalComparison (length allLocationRecords) (default STATE type)
              (hName <$> allLocationRecords)
              (HistoricalAggregation.year <$> hRecords first)
              (length (hRecords first)) allLocationRecords)
    end
  else
    let targetYear := orDefaultYear (YearFiltering.year yearParams) in
    match recordLoop type targetYear st s locationNames [] with
    | Throw e => Throw e
    | Ok records =>
        if (length records =? 0)%nat then Ok NoComparison
        else Ok (Comparison (length records) targetYear locationNames
                   ((λ r, Aggregation.id (Aggregation.location r)) <$> records)
                   (listedRecord <$> records) records)
    end.

(** The record that a name resolves to for a year, if any. *)
Definition recordOf (type : option LocationType) (targetYear : string)
    (st : State) (s : Store) (name : string) : option GroundwaterRecord :=
  match searchAndGetGroundwaterData name type None (Some targetYear) st s with
  | Ok (Some record) => Some record
  | _ => None
  end.

(** The history that a name contributes to a historical comparison, if
    any. *)
Definition historyOf (localeCompare : string → string → comparison)
    (type : option LocationType) (yearParams : YearFilterParams)
    (st : State) (s : Store) (name : string) : option LocationHistory :=
  match searchAndGetHistoricalData localeCompare name type st s with
  | Ok records =>
      match filterRecordsByYear HistoricalAggregation.year records yearParams with
      | [] => None
      | first :: rest =>
          Some {| hName := HistoricalAggregation.locationName first;
                  hId := HistoricalAggregation.locationId first;
                  hRecords := first :: rest |}
      end
  | Throw _ => None
  end.

(** A catalog with rows for Karnataka and Kerala, none for Goa. *)
Definition exampleSearchState : State :=
  {| locationCache := locations exampleStore;
     fuse := Some (exactFuse (locations exampleStore)) |}.

End CompareTool.
(** * Properties *)

(** ** JavaScript helpers *)

Lemma includes_spec (a : list string) (x : string) :
  Js.includes a x = true ↔ x ∈ a.
Proof.
  unfold Js.includes. rewrite existsb_exists, list_elem_of_In. split.
  - intros (y & Hy & He). apply String.eqb_eq in He. by subst.
  - intros Hx. exists x. split; [done | apply String.eqb_refl].
Qed.

Lemma truthy_str_spec (o : option string) :
  Js.truthy_str o = true ↔ ∃ s, o = Some s ∧ s ≠ "".
Proof.
  destruct o as [s|]; simpl.
  - rewrite negb_true_iff. destruct (String.eqb_spec s ""); split;
      try naive_solver.
  - naive_solver.
Qed.

Lemma elem_of_List_filter {A : Type} (f : A → bool) (l : list A) (x : A) :
  x ∈ List.filter f l ↔ x ∈ l ∧ f x = true.
Proof. rewrite !list_elem_of_In. apply filter_In. Qed.

(** ** Temporal resolver *)

Lemma inRange_spec (params : YearFiltering.YearFilterParams) (y : string) :
  YearFiltering.inRange (YearFiltering.fromYear params) (YearFiltering.toYear params) y = true
  ↔ YearFiltering.withinBounds params y.
Proof.
  unfold YearFiltering.inRange, YearFiltering.withinBounds, Js.str_ge, Js.str_le.
  destruct (YearFiltering.fromYear params) as [f|],
    (YearFiltering.toYear params) as [t|]; simpl;
    repeat (match goal with
            | |- context [String.eqb ?s ""] => destruct (String.eqb_spec s "")
            end; simpl);
    rewrite ?andb_true_iff; split; try naive_solver.
Qed.

(** C3, as stated, at an empty list: the years are not the (empty)
    intersection of the available years with the list. *)
Lemma getFilteredYears_empty_list_not_intersection :
  ¬ (∀ (params : YearFiltering.YearFilterParams) (availableYears l : list string),
       YearFiltering.specificYears params = Some l →
       ∀ y, y ∈ YearFiltering.yearsToQuery
                  (YearFiltering.getFilteredYears params availableYears)
            ↔ y ∈ availableYears ∧ y ∈ l).
Proof.
  intros H.
  specialize (H {| YearFiltering.year := None; YearFiltering.fromYear := None;
                   YearFiltering.toYear := None;
                   YearFiltering.specificYears := Some [] |}
                ["2016-2017"] [] eq_refl "2016-2017").
  simpl in H. destruct H as [H _].
  destruct H as [_ H]; [by left | by inversion H].
Qed.

Lemma getFilteredYears_list (params : YearFiltering.YearFilterParams)
    (availableYears : list string) (s : string) (l : list string) :
  YearFiltering.specificYears params = Some (s :: l) →
  YearFiltering.getFilteredYears params availableYears
  = {| YearFiltering.isHistorical := true;
       YearFiltering.yearsToQuery := List.filter (Js.includes (s :: l)) availableYears;
       YearFiltering.targetYear := YearFiltering.orDefaultYear (YearFiltering.year params) |}.
Proof.
  intros Hsp. unfold YearFiltering.getFilteredYears. rewrite Hsp.
  unfold Js.truthy_arr. by rewrite andb_false_r.
Qed.

Lemma getFilteredYears_range (params : YearFiltering.YearFilterParams)
    (availableYears : list string) :
  YearFiltering.specificYears params = None
  ∨ YearFiltering.specificYears params = Some [] →
  Js.truthy_str (YearFiltering.fromYear params) = true
  ∨ Js.truthy_str (YearFiltering.toYear params) = true →
  YearFiltering.getFilteredYears params availableYears
  = {| YearFiltering.isHistorical := true;
       YearFiltering.yearsToQuery :=
         List.filter (YearFiltering.inRange (YearFiltering.fromYear params)
                        (YearFiltering.toYear params)) availableYears;
       YearFiltering.targetYear := YearFiltering.orDefaultYear (YearFiltering.year params) |}.
Proof.
  intros Hsp Hb. unfold YearFiltering.getFilteredYears.
  assert (Hor : Js.truthy_str (YearFiltering.fromYear params)
                || Js.truthy_str (YearFiltering.toYear params) = true)
    by (destruct Hb as [-> | ->]; [done | apply orb_true_r]).
  rewrite Hor.
  assert (Hne : negb (Js.truthy_str (YearFiltering.fromYear params))
                && negb (Js.truthy_str (YearFiltering.toYear params)) = false)
    by (destruct Hb as [-> | ->]; [done | apply andb_false_r]).
  rewrite Hne. by destruct Hsp as [-> | ->].
Qed.

Lemma List_filter_sublist {A : Type} (f : A → bool) (l : list A) :
  sublist (List.filter f l) l.
Proof.
  induction l as [|a l IH]; simpl; [done|].
  destruct (f a); [by apply sublist_skip | by apply sublist_cons].
Qed.

(** C3 (amended): a non-empty explicit list selects exactly the available
    years that occur in it, whatever range bounds come with it and without
    failing on unknown years; otherwise a supplied bound selects the
    available years within the inclusive bounds that are present, one bound
    being enough; the years keep the order of the available years; and the
    historical flag is set exactly when a bound or a list was supplied,
    whatever the number of resulting years. *)
Theorem getFilteredYears_historical_spec
    (params : YearFiltering.YearFilterParams) (availableYears : list string) :
  let r := YearFiltering.getFilteredYears params availableYears in
  (∀ l, YearFiltering.specificYears params = Some l → l ≠ [] →
     YearFiltering.yearsToQuery r = List.filter (Js.includes l) availableYears
     ∧ ∀ y, y ∈ YearFiltering.yearsToQuery r ↔ y ∈ availableYears ∧ y ∈ l)
  ∧ ((YearFiltering.specificYears params = None
      ∨ YearFiltering.specificYears params = Some []) →
     (Js.truthy_str (YearFiltering.fromYear params) = true
      ∨ Js.truthy_str (YearFiltering.toYear params) = true) →
     sublist (YearFiltering.yearsToQuery r) availableYears
     ∧ ∀ y, y ∈ YearFiltering.yearsToQuery r
            ↔ y ∈ availableYears ∧ YearFiltering.withinBounds params y)
  ∧ (YearFiltering.isHistorical r = true ↔ YearFiltering.supplied params).
Proof.
  intros r. subst r. split; [|split].
  - intros l Hsp Hl. destruct l as [|s l]; [done|].
    rewrite (getFilteredYears_list _ _ _ _ Hsp). simpl. split; [done|].
    intros y. by rewrite elem_of_List_filter, includes_spec.
  - intros Hsp Hb. rewrite (getFilteredYears_range _ _ Hsp Hb). simpl. split.
    + apply List_filter_sublist.
    + intros y. by rewrite elem_of_List_filter, inRange_spec.
  - unfold YearFiltering.getFilteredYears, YearFiltering.supplied.
    destruct (Js.truthy_str (YearFiltering.fromYear params)),
      (Js.truthy_str (YearFiltering.toYear params)),
      (YearFiltering.specificYears params); simpl; split; try done;
      try (intros _; by (left + (right; left) + (right; right))).
    intros [? | [? | [? ?]]]; done.
Qed.

Lemma getFilteredYears_historical_spec_witness :
  (YearFiltering.yearsToQuery
     (YearFiltering.getFilteredYears YearFiltering.listSpec YearFiltering.exampleYears)
   = List.filter (Js.includes ["2018-2019"; "1999-2000"]) YearFiltering.exampleYears)
  ∧ (YearFiltering.yearsToQuery
       (YearFiltering.getFilteredYears YearFiltering.rangeSpec YearFiltering.exampleYears)
     `sublist_of` YearFiltering.exampleYears)
  ∧ YearFiltering.isHistorical
      (YearFiltering.getFilteredYears YearFiltering.rangeSpec YearFiltering.exampleYears)
    = true.
Proof.
  destruct (getFilteredYears_historical_spec YearFiltering.listSpec
              YearFiltering.exampleYears) as (Hlist & _ & _).
  destruct (getFilteredYears_historical_spec YearFiltering.rangeSpec
              YearFiltering.exampleYears) as (_ & Hrange & Hflag).
  split; [|split].
  - apply (Hlist ["2018-2019"; "1999-2000"]); [reflexivity | discriminate].
  - apply Hrange; left; reflexivity.
  - apply Hflag. left. reflexivity.
Defined.

(** C8, as stated, on a store whose latest year is 2018-2019: the target
    year is not the most recent available year. *)
Lemma getFilteredYears_target_not_most_recent :
  ¬ (∀ (params : YearFiltering.YearFilterParams) (availableYears : list string)
       (latest : string),
       YearFiltering.year params = None →
       YearFiltering.fromYear params = None →
       YearFiltering.toYear params = None →
       YearFiltering.specificYears params = None →
       YearFiltering.mostRecentAvailable availableYears = Some latest →
       YearFiltering.targetYear
         (YearFiltering.getFilteredYears params availableYears) = latest).
Proof.
  intros H.
  specialize (H YearFiltering.noSpec YearFiltering.oldYears "2018-2019"
                eq_refl eq_refl eq_refl eq_refl eq_refl).
  discriminate H.
Qed.

(** C8 (amended): with no year, no range bound and no list the resolver
    answers [historical = false] and [years = [targetYear]], where the
    target year is the fixed default "2024-2025" (the service's
    [LATEST_YEAR]) whatever years are available; it is the most recent
    available year exactly when that year is 2024-2025. *)
Theorem getFilteredYears_default_target
    (params : YearFiltering.YearFilterParams) (availableYears : list string) :
  Js.truthy_str (YearFiltering.year params) = false →
  Js.truthy_str (YearFiltering.fromYear params) = false →
  Js.truthy_str (YearFiltering.toYear params) = false →
  YearFiltering.specificYears params = None →
  let r := YearFiltering.getFilteredYears params availableYears in
  YearFiltering.isHistorical r = false
  ∧ YearFiltering.yearsToQuery r = [YearFiltering.targetYear r]
  ∧ YearFiltering.targetYear r = "2024-2025"
  ∧ YearFiltering.targetYear r = GroundwaterService.LATEST_YEAR
  ∧ ∀ latest, YearFiltering.mostRecentAvailable availableYears = Some latest →
      (YearFiltering.targetYear r = latest ↔ latest = "2024-2025").
Proof.
  intros Hy Hf Ht Hs r. subst r. unfold YearFiltering.getFilteredYears.
  rewrite Hf, Ht, Hs. simpl.
  assert (Hd : YearFiltering.orDefaultYear (YearFiltering.year params) = "2024-2025").
  { unfold YearFiltering.orDefaultYear. destruct (YearFiltering.year params) as [s|];
      [|done]. simpl in Hy. apply negb_false_iff in Hy. by rewrite Hy. }
  rewrite Hd. repeat split; try done; by intros ->.
Qed.

Lemma getFilteredYears_default_target_witness :
  YearFiltering.targetYear
    (YearFiltering.getFilteredYears YearFiltering.noSpec YearFiltering.oldYears)
  = "2024-2025".
Proof.
  destruct (getFilteredYears_default_target YearFiltering.noSpec
              YearFiltering.oldYears) as (_ & _ & Htarget & _);
    [reflexivity | reflexivity | reflexivity | reflexivity | exact Htarget].
Defined.

(** C10, as stated, with a lower bound next to the empty list: the years are
    filtered by the bound and are not all the available years. *)
Lemma getFilteredYears_empty_list_with_bound_filters :
  ¬ (∀ (params : YearFiltering.YearFilterParams) (availableYears : list string),
       YearFiltering.specificYears params = Some [] →
       YearFiltering.yearsToQuery
         (YearFiltering.getFilteredYears params availableYears) = availableYears).
Proof.
  intros H.
  specialize (H YearFiltering.emptyListFrom2024 YearFiltering.exampleYears eq_refl).
  discriminate H.
Qed.

(** C10 (amended): an explicit year list that is present but empty puts the
    resolver in historical mode; when no range bound comes with it nothing
    is filtered, the years being all the available years (and
    [filterRecordsByYear] keeping every record); when a bound comes with it
    the years are the available years within the bound. *)
Theorem getFilteredYears_empty_list_all_years
    (params : YearFiltering.YearFilterParams) (availableYears : list string) :
  YearFiltering.specificYears params = Some [] →
  YearFiltering.isHistorical
    (YearFiltering.getFilteredYears params availableYears) = true
  ∧ (Js.truthy_str (YearFiltering.fromYear params) = false →
     Js.truthy_str (YearFiltering.toYear params) = false →
     YearFiltering.yearsToQuery
       (YearFiltering.getFilteredYears params availableYears) = availableYears
     ∧ ∀ (T : Type) (yearOf : T → string) (records : list T),
         YearFiltering.filterRecordsByYear yearOf records params = records)
  ∧ (Js.truthy_str (YearFiltering.fromYear params) = true
     ∨ Js.truthy_str (YearFiltering.toYear params) = true →
     YearFiltering.yearsToQuery
       (YearFiltering.getFilteredYears params availableYears)
     = List.filter (YearFiltering.inRange (YearFiltering.fromYear params)
                      (YearFiltering.toYear params)) availableYears).
Proof.
  intros Hs. split; [|split].
  - unfold YearFiltering.getFilteredYears. rewrite Hs. simpl.
    by rewrite andb_false_r.
  - intros Hf Ht.
    unfold YearFiltering.getFilteredYears, YearFiltering.filterRecordsByYear.
    by rewrite Hs, Hf, Ht.
  - intros Hb. by rewrite (getFilteredYears_range _ _ (or_intror Hs) Hb).
Qed.

Lemma getFilteredYears_empty_list_all_years_witness :
  YearFiltering.yearsToQuery
    (YearFiltering.getFilteredYears YearFiltering.emptyListSpec
       YearFiltering.exampleYears)
  = YearFiltering.exampleYears.
Proof.
  destruct (getFilteredYears_empty_list_all_years YearFiltering.emptyListSpec
              YearFiltering.exampleYears) as (_ & Hall & _); [reflexivity|].
  destruct Hall as [Hyears _]; [reflexivity | reflexivity | exact Hyears].
Defined.

(** ** Double-precision numbers *)

(** The comparisons of [float] are those of the specification of IEEE 754
    numbers; the facts below are proved on that specification and carried
    over. *)

Ltac cmp_cases :=
  repeat match goal with
         | |- context [Z.compare ?a ?b] => destruct (Z.compare_spec a b)
         | |- context [Pos.compare_cont Eq ?a ?b] =>
             change (Pos.compare_cont Eq a b) with (Pos.compare a b);
             destruct (Pos.compare_spec a b)
         end; cbn; try congruence; try lia; try (intros; congruence); try (intros; lia).

Lemma SFleb_trans (f g h : spec_float) :
  SFleb f g = true → SFleb g h = true → SFleb f h = true.
Proof.
  unfold SFleb, SFcompare.
  destruct f as [[|]|[|]| |[|] mf ef], g as [[|]|[|]| |[|] mg eg], h as [[|]|[|]| |[|] mh eh];
    cbn; try congruence; cmp_cases.
Qed.

Lemma SFltb_SFleb_trans (f g h : spec_float) :
  SFltb f g = true → SFleb g h = true → SFltb f h = true.
Proof.
  unfold SFleb, SFltb, SFcompare.
  destruct f as [[|]|[|]| |[|] mf ef], g as [[|]|[|]| |[|] mg eg], h as [[|]|[|]| |[|] mh eh];
    cbn; try congruence; cmp_cases.
Qed.

Lemma SFleb_SFltb_trans (f g h : spec_float) :
  SFleb f g = true → SFltb g h = true → SFltb f h = true.
Proof.
  unfold SFleb, SFltb, SFcompare.
  destruct f as [[|]|[|]| |[|] mf ef], g as [[|]|[|]| |[|] mg eg], h as [[|]|[|]| |[|] mh eh];
    cbn; try congruence; cmp_cases.
Qed.

Lemma SFleb_dual (f g : spec_float) :
  f ≠ S754_nan → g ≠ S754_nan → SFleb f g = negb (SFltb g f).
Proof.
  unfold SFleb, SFltb, SFcompare.
  destruct f as [[|]|[|]| |[|] mf ef], g as [[|]|[|]| |[|] mg eg];
    cbn; try congruence; intros _ _; cmp_cases.
Qed.

Lemma SFeqb_self (f : spec_float) : SFeqb f f = true ↔ f ≠ S754_nan.
Proof.
  unfold SFeqb, SFcompare.
  destruct f as [[|]|[|]| |[|] mf ef]; cbn; split; try congruence; try (intros _; cmp_cases).
Qed.

Lemma SFeqb_SFleb (f g : spec_float) :
  SFeqb f g = true ↔ SFleb f g = true ∧ SFleb g f = true.
Proof.
  unfold SFeqb, SFleb, SFcompare.
  destruct f as [[|]|[|]| |[|] mf ef], g as [[|]|[|]| |[|] mg eg];
    cbn; split; try congruence; try tauto; try (intros [? ?]; congruence); cmp_cases.
Qed.

Lemma SFleb_not_nan (f g : spec_float) :
  SFleb f g = true → f ≠ S754_nan ∧ g ≠ S754_nan.
Proof.
  unfold SFleb, SFcompare.
  destruct f as [[|]|[|]| |[|] mf ef], g as [[|]|[|]| |[|] mg eg];
    cbn; try congruence; intros _; split; congruence.
Qed.

Lemma SFltb_SFleb (f g : spec_float) : SFltb f g = true → SFleb f g = true.
Proof.
  unfold SFleb, SFltb. destruct (SFcompare f g) as [[]|]; congruence.
Qed.

(** *** Comparisons of doubles *)

Lemma isNaN_spec (x : float) : Js.isNaN x = true ↔ Prim2SF x = S754_nan.
Proof.
  unfold Js.isNaN, PrimFloat.is_nan. rewrite negb_true_iff, FloatAxioms.eqb_spec.
  pose proof (SFeqb_self (Prim2SF x)) as H.
  destruct (SFeqb (Prim2SF x) (Prim2SF x)).
  - split; [done|]. intros E. by apply H in E.
  - split; [intros _|done]. destruct (Prim2SF x); try done; exfalso;
      (assert (true = false) as [=]; symmetry; apply H; discriminate).
Qed.

Lemma isNaN_false (x : float) : Js.isNaN x = false ↔ Prim2SF x ≠ S754_nan.
Proof.
  rewrite <- isNaN_spec. by destruct (Js.isNaN x).
Qed.

Lemma leb_not_nan (x y : float) :
  PrimFloat.leb x y = true → Js.isNaN x = false ∧ Js.isNaN y = false.
Proof.
  rewrite FloatAxioms.leb_spec, !isNaN_false. apply SFleb_not_nan.
Qed.

Lemma ltb_leb (x y : float) : PrimFloat.ltb x y = true → PrimFloat.leb x y = true.
Proof. rewrite FloatAxioms.leb_spec, FloatAxioms.ltb_spec. apply SFltb_SFleb. Qed.

Lemma ltb_not_nan (x y : float) :
  PrimFloat.ltb x y = true → Js.isNaN x = false ∧ Js.isNaN y = false.
Proof. intros H. by apply leb_not_nan, ltb_leb. Qed.

Lemma leb_trans (x y z : float) :
  PrimFloat.leb x y = true → PrimFloat.leb y z = true → PrimFloat.leb x z = true.
Proof. rewrite !FloatAxioms.leb_spec. apply SFleb_trans. Qed.

Lemma ltb_leb_trans (x y z : float) :
  PrimFloat.ltb x y = true → PrimFloat.leb y z = true → PrimFloat.ltb x z = true.
Proof. rewrite !FloatAxioms.leb_spec, !FloatAxioms.ltb_spec. apply SFltb_SFleb_trans. Qed.

Lemma leb_ltb_trans (x y z : float) :
  PrimFloat.leb x y = true → PrimFloat.ltb y z = true → PrimFloat.ltb x z = true.
Proof. rewrite !FloatAxioms.leb_spec, !FloatAxioms.ltb_spec. apply SFleb_SFltb_trans. Qed.

Lemma leb_dual (x y : float) :
  Js.isNaN x = false → Js.isNaN y = false →
  PrimFloat.leb x y = negb (PrimFloat.ltb y x).
Proof. rewrite !isNaN_false, FloatAxioms.leb_spec, FloatAxioms.ltb_spec. apply SFleb_dual. Qed.

Lemma leb_refl (x : float) : Js.isNaN x = false → PrimFloat.leb x x = true.
Proof.
  intros Hx. rewrite FloatAxioms.leb_spec. apply isNaN_false, SFeqb_self in Hx.
  by apply SFeqb_SFleb in Hx as [? _].
Qed.

Lemma leb_total (x y : float) :
  Js.isNaN x = false → Js.isNaN y = false →
  PrimFloat.leb x y = true ∨ PrimFloat.leb y x = true.
Proof.
  intros Hx Hy. rewrite (leb_dual x y) by done.
  destruct (PrimFloat.ltb y x) eqn:E; [right; by apply ltb_leb | by left].
Qed.

Lemma ltb_irrefl (x : float) : PrimFloat.ltb x x = false.
Proof.
  destruct (PrimFloat.ltb x x) eqn:E; [|done].
  destruct (ltb_not_nan _ _ E) as [Hx _].
  pose proof (leb_dual x x Hx Hx) as H. rewrite E, (leb_refl x Hx) in H. done.
Qed.

Lemma eqb_leb (x y : float) :
  PrimFloat.eqb x y = true ↔ PrimFloat.leb x y = true ∧ PrimFloat.leb y x = true.
Proof. rewrite FloatAxioms.eqb_spec, !FloatAxioms.leb_spec. apply SFeqb_SFleb. Qed.

(** A number at or above a positive bound is truthy. *)
Lemma leb_truthy (c x : float) :
  PrimFloat.ltb 0 c = true → PrimFloat.leb c x = true → Js.falsy x = false.
Proof.
  intros Hc Hx. unfold Js.falsy.
  destruct (leb_not_nan _ _ Hx) as [_ ->]. rewrite orb_false_r.
  destruct (PrimFloat.eqb x 0) eqn:E; [|done].
  apply eqb_leb in E as [E _].
  pose proof (ltb_leb_trans _ _ _ Hc (leb_trans _ _ _ Hx E)) as H.
  by rewrite ltb_irrefl in H.
Qed.

(** *** The sign of a difference *)

(** The difference of two doubles is positive exactly when the first is the
    greater: the subtraction rounds, but it does not round a difference that
    is not zero to zero, nor change its sign.  This is what makes a
    comparator [a - b] order numbers as [<] does. *)

Lemma digits2_pos_bounds (p : positive) :
  (2 ^ (Zpos (digits2_pos p) - 1) <= Zpos p < 2 ^ Zpos (digits2_pos p))%Z.
Proof.
  induction p as [p IH|p IH|]; cbn [digits2_pos].
  - rewrite Pos2Z.inj_succ, (Pos2Z.inj_xI p).
    replace (Z.succ (Zpos (digits2_pos p)) - 1)%Z
      with (Z.succ (Zpos (digits2_pos p) - 1)) by lia.
    rewrite !Z.pow_succ_r by lia.
    generalize dependent (2 ^ (Zpos (digits2_pos p) - 1))%Z.
    generalize (2 ^ Zpos (digits2_pos p))%Z. intros; lia.
  - rewrite Pos2Z.inj_succ, (Pos2Z.inj_xO p).
    replace (Z.succ (Zpos (digits2_pos p)) - 1)%Z
      with (Z.succ (Zpos (digits2_pos p) - 1)) by lia.
    rewrite !Z.pow_succ_r by lia.
    generalize dependent (2 ^ (Zpos (digits2_pos p) - 1))%Z.
    generalize (2 ^ Zpos (digits2_pos p))%Z. intros; lia.
  - cbn. lia.
Qed.

Lemma iter_pos_swap {A : Type} (f : A → A) (n : positive) (x : A) :
  SpecFloat.iter_pos f n (f x) = f (SpecFloat.iter_pos f n x).
Proof.
  revert x. induction n as [n IH|n IH|]; intros x; cbn [SpecFloat.iter_pos].
  - by rewrite !IH.
  - by rewrite !IH.
  - reflexivity.
Qed.

Lemma iter_pos_succ {A : Type} (f : A → A) (n : positive) (x : A) :
  SpecFloat.iter_pos f (Pos.succ n) x = f (SpecFloat.iter_pos f n x).
Proof.
  revert x. induction n as [n IH|n IH|]; intros x.
  - change (Pos.succ n~1) with (Pos.succ n)~0%positive.
    cbn [SpecFloat.iter_pos]. rewrite !IH. by rewrite !iter_pos_swap.
  - change (Pos.succ n~0) with n~1%positive.
    cbn [SpecFloat.iter_pos]. by rewrite !iter_pos_swap.
  - reflexivity.
Qed.

Lemma shr_1_m (mrs : shr_record) :
  (0 <= shr_m mrs)%Z → shr_m (shr_1 mrs) = (shr_m mrs / 2)%Z.
Proof.
  destruct mrs as [m r s]. cbn [shr_m shr_1]. intros Hm.
  destruct m as [|[p|p|]|p]; cbn [shr_m]; try lia.
  - reflexivity.
  - rewrite (Pos2Z.inj_xI p). apply Z.div_unique with 1%Z; lia.
  - rewrite (Pos2Z.inj_xO p). apply Z.div_unique with 0%Z; lia.
  - reflexivity.
Qed.

Lemma shr_iter_m (n : positive) (mrs : shr_record) :
  (0 <= shr_m mrs)%Z →
  shr_m (SpecFloat.iter_pos shr_1 n mrs) = (shr_m mrs / 2 ^ Zpos n)%Z.
Proof.
  intros Hm. induction n as [|n IH] using Pos.peano_ind.
  - cbn [SpecFloat.iter_pos]. by rewrite shr_1_m.
  - rewrite iter_pos_succ, shr_1_m.
    + rewrite IH, Pos2Z.inj_succ, Z.pow_succ_r by lia.
      rewrite Z.div_div by lia. f_equal. lia.
    + rewrite IH. apply Z.div_pos; lia.
Qed.

Lemma shr_record_of_loc_m (m : Z) (l : location) :
  shr_m (shr_record_of_loc m l) = m.
Proof. by destruct l as [|[]]. Qed.

Lemma shr_fexp_pos (m e : Z) (l : location) :
  (1 <= m)%Z → (Js.emin64 <= e)%Z →
  (1 <= shr_m (shr_fexp prec emax m e l).1)%Z
  ∧ (Js.emin64 <= (shr_fexp prec emax m e l).2)%Z.
Proof.
  intros Hm He. unfold shr_fexp, shr.
  destruct m as [|p|p]; try lia. cbn [Zdigits2].
  pose proof (digits2_pos_bounds p) as [Hlo Hhi].
  set (d := Zpos (digits2_pos p)) in *.
  assert (Hn : (fexp prec emax (d + e) - e < d)%Z).
  { unfold fexp, SpecFloat.emin, prec, emax. unfold Js.emin64 in He. lia. }
  destruct (fexp prec emax (d + e) - e)%Z as [|n|n] eqn:En; cbn [fst snd];
    rewrite ?shr_record_of_loc_m; try (split; [lia|assumption]).
  split.
  - rewrite shr_iter_m by (rewrite shr_record_of_loc_m; lia).
    rewrite shr_record_of_loc_m.
    apply Z.div_le_lower_bound; [lia|].
    rewrite Z.mul_1_r. etransitivity; [|exact Hlo].
    apply Z.pow_le_mono_r; lia.
  - unfold Js.emin64 in *. lia.
Qed.

Lemma round_nearest_even_ge (m : Z) (l : location) :
  (1 <= m)%Z → (1 <= round_nearest_even m l)%Z.
Proof. intros Hm. destruct l as [|[]]; cbn; try lia. destruct (Z.even m); lia. Qed.

Lemma binary_round_aux_pos (m e : Z) (l : location) :
  (1 <= m)%Z → (Js.emin64 <= e)%Z →
  SFltb (S754_zero false) (binary_round_aux prec emax false m e l) = true.
Proof.
  intros Hm He. unfold binary_round_aux.
  destruct (shr_fexp_pos m e l Hm He) as [H1 H2].
  destruct (shr_fexp prec emax m e l) as [mrs' e']. cbn [fst snd] in *.
  pose proof (round_nearest_even_ge _ (loc_of_shr_record mrs') H1) as H3.
  destruct (shr_fexp_pos _ e' loc_Exact H3 H2) as [H4 H5].
  destruct (shr_fexp prec emax _ e' loc_Exact) as [mrs'' e'']. cbn [fst snd] in *.
  destruct (shr_m mrs'') as [|q|q]; try lia.
  by destruct (e'' <=? emax - prec)%Z.
Qed.

Lemma binary_round_aux_neg (m e : Z) (l : location) :
  SFltb (S754_zero false) (binary_round_aux prec emax true m e l) = false.
Proof.
  unfold binary_round_aux.
  destruct (shr_fexp prec emax m e l) as [mrs' e'].
  destruct (shr_fexp prec emax _ e' loc_Exact) as [mrs'' e''].
  destruct (shr_m mrs'') as [|q|q]; try reflexivity.
  by destruct (e'' <=? emax - prec)%Z.
Qed.

Lemma shl_align_exp (mx : positive) (ex ex' : Z) :
  (Js.emin64 <= ex)%Z → (Js.emin64 <= ex')%Z → (Js.emin64 <= (shl_align mx ex ex').2)%Z.
Proof. intros. unfold shl_align. by destruct (ex' - ex)%Z. Qed.

Lemma fexp_ge (z : Z) : (Js.emin64 <= fexp prec emax z)%Z.
Proof. unfold fexp, SpecFloat.emin, prec, emax, Js.emin64. lia. Qed.

Lemma binary_normalize_sign (m e : Z) :
  (Js.emin64 <= e)%Z →
  SFltb (S754_zero false) (binary_normalize prec emax m e false) = (0 <? m)%Z.
Proof.
  intros He. destruct m as [|p|p]; cbn [binary_normalize]; try reflexivity.
  - unfold binary_round.
    pose proof (shl_align_exp p e (fexp prec emax (Zpos (digits2_pos p) + e))
                  He (fexp_ge _)) as H.
    destruct (shl_align p e _) as [mz ez]. cbn [snd] in H.
    rewrite binary_round_aux_pos by (assumption || lia). reflexivity.
  - unfold binary_round.
    destruct (shl_align p e _) as [mz ez].
    by rewrite binary_round_aux_neg.
Qed.

Lemma iter_xO (d p : positive) : Zpos (Pos.iter xO p d) = (Zpos p * 2 ^ Zpos d)%Z.
Proof.
  induction d as [|d IH] using Pos.peano_ind.
  - cbn. lia.
  - rewrite Pos.iter_succ, Pos2Z.inj_xO, IH, Pos2Z.inj_succ, Z.pow_succ_r by lia. lia.
Qed.

Lemma shl_align_fst (mx : positive) (ex ez : Z) :
  (ez <= ex)%Z → Zpos (shl_align mx ex ez).1 = (Zpos mx * 2 ^ (ex - ez))%Z.
Proof.
  intros H. unfold shl_align.
  destruct (ez - ex)%Z as [|d|d] eqn:E; cbn [fst]; try lia.
  - replace (ex - ez)%Z with 0%Z by lia. lia.
  - rewrite iter_xO. f_equal. f_equal. lia.
Qed.

Lemma bounded_facts (m : positive) (e : Z) :
  bounded prec emax m e = true →
  (Js.emin64 <= e)%Z ∧ (Zpos m < 2 ^ 53)%Z ∧ ((Js.emin64 < e)%Z → (2 ^ 52 <= Zpos m)%Z).
Proof.
  unfold bounded, canonical_mantissa, fexp, SpecFloat.emin, prec, emax, Js.emin64.
  intros H. apply andb_prop in H as [H _]. apply Z.eqb_eq in H.
  pose proof (digits2_pos_bounds m) as [Hlo Hhi].
  set (d := Zpos (digits2_pos m)) in *.
  assert (0 < d)%Z by (unfold d; lia).
  split; [lia|]. split.
  - eapply Z.lt_le_trans; [exact Hhi|]. apply Z.pow_le_mono_r; lia.
  - intros He. assert (d = 53%Z) as Hd by lia. rewrite Hd in Hlo. exact Hlo.
Qed.

Lemma SFsub_sign (x y : spec_float) :
  valid_binary x = true → valid_binary y = true →
  SFltb (S754_zero false) (SF64sub x y) = SFltb y x.
Proof.
  intros Hx Hy. unfold SF64sub, SFsub.
  destruct x as [[|]|[|]| |sx mx ex], y as [[|]|[|]| |sy my ey];
    try reflexivity; try (destruct sx; reflexivity); try (destruct sy; reflexivity).
  cbn [valid_binary SpecFloat.valid_binary] in Hx, Hy.
  apply bounded_facts in Hx as (Hex & Hmx & Hnx), Hy as (Hey & Hmy & Hny).
  rewrite binary_normalize_sign by lia.
  rewrite !shl_align_fst by lia.
  unfold SFltb, SFcompare.
  assert (P52 : (2 ^ 53 = 2 * 2 ^ 52)%Z) by reflexivity.
  assert (Px : (0 < 2 ^ (ex - Z.min ex ey))%Z) by (apply Z.pow_pos_nonneg; lia).
  assert (Py : (0 < 2 ^ (ey - Z.min ex ey))%Z) by (apply Z.pow_pos_nonneg; lia).
  destruct sx, sy; cbn [cond_Zopp];
    match goal with |- (0 <? ?m)%Z = _ => destruct (Z.ltb_spec 0 m) as [Hm|Hm] end;
    try reflexivity; try (exfalso; nia);
    (destruct (Z.compare_spec ey ex) as [E|E|E];
     [ subst ey; rewrite Z.min_id, Z.sub_diag, Z.pow_0_r, !Z.mul_1_r in Hm;
       change (Pos.compare_cont Eq my mx) with (Pos.compare my mx);
       destruct (Pos.compare_spec my mx); cbn; try reflexivity; exfalso; lia
     | rewrite Z.min_r, Z.sub_diag, Z.pow_0_r, Z.mul_1_r in Hm by lia;
       assert (2 <= 2 ^ (ex - ey))%Z
         by (change 2%Z with (2 ^ 1)%Z at 1; apply Z.pow_le_mono_r; lia);
       specialize (Hnx ltac:(lia)); try reflexivity; exfalso; nia
     | rewrite Z.min_l, Z.sub_diag, Z.pow_0_r, Z.mul_1_r in Hm by lia;
       assert (2 <= 2 ^ (ey - ex))%Z
         by (change 2%Z with (2 ^ 1)%Z at 1; apply Z.pow_le_mono_r; lia);
       specialize (Hny ltac:(lia)); try reflexivity; exfalso; nia ]).
Qed.

Lemma sub_sign (x y : float) :
  PrimFloat.ltb 0 (PrimFloat.sub x y) = PrimFloat.ltb y x.
Proof.
  rewrite !FloatAxioms.ltb_spec, FloatAxioms.sub_spec.
  change (Prim2SF 0) with (S754_zero false).
  apply SFsub_sign; apply Prim2SF_valid.
Qed.

(** *** Sums of finite numbers *)

(** The sum of a number that is not NaN and a finite number is not NaN, and
    it is the negative zero only if the first is.  This is why the guard
    [|| 0] of a running sum that starts from zero changes nothing as long
    as the numbers added are finite. *)

Lemma binary_round_aux_nonzero (sx : bool) (m e : Z) (l : location) :
  (1 <= m)%Z → (Js.emin64 <= e)%Z →
  (∃ m' e', binary_round_aux prec emax sx m e l = S754_finite sx m' e')
  ∨ binary_round_aux prec emax sx m e l = S754_infinity sx.
Proof.
  intros Hm He. unfold binary_round_aux.
  destruct (shr_fexp_pos m e l Hm He) as [H1 H2].
  destruct (shr_fexp prec emax m e l) as [mrs' e']. cbn [fst snd] in *.
  pose proof (round_nearest_even_ge _ (loc_of_shr_record mrs') H1) as H3.
  destruct (shr_fexp_pos _ e' loc_Exact H3 H2) as [H4 H5].
  destruct (shr_fexp prec emax _ e' loc_Exact) as [mrs'' e'']. cbn [fst snd] in *.
  destruct (shr_m mrs'') as [|q|q]; try lia.
  destruct (e'' <=? emax - prec)%Z; [left; eauto | by right].
Qed.

Lemma binary_normalize_class (m e : Z) :
  (Js.emin64 <= e)%Z →
  binary_normalize prec emax m e false ≠ S754_nan
  ∧ binary_normalize prec emax m e false ≠ S754_zero true.
Proof.
  intros He. destruct m as [|p|p]; cbn [binary_normalize]; [done| |];
    unfold binary_round;
    pose proof (shl_align_exp p e (fexp prec emax (Zpos (digits2_pos p) + e))
                  He (fexp_ge _)) as H;
    destruct (shl_align p e _) as [mz ez]; cbn [snd] in H.
  - destruct (binary_round_aux_nonzero false (Zpos mz) ez loc_Exact)
      as [(m' & e' & ->) | ->]; [lia | done | done | done].
  - destruct (binary_round_aux_nonzero true (Zpos mz) ez loc_Exact)
      as [(m' & e' & ->) | ->]; [lia | done | done | done].
Qed.

Lemma SFadd_finite (x y : spec_float) :
  valid_binary x = true → valid_binary y = true →
  x ≠ S754_nan → y ≠ S754_nan → (∀ s, y ≠ S754_infinity s) →
  SF64add x y ≠ S754_nan
  ∧ (SF64add x y = S754_zero true → x = S754_zero true).
Proof.
  intros Hx Hy Hnx Hny Hiy. unfold SF64add, SFadd.
  destruct x as [sx|sx| |sx mx ex], y as [sy|sy| |sy my ey]; try done;
    try (by destruct (Hiy sy)).
  - by destruct sx, sy.
  - cbn [valid_binary SpecFloat.valid_binary] in Hx, Hy.
    apply bounded_facts in Hx as (Hex & _), Hy as (Hey & _).
    destruct (binary_normalize_class
                (cond_Zopp sx (Zpos (shl_align mx ex (Z.min ex ey)).1)
                 + cond_Zopp sy (Zpos (shl_align my ey (Z.min ex ey)).1))
                (Z.min ex ey)) as [H1 H2]; [lia|].
    split; [exact H1 | by intros E].
Qed.

Lemma is_finite_spec (x : float) :
  PrimFloat.is_finite x = true →
  Prim2SF x ≠ S754_nan ∧ ∀ s, Prim2SF x ≠ S754_infinity s.
Proof.
  unfold PrimFloat.is_finite, PrimFloat.is_infinity.
  rewrite negb_true_iff, orb_false_iff. intros [Hn Hi]. split.
  - by apply isNaN_false.
  - intros s E. rewrite FloatAxioms.eqb_spec, abs_spec, E in Hi.
    change (Prim2SF PrimFloat.infinity) with (S754_infinity false) in Hi.
    by destruct s.
Qed.

Lemma add_finite (acc v : float) :
  Js.isNaN acc = false → PrimFloat.is_finite v = true →
  Js.isNaN (PrimFloat.add acc v) = false
  ∧ (Prim2SF (PrimFloat.add acc v) = S754_zero true → Prim2SF acc = S754_zero true).
Proof.
  intros Ha Hv. apply isNaN_false in Ha. apply is_finite_spec in Hv as [Hn Hi].
  rewrite isNaN_false, add_spec.
  apply SFadd_finite; auto using Prim2SF_valid.
Qed.

(** The running sum with its guard [|| 0] is the plain sum, when it is
    neither NaN nor the negative zero. *)
Lemma addTo_add (acc v : float) :
  Js.isNaN acc = false → Prim2SF acc ≠ S754_zero true →
  Aggregation.addTo acc v = PrimFloat.add acc v.
Proof.
  intros Ha Hz. unfold Aggregation.addTo, Js.falsy. rewrite Ha, orb_false_r.
  destruct (PrimFloat.eqb acc 0) eqn:E; [|done].
  assert (acc = 0%float) as ->; [|done].
  apply Prim2SF_inj. rewrite FloatAxioms.eqb_spec in E.
  change (Prim2SF 0) with (S754_zero false) in *.
  destruct (Prim2SF acc) as [[|]|[|]| |[|] m e]; cbn in E; congruence.
Qed.

(** The sum of finite numbers as the merge computes it is their sum from
    left to right. *)
Lemma sum_fold_add (values : list float) :
  Forall (λ v, PrimFloat.is_finite v = true) values →
  Aggregation.sum values = fold_left PrimFloat.add values 0%float.
Proof.
  unfold Aggregation.sum.
  assert (H : ∀ acc, Js.isNaN acc = false → Prim2SF acc ≠ S754_zero true →
            Forall (λ v, PrimFloat.is_finite v = true) values →
            fold_left Aggregation.addTo values acc
            = fold_left PrimFloat.add values acc).
  { induction values as [|v values IH]; intros acc Ha Hz Hfin; [done|].
    apply Forall_cons in Hfin as [Hv Hfin]. cbn [fold_left].
    rewrite (addTo_add acc v Ha Hz).
    destruct (add_finite acc v Ha Hv) as [Hn Hneg].
    apply IH; auto. }
  apply H; done.
Qed.

(** *** Minimum and maximum *)

Lemma min2_spec (a b : float) :
  Js.isNaN a = false → Js.isNaN b = false →
  Js.isNaN (Js.min2 a b) = false
  ∧ (Js.min2 a b = a ∨ Js.min2 a b = b)
  ∧ PrimFloat.leb (Js.min2 a b) a = true
  ∧ PrimFloat.leb (Js.min2 a b) b = true.
Proof.
  intros Ha Hb. unfold Js.min2. rewrite Ha, Hb.
  pose proof (leb_dual a b Ha Hb) as Hab. pose proof (leb_dual b a Hb Ha) as Hba.
  pose proof (leb_refl a Ha). pose proof (leb_refl b Hb).
  destruct (PrimFloat.ltb a b) eqn:E1.
  { repeat split; auto using ltb_leb. }
  destruct (PrimFloat.ltb b a) eqn:E2.
  { repeat split; auto using ltb_leb. }
  simpl in Hab, Hba. destruct (Js.isNegZero a); repeat split; auto.
Qed.

Lemma max2_spec (a b : float) :
  Js.isNaN a = false → Js.isNaN b = false →
  Js.isNaN (Js.max2 a b) = false
  ∧ (Js.max2 a b = a ∨ Js.max2 a b = b)
  ∧ PrimFloat.leb a (Js.max2 a b) = true
  ∧ PrimFloat.leb b (Js.max2 a b) = true.
Proof.
  intros Ha Hb. unfold Js.max2. rewrite Ha, Hb.
  pose proof (leb_dual a b Ha Hb) as Hab. pose proof (leb_dual b a Hb Ha) as Hba.
  pose proof (leb_refl a Ha). pose proof (leb_refl b Hb).
  destruct (PrimFloat.ltb a b) eqn:E1.
  { repeat split; auto using ltb_leb. }
  destruct (PrimFloat.ltb b a) eqn:E2.
  { repeat split; auto using ltb_leb. }
  simpl in Hab, Hba. destruct (Js.isNegZero a); repeat split; auto.
Qed.

Lemma fold_min2_spec (values : list float) (a : float) :
  Js.isNaN a = false → Forall (λ v, Js.isNaN v = false) values →
  let m := fold_left Js.min2 values a in
  Js.isNaN m = false ∧ (m = a ∨ m ∈ values)
  ∧ PrimFloat.leb m a = true ∧ ∀ v, v ∈ values → PrimFloat.leb m v = true.
Proof.
  revert a. induction values as [|v values IH]; intros a Ha Hvs; simpl.
  - repeat split; auto; [by apply leb_refl | intros v Hv; inversion Hv].
  - apply Forall_cons in Hvs as [Hv Hvs].
    destruct (min2_spec a v Ha Hv) as (Hn & Hor & Hla & Hlv).
    destruct (IH (Js.min2 a v) Hn Hvs) as (Hn' & Hor' & Hl' & Hall).
    split; [done|]. split; [|split].
    + destruct Hor' as [-> | Hin]; [|right; by right].
      destruct Hor as [-> | ->]; [by left | right; by left].
    + by eapply leb_trans.
    + intros w [-> | Hw]%elem_of_cons; [by eapply leb_trans | by apply Hall].
Qed.

Lemma fold_max2_spec (values : list float) (a : float) :
  Js.isNaN a = false → Forall (λ v, Js.isNaN v = false) values →
  let m := fold_left Js.max2 values a in
  Js.isNaN m = false ∧ (m = a ∨ m ∈ values)
  ∧ PrimFloat.leb a m = true ∧ ∀ v, v ∈ values → PrimFloat.leb v m = true.
Proof.
  revert a. induction values as [|v values IH]; intros a Ha Hvs; simpl.
  - repeat split; auto; [by apply leb_refl | intros v Hv; inversion Hv].
  - apply Forall_cons in Hvs as [Hv Hvs].
    destruct (max2_spec a v Ha Hv) as (Hn & Hor & Hla & Hlv).
    destruct (IH (Js.max2 a v) Hn Hvs) as (Hn' & Hor' & Hl' & Hall).
    split; [done|]. split; [|split].
    + destruct Hor' as [-> | Hin]; [|right; by right].
      destruct Hor as [-> | ->]; [by left | right; by left].
    + by eapply leb_trans.
    + intros w [-> | Hw]%elem_of_cons; [by eapply leb_trans | by apply Hall].
Qed.

Lemma min2_infinity (v : float) :
  Js.isNaN v = false → Js.min2 PrimFloat.infinity v = v.
Proof.
  intros Hv. unfold Js.min2. rewrite Hv.
  change (Js.isNaN PrimFloat.infinity) with false. cbv iota.
  assert (PrimFloat.ltb PrimFloat.infinity v = false) as ->.
  { rewrite FloatAxioms.ltb_spec. change (Prim2SF PrimFloat.infinity) with (S754_infinity false).
    by destruct (Prim2SF v) as [| [] | |]. }
  change (Js.isNegZero PrimFloat.infinity) with false.
  by destruct (PrimFloat.ltb v PrimFloat.infinity).
Qed.

Lemma max2_neg_infinity (v : float) :
  Js.isNaN v = false → Js.max2 PrimFloat.neg_infinity v = v.
Proof.
  intros Hv. unfold Js.max2. rewrite Hv.
  change (Js.isNaN PrimFloat.neg_infinity) with false. cbv iota.
  assert (PrimFloat.ltb v PrimFloat.neg_infinity = false) as ->.
  { rewrite FloatAxioms.ltb_spec. change (Prim2SF PrimFloat.neg_infinity) with (S754_infinity true).
    by destruct (Prim2SF v) as [| [] | |]. }
  change (Js.isNegZero PrimFloat.neg_infinity) with false.
  destruct (PrimFloat.ltb PrimFloat.neg_infinity v) eqn:E; [done|].
  symmetry. apply Prim2SF_inj.
  apply isNaN_false in Hv. rewrite FloatAxioms.ltb_spec in E.
  change (Prim2SF PrimFloat.neg_infinity) with (S754_infinity true) in *.
  by destruct (Prim2SF v) as [| [] | |].
Qed.

(** The minimum and the maximum of a non-empty list without NaN are values
    of the list that bound all of them. *)
Lemma minOf_spec (values : list float) :
  values ≠ [] → Forall (λ v, Js.isNaN v = false) values →
  Js.minOf values ∈ values
  ∧ ∀ v, v ∈ values → PrimFloat.leb (Js.minOf values) v = true.
Proof.
  destruct values as [|v values]; [done|]. intros _ Hvs.
  pose proof Hvs as [Hv Hrest]%Forall_cons.
  unfold Js.minOf. simpl. rewrite (min2_infinity v Hv).
  destruct (fold_min2_spec values v Hv Hrest) as (_ & Hor & Hle & Hall).
  split.
  - destruct Hor as [-> | Hin]; [by left | by right].
  - intros w [-> | Hw]%elem_of_cons; [done | by apply Hall].
Qed.

Lemma maxOf_spec (values : list float) :
  values ≠ [] → Forall (λ v, Js.isNaN v = false) values →
  Js.maxOf values ∈ values
  ∧ ∀ v, v ∈ values → PrimFloat.leb v (Js.maxOf values) = true.
Proof.
  destruct values as [|v values]; [done|]. intros _ Hvs.
  pose proof Hvs as [Hv Hrest]%Forall_cons.
  unfold Js.maxOf. simpl. rewrite (max2_neg_infinity v Hv).
  destruct (fold_max2_spec values v Hv Hrest) as (_ & Hor & Hle & Hall).
  split.
  - destruct Hor as [-> | Hin]; [by left | by right].
  - intros w [-> | Hw]%elem_of_cons; [done | by apply Hall].
Qed.

(** ** Aggregator *)

(** One pass over the entries of an object, whose keys are distinct, adds
    the number found under a key, unless it is NaN, and leaves every other
    key alone. *)
Lemma fold_addEntry_lookup (entries : list (string * Js.value))
    (aggregated : gmap string float) (key : string) :
  NoDup entries.*1 →
  (∀ v, (key, Js.Num v) ∈ entries → Js.isNaN v = false →
     fold_left Aggregation.addEntry entries aggregated !! key
     = Some (PrimFloat.add (Aggregation.orZero (aggregated !! key)) v))
  ∧ ((∀ v, (key, Js.Num v) ∈ entries → Js.isNaN v = true) →
     fold_left Aggregation.addEntry entries aggregated !! key = aggregated !! key).
Proof.
  revert aggregated.
  induction entries as [|[k x] entries IH]; intros aggregated Hnd.
  - split; [intros v Hv; by inversion Hv | done].
  - rewrite fmap_cons in Hnd. apply NoDup_cons in Hnd as [Hk Hnd].
    change ((k, x).1) with k in Hk.
    assert (Hother : k ≠ key →
              Aggregation.addEntry aggregated (k, x) !! key = aggregated !! key).
    { intros Hne. unfold Aggregation.addEntry. simpl.
      destruct x as [| | |v|]; try done.
      destruct (Js.isNaN v); [done|]. by rewrite lookup_insert_ne. }
    split.
    + intros v [Hhd | Htl]%elem_of_cons Hv.
      * inversion Hhd; subst k x. simpl.
        destruct (IH (Aggregation.addEntry aggregated (key, Js.Num v)) Hnd) as [_ Hout].
        rewrite Hout.
        -- unfold Aggregation.addEntry. simpl. rewrite Hv. by rewrite lookup_insert_eq.
        -- intros v' Hv'. exfalso. apply Hk. apply list_elem_of_fmap.
           by exists (key, Js.Num v').
      * assert (k ≠ key).
        { intros ->. apply Hk. apply list_elem_of_fmap. by exists (key, Js.Num v). }
        simpl. destruct (IH (Aggregation.addEntry aggregated (k, x)) Hnd) as [Hin _].
        rewrite (Hin v Htl Hv). by rewrite Hother.
    + intros Hno. simpl.
      destruct (IH (Aggregation.addEntry aggregated (k, x)) Hnd) as [_ Hout].
      rewrite Hout.
      * destruct (decide (k = key)) as [-> | Hne]; [|by apply Hother].
        unfold Aggregation.addEntry. simpl. destruct x as [| | |v|]; try done.
        by rewrite (Hno v) by by left.
      * intros v Hv. apply (Hno v). by right.
Qed.

Lemma addRecord_lookup (aggregated : gmap string float)
    (record : Aggregation.GroundwaterRecord) (key : string) :
  Aggregation.addRecord aggregated record !! key
  = match Aggregation.numericField key record with
    | Some v => Some (PrimFloat.add (Aggregation.orZero (aggregated !! key)) v)
    | None => aggregated !! key
    end.
Proof.
  unfold Aggregation.addRecord, Aggregation.numericField.
  destruct (fold_addEntry_lookup (map_to_list (Aggregation.data record))
              aggregated key) as [Hnum Hnone].
  { apply NoDup_fst_map_to_list. }
  destruct (Aggregation.data record !! key) as [x|] eqn:E.
  - destruct x as [| | |v|];
      try (apply Hnone; intros v Hv; apply elem_of_map_to_list in Hv; congruence).
    destruct (Js.isNaN v) eqn:Ev.
    + apply Hnone. intros v' Hv'. apply elem_of_map_to_list in Hv'. congruence.
    + apply Hnum; [by apply elem_of_map_to_list | done].
  - apply Hnone. intros v Hv. apply elem_of_map_to_list in Hv. congruence.
Qed.

Lemma fold_addRecord_lookup (records : list Aggregation.GroundwaterRecord)
    (aggregated : gmap string float) (key : string) :
  fold_left Aggregation.addRecord records aggregated !! key
  = Aggregation.sumFrom (aggregated !! key)
      (Aggregation.numericField key <$> records).
Proof.
  revert aggregated. induction records as [|r records IH]; intros aggregated;
    [done|].
  simpl. rewrite IH, addRecord_lookup. unfold Aggregation.sumFrom. simpl.
  by destruct (Aggregation.numericField key r).
Qed.

(** The running value of a key is the left-to-right sum of the numbers met
    so far, and is absent until one is met. *)
Lemma sumFrom_omap {A : Type} (f : A → option float) (l : list A)
    (acc : option float) :
  Aggregation.sumFrom acc (f <$> l)
  = match omap f l with
    | [] => acc
    | values => Some (fold_left Aggregation.addTo values (default 0%float acc))
    end.
Proof.
  revert acc. induction l as [|x l IH]; intros acc; [done|].
  rewrite fmap_cons.
  change (Aggregation.sumFrom acc (f x :: (f <$> l)))
    with (Aggregation.sumFrom
            (match f x with
             | Some v => Some (PrimFloat.add (Aggregation.orZero acc) v)
             | None => acc
             end) (f <$> l)).
  rewrite IH. cbn [omap list_omap]. destruct (f x) as [v|]; [|done].
  assert (E : PrimFloat.add (Aggregation.orZero acc) v
              = Aggregation.addTo (default 0%float acc) v).
  { unfold Aggregation.addTo. by destruct acc as [a|]. }
  rewrite E. simpl. by destruct (omap f l).
Qed.

(** The accumulator after the two loops, key by key: absent when no record
    holds a number under the key, and otherwise the left-to-right sum of the
    numbers held under it. *)
Lemma sumRecords_lookup (key : string) (records : list Aggregation.GroundwaterRecord) :
  Aggregation.sumRecords records !! key = Aggregation.summedField key records.
Proof.
  unfold Aggregation.sumRecords, Aggregation.summedField, Aggregation.fieldValues,
    Aggregation.sum.
  by rewrite fold_addRecord_lookup, lookup_empty, sumFrom_omap.
Qed.

Lemma fieldValues_nil (key : string) (records : list Aggregation.GroundwaterRecord) :
  Aggregation.fieldValues key records = []
  ↔ ∀ r, r ∈ records → Aggregation.numericField key r = None.
Proof.
  unfold Aggregation.fieldValues. induction records as [|r records IH].
  - split; [intros _ r Hr; inversion Hr | done].
  - cbn [omap list_omap]. destruct (Aggregation.numericField key r) eqn:E.
    + split; [done|]. intros H. specialize (H r ltac:(left)). congruence.
    + rewrite IH. split.
      * intros H r' [-> | Hr']%elem_of_cons; auto.
      * intros H r' Hr'. apply H. by right.
Qed.

Lemma summedField_Some (key : string) (records : list Aggregation.GroundwaterRecord) :
  (∃ r, r ∈ records ∧ is_Some (Aggregation.numericField key r)) →
  Aggregation.summedField key records
  = Some (Aggregation.sum (Aggregation.fieldValues key records)).
Proof.
  intros (r & Hr & [v Hv]). unfold Aggregation.summedField.
  destruct (Aggregation.fieldValues key records) eqn:E; [|done].
  pose proof (proj1 (fieldValues_nil key records) E) as Hnil.
  rewrite (Hnil r Hr) in Hv. done.
Qed.

Lemma summedField_is_Some (key : string) (records : list Aggregation.GroundwaterRecord) :
  is_Some (Aggregation.summedField key records) →
  ∃ r, r ∈ records ∧ is_Some (Aggregation.numericField key r).
Proof.
  unfold Aggregation.summedField, Aggregation.fieldValues.
  induction records as [|r records IH]; cbn [omap list_omap].
  - by intros [? [=]].
  - destruct (Aggregation.numericField key r) as [v|] eqn:E.
    + intros _. exists r. split; [by left | by rewrite E].
    + intros H. destruct (IH H) as (r' & Hr' & Hd). exists r'. split; [by right | done].
Qed.

(** The fields of the record that [aggregateGroundwaterRecords] builds from
    two records or more. *)
Lemma aggregate_many (first second : Aggregation.GroundwaterRecord)
    (rest : list Aggregation.GroundwaterRecord) :
  ∃ merged,
    Aggregation.aggregateGroundwaterRecords (first :: second :: rest) = Some merged
    ∧ Aggregation.location merged = Aggregation.location first
    ∧ Aggregation.year merged = Aggregation.year first
    ∧ Aggregation.data merged !! "categoryTotal"
      = Some (Js.Str (Aggregation.determineCategoryFromStage
                        (Aggregation.summedField "stageOfExtractionTotal"
                           (first :: second :: rest))))
    ∧ Aggregation.data merged !! "categoryCommand" = Some Js.Null
    ∧ Aggregation.data merged !! "categoryNonCommand" = Some Js.Null
    ∧ Aggregation.data merged !! "categoryPoorQuality" = Some Js.Null
    ∧ ∀ key, key ∉ Aggregation.categoryKeys →
        Aggregation.data merged !! key
        = Js.Num <$> Aggregation.summedField key (first :: second :: rest).
Proof.
  eexists. split; [reflexivity|]. cbn [Aggregation.location Aggregation.year Aggregation.data].
  split; [done|]. split; [done|]. split; [|split; [|split; [|split]]].
  - rewrite <- sumRecords_lookup. by simplify_map_eq.
  - by simplify_map_eq.
  - by simplify_map_eq.
  - by simplify_map_eq.
  - intros key Hkey. unfold Aggregation.categoryKeys in Hkey.
    rewrite !not_elem_of_cons in Hkey. destruct Hkey as (? & ? & ? & ? & _).
    rewrite !lookup_insert_ne by done. by rewrite lookup_fmap, sumRecords_lookup.
Qed.

Lemma aggregate_many_Some (records : list Aggregation.GroundwaterRecord) :
  (2 ≤ length records)%nat →
  ∃ merged, Aggregation.aggregateGroundwaterRecords records = Some merged.
Proof.
  destruct records as [|first [|second rest]]; simpl; [lia | lia |]. intros _.
  destruct (aggregate_many first second rest) as (merged & Hm & _). eauto.
Qed.

(** What a record merged from two records or more holds under a key. *)
Lemma merged_lookup (records : list Aggregation.GroundwaterRecord)
    (merged : Aggregation.GroundwaterRecord) (key : string) :
  (2 ≤ length records)%nat →
  Aggregation.aggregateGroundwaterRecords records = Some merged →
  key ∉ Aggregation.categoryKeys →
  Aggregation.data merged !! key = Js.Num <$> Aggregation.summedField key records.
Proof.
  intros Hlen Hagg Hkey. destruct records as [|first [|second rest]]; simpl in Hlen;
    [lia | lia |].
  destruct (aggregate_many first second rest)
    as (m & Hm & _ & _ & _ & _ & _ & _ & Hother).
  rewrite Hm in Hagg. injection Hagg as <-. by apply Hother.
Qed.

Lemma merged_category (records : list Aggregation.GroundwaterRecord)
    (merged : Aggregation.GroundwaterRecord) :
  (2 ≤ length records)%nat →
  Aggregation.aggregateGroundwaterRecords records = Some merged →
  Aggregation.data merged !! "categoryTotal"
  = Some (Js.Str (Aggregation.determineCategoryFromStage
                    (Aggregation.summedField "stageOfExtractionTotal" records))).
Proof.
  intros Hlen Hagg. destruct records as [|first [|second rest]]; simpl in Hlen;
    [lia | lia |].
  destruct (aggregate_many first second rest) as (m & Hm & _ & _ & Htot & _).
  rewrite Hm in Hagg. by injection Hagg as <-.
Qed.

(** A merged record holds a number only under a key under which some input
    holds one. *)
Lemma merged_number (records : list Aggregation.GroundwaterRecord)
    (merged : Aggregation.GroundwaterRecord) (key : string) (v : float) :
  (2 ≤ length records)%nat →
  Aggregation.aggregateGroundwaterRecords records = Some merged →
  Aggregation.data merged !! key = Some (Js.Num v) →
  (key ∉ Aggregation.categoryKeys)
  ∧ Aggregation.summedField key records = Some v.
Proof.
  intros Hlen Hagg Hv.
  assert (Hkey : key ∉ Aggregation.categoryKeys).
  { destruct records as [|first [|second rest]]; simpl in Hlen; [lia | lia |].
    destruct (aggregate_many first second rest)
      as (m & Hm & _ & _ & Htot & Hc & Hn & Hp & _).
    rewrite Hm in Hagg. injection Hagg as <-.
    unfold Aggregation.categoryKeys. rewrite !elem_of_cons.
    intros [-> | [-> | [-> | [-> | Hnil]]]]; [congruence.. | by inversion Hnil]. }
  split; [done|].
  rewrite (merged_lookup records merged key Hlen Hagg Hkey) in Hv.
  destruct (Aggregation.summedField key records); simpl in Hv; congruence.
Qed.

(** C1: a non-empty list of records aggregates to a record; a single record
    is returned as it is; two records or more give one record of the first
    record's location and year in which every numeric field that some input
    defines holds the sum of that field over the inputs, the doubles being
    added in the order of the inputs and an input without the field being
    passed over (for finite values this is the plain sum from left to
    right, starting from zero); no numeric field occurs that no input
    defines; the three
    per-sub-area category labels are null, and the one category is computed
    from the summed stage of extraction. *)
Theorem aggregateGroundwaterRecords_spec
    (records : list Aggregation.GroundwaterRecord) :
  records ≠ [] →
  ∃ merged,
    Aggregation.aggregateGroundwaterRecords records = Some merged
    ∧ (∀ r, records = [r] → merged = r)
    ∧ ((2 ≤ length records)%nat →
       (∀ first, head records = Some first →
          Aggregation.location merged = Aggregation.location first
          ∧ Aggregation.year merged = Aggregation.year first)
       ∧ (∀ key, key ∉ Aggregation.categoryKeys →
            (∃ r, r ∈ records ∧ is_Some (Aggregation.numericField key r)) →
            Aggregation.data merged !! key
            = Some (Js.Num (Aggregation.sum (Aggregation.fieldValues key records))))
       ∧ (∀ key, key ∉ Aggregation.categoryKeys →
            (∃ r, r ∈ records ∧ is_Some (Aggregation.numericField key r)) →
            Forall (λ v, PrimFloat.is_finite v = true)
              (Aggregation.fieldValues key records) →
            Aggregation.data merged !! key
            = Some (Js.Num (fold_left PrimFloat.add
                              (Aggregation.fieldValues key records) 0%float)))
       ∧ (∀ key v, Aggregation.data merged !! key = Some (Js.Num v) →
            ∃ r, r ∈ records ∧ is_Some (Aggregation.numericField key r))
       ∧ (∀ key, key ∉ Aggregation.categoryKeys →
            Aggregation.data merged !! key
            = Js.Num <$> Aggregation.summedField key records)
       ∧ Aggregation.data merged !! "categoryCommand" = Some Js.Null
       ∧ Aggregation.data merged !! "categoryNonCommand" = Some Js.Null
       ∧ Aggregation.data merged !! "categoryPoorQuality" = Some Js.Null
       ∧ Aggregation.data merged !! "categoryTotal"
         = Some (Js.Str (Aggregation.determineCategoryFromStage
                           (Aggregation.summedField "stageOfExtractionTotal" records)))).
Proof.
  intros Hne. destruct records as [|first [|second rest]]; [done | |].
  - exists first. split; [done|]. split; [by intros r [= ->]|]. simpl. lia.
  - destruct (aggregate_many first second rest)
      as (merged & Hm & Hloc & Hyear & Htot & Hc & Hn & Hp & Hother).
    exists merged. split; [done|]. split; [intros r [=]|]. intros Hlen.
    split; [by intros f [= <-]|].
    split; [|split; [|split; [|split; [|repeat split; done]]]].
    + intros key Hkey Hdef. by rewrite (Hother key Hkey), (summedField_Some _ _ Hdef).
    + intros key Hkey Hdef Hfin.
      by rewrite (Hother key Hkey), (summedField_Some _ _ Hdef), sum_fold_add.
    + intros key v Hv.
      destruct (merged_number _ _ key v Hlen Hm Hv) as [_ Hs].
      apply summedField_is_Some. by rewrite Hs.
    + exact Hother.
Qed.

Lemma aggregateGroundwaterRecords_spec_witness :
  (∃ merged,
     Aggregation.aggregateGroundwaterRecords Aggregation.exampleRows = Some merged
     ∧ Aggregation.data merged !! "draftTotalTotal" = Some (Js.Num 25))
  ∧ (∃ merged,
       Aggregation.aggregateGroundwaterRecords Aggregation.roundedRows = Some merged
       ∧ Aggregation.data merged !! "draftTotalTotal"
         = Some (Js.Num 89.99999999999999)).
Proof.
  assert (Hkey : "draftTotalTotal" ∉ Aggregation.categoryKeys).
  { unfold Aggregation.categoryKeys. rewrite !not_elem_of_cons.
    repeat split; try discriminate. apply not_elem_of_nil. }
  split.
  - destruct (aggregateGroundwaterRecords_spec Aggregation.exampleRows)
      as (merged & Hagg & _ & Hmany); [discriminate|].
    exists merged. split; [exact Hagg|].
    destruct Hmany as (_ & Hsum & _); [simpl; lia|].
    rewrite (Hsum "draftTotalTotal" Hkey); [reflexivity|].
    exists Aggregation.exampleRow1. split; [left|]. exists 10%float. reflexivity.
  - destruct (aggregateGroundwaterRecords_spec Aggregation.roundedRows)
      as (merged & Hagg & _ & Hmany); [discriminate|].
    exists merged. split; [exact Hagg|].
    destruct Hmany as (_ & Hsum & _); [simpl; lia|].
    rewrite (Hsum "draftTotalTotal" Hkey); [reflexivity|].
    exists (Aggregation.stageRow 60.3 84.99). split; [left|].
    exists 84.99%float. reflexivity.
Defined.

(** C2: the category is a four-way thresholding of the stage of extraction
    (below 70, below 90, below 100, 100 and more), a stage that is zero or
    absent giving "Unknown" and not "Safe"; and the category of a merged
    record is this function of the summed stage of extraction, the sum
    being the one the merge computes on doubles. *)
Theorem determineCategoryFromStage_thresholds :
  (∀ stage : float, PrimFloat.eqb stage 0 = false → PrimFloat.ltb stage 70 = true →
     Aggregation.determineCategoryFromStage (Some stage) = "Safe")
  ∧ (∀ stage : float, PrimFloat.leb 70 stage = true → PrimFloat.ltb stage 90 = true →
       Aggregation.determineCategoryFromStage (Some stage) = "Semi-Critical")
  ∧ (∀ stage : float, PrimFloat.leb 90 stage = true → PrimFloat.ltb stage 100 = true →
       Aggregation.determineCategoryFromStage (Some stage) = "Critical")
  ∧ (∀ stage : float, PrimFloat.leb 100 stage = true →
       Aggregation.determineCategoryFromStage (Some stage) = "Over-Exploited")
  ∧ (∀ stage : float, PrimFloat.eqb stage 0 = true →
       Aggregation.determineCategoryFromStage (Some stage) = "Unknown")
  ∧ Aggregation.determineCategoryFromStage None = "Unknown"
  ∧ Aggregation.determineCategoryFromStage (Some 85%float) = "Semi-Critical"
  ∧ Aggregation.determineCategoryFromStage (Some 105%float) = "Over-Exploited"
  ∧ (∀ stage : float, Js.isNaN stage = true →
       Aggregation.determineCategoryFromStage (Some stage) = "Unknown")
  ∧ (∀ records merged, (2 ≤ length records)%nat →
       Aggregation.aggregateGroundwaterRecords records = Some merged →
       Aggregation.data merged !! "categoryTotal"
       = Some (Js.Str (Aggregation.determineCategoryFromStage
                         (Aggregation.summedField "stageOfExtractionTotal" records)))).
Proof.
  assert (Hge : ∀ c stage : float, PrimFloat.ltb 0 c = true →
            PrimFloat.leb c stage = true →
            Js.falsy stage = false
            ∧ ∀ d, PrimFloat.leb d c = true → PrimFloat.ltb stage d = false).
  { intros c stage Hc Hs. split; [by eapply leb_truthy|]. intros d Hd.
    pose proof (leb_trans _ _ _ Hd Hs) as Hds.
    destruct (leb_not_nan _ _ Hds) as [Hnd Hns].
    rewrite (leb_dual d stage Hnd Hns) in Hds. by apply negb_true_iff in Hds. }
  unfold Aggregation.determineCategoryFromStage.
  split; [|split; [|split; [|split; [|split; [|split; [|split; [|split; [|split]]]]]]]].
  - intros stage Hz Hlt. unfold Js.falsy. rewrite Hz.
    destruct (ltb_not_nan _ _ Hlt) as [-> _]. by rewrite Hlt.
  - intros stage H70 Hlt.
    destruct (Hge 70%float stage eq_refl H70) as [-> Hno].
    by rewrite (Hno 70%float eq_refl), Hlt.
  - intros stage H90 Hlt.
    destruct (Hge 90%float stage eq_refl H90) as [-> Hno].
    by rewrite (Hno 70%float eq_refl), (Hno 90%float eq_refl), Hlt.
  - intros stage H100.
    destruct (Hge 100%float stage eq_refl H100) as [-> Hno].
    by rewrite (Hno 70%float eq_refl), (Hno 90%float eq_refl), (Hno 100%float eq_refl).
  - intros stage Hz. unfold Js.falsy. by rewrite Hz.
  - done.
  - done.
  - done.
  - intros stage Hn. unfold Js.falsy. rewrite Hn. by rewrite orb_true_r.
  - intros records merged Hlen Hagg. by apply merged_category.
Qed.

Lemma determineCategoryFromStage_thresholds_witness :
  Aggregation.determineCategoryFromStage (Some 69.9%float) = "Safe"
  ∧ Aggregation.determineCategoryFromStage (Some 70%float) = "Semi-Critical"
  ∧ Aggregation.determineCategoryFromStage (Some (-0)%float) = "Unknown"
  ∧ (∃ merged,
       Aggregation.aggregateGroundwaterRecords Aggregation.exampleRows = Some merged
       ∧ Aggregation.data merged !! "categoryTotal" = Some (Js.Str "Semi-Critical"))
  ∧ (∃ merged,
       Aggregation.aggregateGroundwaterRecords Aggregation.roundedRows = Some merged
       ∧ Aggregation.data merged !! "stageOfExtractionTotal" = Some (Js.Num 70)
       ∧ Aggregation.data merged !! "categoryTotal" = Some (Js.Str "Semi-Critical")).
Proof.
  destruct determineCategoryFromStage_thresholds
    as (Hsafe & Hsemi & _ & _ & Hzero & _ & _ & _ & _ & Hmerged).
  split; [|split; [|split; [|split]]].
  - apply Hsafe; reflexivity.
  - apply Hsemi; reflexivity.
  - apply Hzero. reflexivity.
  - eexists. split; [reflexivity|].
    rewrite (Hmerged Aggregation.exampleRows _ ltac:(simpl; lia) eq_refl).
    reflexivity.
  - eexists. split; [reflexivity|]. split; [reflexivity|].
    rewrite (Hmerged Aggregation.roundedRows _ ltac:(simpl; lia) eq_refl).
    reflexivity.
Defined.

Lemma fieldValues_app (key : string) (xs ys : list Aggregation.GroundwaterRecord) :
  Aggregation.fieldValues key (xs ++ ys)
  = Aggregation.fieldValues key xs ++ Aggregation.fieldValues key ys.
Proof. unfold Aggregation.fieldValues. apply omap_app. Qed.

(** Summing a list that holds the same records twice goes on from the sum
    of the first copy. *)
Lemma summedField_twice (key : string) (records : list Aggregation.GroundwaterRecord) :
  Aggregation.summedField key (records ++ records)
  = match Aggregation.fieldValues key records with
    | [] => None
    | values =>
        Some (fold_left Aggregation.addTo values (Aggregation.sum values))
    end.
Proof.
  unfold Aggregation.summedField. rewrite fieldValues_app.
  destruct (Aggregation.fieldValues key records) as [|v values] eqn:E; [done|].
  change ((v :: values) ++ v :: values) with (v :: (values ++ v :: values)).
  cbv iota. unfold Aggregation.sum.
  change (v :: (values ++ v :: values)) with ((v :: values) ++ v :: values).
  by rewrite fold_left_app.
Qed.




(** ** Location catalog and fuzzy resolver *)

(** When every attempt fails the loop leaves the state as it was, and throws
    unless no attempt was made at all. *)
Lemma initLoop_all_fail (newFuse : list Schema.LocationRecord → LocationSearch.Fuse)
    (select : nat → option (list Schema.LocationRecord))
    (retries remaining i : nat) (st : LocationSearch.State) :
  retries = (i + remaining)%nat →
  (∀ j, (i ≤ j < retries)%nat → select j = None) →
  LocationSearch.initLoop newFuse select retries remaining i st
  = (if (remaining =? 0)%nat then Js.Ok tt
     else Js.Throw (LocationSearch.InitFailed retries), st).
Proof.
  revert i. induction remaining as [|remaining IH]; intros i Hr Hfail; [done|].
  simpl. rewrite (Hfail i) by lia.
  destruct (Nat.ltb_spec i (retries - 1)) as [Hlt | Hge].
  - rewrite (IH (S i)) by (try lia; intros j Hj; apply Hfail; lia).
    destruct (Nat.eqb_spec remaining 0); [lia | done].
  - done.
Qed.

(** The first attempt that succeeds loads the catalog and builds the
    index. *)
Lemma initLoop_success (newFuse : list Schema.LocationRecord → LocationSearch.Fuse)
    (select : nat → option (list Schema.LocationRecord))
    (retries remaining i k : nat) (rows : list Schema.LocationRecord)
    (st : LocationSearch.State) :
  retries = (i + remaining)%nat →
  (i ≤ k < retries)%nat →
  (∀ j, (i ≤ j < k)%nat → select j = None) →
  select k = Some rows →
  LocationSearch.initLoop newFuse select retries remaining i st
  = (Js.Ok tt, {| LocationSearch.locationCache := rows;
                  LocationSearch.fuse := Some (newFuse rows) |}).
Proof.
  revert i. induction remaining as [|remaining IH]; intros i Hr Hk Hfail Hrows;
    [lia|].
  simpl. destruct (decide (i = k)) as [-> | Hne].
  - by rewrite Hrows.
  - rewrite (Hfail i) by lia.
    destruct (Nat.ltb_spec i (retries - 1)) as [Hlt | Hge]; [|lia].
    apply IH; try lia; try done. intros j Hj. apply Hfail. lia.
Qed.

Lemma searchLocation_no_match (st : LocationSearch.State) (fz : LocationSearch.Fuse)
    (query : string) (type : option Schema.LocationType) (parentName : option string) :
  LocationSearch.fuse st = Some fz →
  LocationSearch.search fz (Js.trim (Js.replaceSeparators query)) = [] →
  LocationSearch.searchLocation query type parentName st = Js.Ok [].
Proof.
  intros Hfz Hnone. unfold LocationSearch.searchLocation. rewrite Hfz, Hnone.
  assert (Hf : ∀ pt pn, LocationSearch.filterByParent fz pt pn [] = []).
  { intros pt pn. unfold LocationSearch.filterByParent. simpl.
    by destruct (0 <? _)%nat. }
  destruct type as [[| | |]|], (Js.truthy_str parentName); simpl; by rewrite ?Hf.
Qed.

(** C9: as long as no load has succeeded every resolution operation throws
    the "not initialized" error, also after an initialization whose
    attempts all failed; once a load has succeeded every resolution returns
    a list, the empty list when the index matches nothing; the two outcomes
    differ. *)
Theorem searchLocation_not_initialized_or_no_match :
  (∀ st query type parentName,
     LocationSearch.fuse st = None →
     LocationSearch.searchLocation query type parentName st
     = Js.Throw LocationSearch.NotInitialized
     ∧ LocationSearch.searchState query st = Js.Throw LocationSearch.NotInitialized
     ∧ LocationSearch.searchDistrict query parentName st
       = Js.Throw LocationSearch.NotInitialized
     ∧ LocationSearch.searchTaluk query parentName st
       = Js.Throw LocationSearch.NotInitialized)
  ∧ LocationSearch.fuse LocationSearch.initialState = None
  ∧ (∀ newFuse select retries st,
       LocationSearch.fuse st = None →
       (∀ j, (j < retries)%nat → select j = None) →
       LocationSearch.fuse
         (LocationSearch.initLocationSearch newFuse select retries st).2 = None
       ∧ ((0 < retries)%nat →
          (LocationSearch.initLocationSearch newFuse select retries st).1
          = Js.Throw (LocationSearch.InitFailed retries)))
  ∧ (∀ newFuse select retries st k rows,
       (k < retries)%nat → (∀ j, (j < k)%nat → select j = None) →
       select k = Some rows →
       LocationSearch.initLocationSearch newFuse select retries st
       = (Js.Ok tt, {| LocationSearch.locationCache := rows;
                       LocationSearch.fuse := Some (newFuse rows) |}))
  ∧ (∀ st fz query type parentName,
       LocationSearch.fuse st = Some fz →
       (∃ results, LocationSearch.searchLocation query type parentName st
                   = Js.Ok results)
       ∧ (LocationSearch.search fz (Js.trim (Js.replaceSeparators query)) = [] →
          LocationSearch.searchLocation query type parentName st = Js.Ok []))
  ∧ Js.Throw LocationSearch.NotInitialized
    ≠ (Js.Ok [] : Js.result LocationSearch.Error (list LocationSearch.SearchResult)).
Proof.
  split; [|split; [done|split; [|split; [|split; [|done]]]]].
  - intros st query type parentName Hnone.
    unfold LocationSearch.searchState, LocationSearch.searchDistrict,
      LocationSearch.searchTaluk, LocationSearch.searchLocation.
    by rewrite Hnone.
  - intros newFuse select retries st Hnone Hfail.
    unfold LocationSearch.initLocationSearch.
    rewrite (initLoop_all_fail newFuse select retries retries 0 st)
      by (try done; intros j Hj; apply Hfail; lia).
    split; [done|]. intros Hpos. simpl.
    destruct (Nat.eqb_spec retries 0); [lia | done].
  - intros newFuse select retries st k rows Hk Hfail Hrows.
    unfold LocationSearch.initLocationSearch.
    apply (initLoop_success newFuse select retries retries 0 k rows st);
      try done; try lia. intros j Hj. apply Hfail. lia.
  - intros st fz query type parentName Hfz. split.
    + unfold LocationSearch.searchLocation. rewrite Hfz. eauto.
    + by apply searchLocation_no_match.
Qed.

Lemma searchLocation_not_initialized_or_no_match_witness :
  LocationSearch.searchLocation "Bidar" None None LocationSearch.initialState
  = Js.Throw LocationSearch.NotInitialized
  ∧ LocationSearch.fuse
      (LocationSearch.initLocationSearch LocationSearch.exactFuse (λ _, None) 5
         LocationSearch.initialState).2 = None
  ∧ LocationSearch.initLocationSearch LocationSearch.exactFuse
      (λ i, if (i =? 2)%nat then Some LocationSearch.exampleLocations else None) 5
      LocationSearch.initialState
    = (Js.Ok tt, LocationSearch.loadedState)
  ∧ LocationSearch.searchLocation "Atlantis" None None LocationSearch.loadedState
    = Js.Ok [].
Proof.
  destruct searchLocation_not_initialized_or_no_match
    as (Hthrow & _ & Hfail & Hload & Hok & _).
  split; [|split; [|split]].
  - apply Hthrow. reflexivity.
  - apply Hfail; [reflexivity | reflexivity].
  - apply (Hload _ _ _ _ 2%nat); [lia | | reflexivity].
    intros j Hj. destruct j as [|[|j]]; [reflexivity | reflexivity | lia].
  - apply (Hok _ (LocationSearch.exactFuse LocationSearch.exampleLocations));
      reflexivity.
Defined.

(** The parent-hint block keeps the candidates it was given unless some of
    them have a parent among the three best matches of the hint. *)
Lemma filterByParent_spec (fz : LocationSearch.Fuse)
    (parentType : Schema.LocationType) (parentName : string)
    (filtered : list LocationSearch.FuseResult) :
  let parentIds :=
    List.map (λ r, Schema.id (LocationSearch.item r))
      (firstn 3 (List.filter (LocationSearch.hasType parentType)
                   (LocationSearch.search fz
                      (Js.toLowerCase (Js.trim (Js.replaceSeparators parentName)))))) in
  let narrowed :=
    List.filter (λ r, Js.includes parentIds
                        (default "" (Schema.parentId (LocationSearch.item r))))
      filtered in
  LocationSearch.filterByParent fz parentType parentName filtered
  = match narrowed with [] => filtered | _ => narrowed end.
Proof.
  intros parentIds narrowed. unfold LocationSearch.filterByParent.
  fold parentIds. subst narrowed. clearbody parentIds.
  destruct parentIds as [|p ids].
  - simpl.
    assert (H : List.filter (λ _ : LocationSearch.FuseResult, false) filtered = [])
      by (induction filtered; simpl; done).
    by rewrite H.
  - replace (0 <? length (p :: ids))%nat with true by done.
    destruct (List.filter _ filtered); done.
Qed.

(** C4: with a parent hint on a DISTRICT or TALUK query the hint is resolved
    at the level above, the ids of its first three matches of that level are
    taken, and the child candidates are narrowed to those whose parent is
    among them; when nothing is left the candidates are kept as they were,
    so a hint never empties a result that is non-empty without it. *)
Theorem searchLocation_parent_hint (st : LocationSearch.State)
    (fz : LocationSearch.Fuse) (query hint : string)
    (type parentType : Schema.LocationType) :
  LocationSearch.fuse st = Some fz →
  LocationSearch.parentLevel type = Some parentType →
  hint ≠ "" →
  let children :=
    List.filter (LocationSearch.hasType type)
      (LocationSearch.search fz (Js.trim (Js.replaceSeparators query))) in
  let parentIds :=
    List.map (λ r, Schema.id (LocationSearch.item r))
      (firstn 3 (List.filter (LocationSearch.hasType parentType)
                   (LocationSearch.search fz
                      (Js.toLowerCase (Js.trim (Js.replaceSeparators hint)))))) in
  let narrowed :=
    List.filter (λ r, Js.includes parentIds
                        (default "" (Schema.parentId (LocationSearch.item r))))
      children in
  LocationSearch.searchLocation query (Some type) (Some hint) st
  = Js.Ok (List.map LocationSearch.toSearchResult
             (firstn 5 (match narrowed with [] => children | _ => narrowed end)))
  ∧ (length parentIds ≤ 3)%nat
  ∧ LocationSearch.searchLocation query (Some type) None st
    = Js.Ok (List.map LocationSearch.toSearchResult (firstn 5 children))
  ∧ (children ≠ [] →
     ∃ results, LocationSearch.searchLocation query (Some type) (Some hint) st
                = Js.Ok results ∧ results ≠ []).
Proof.
  intros Hfz Hlevel Hhint children parentIds narrowed.
  assert (Htruthy : Js.truthy_str (Some hint) = true).
  { simpl. by destruct (String.eqb_spec hint ""). }
  assert (Hwith : LocationSearch.searchLocation query (Some type) (Some hint) st
    = Js.Ok (List.map LocationSearch.toSearchResult
               (firstn 5 (match narrowed with [] => children | _ => narrowed end)))).
  { unfold LocationSearch.searchLocation. rewrite Hfz, Htruthy.
    destruct type; simpl in Hlevel; try done; injection Hlevel as <-;
      cbn [default]; by rewrite filterByParent_spec. }
  split; [exact Hwith|]. split.
  { subst parentIds. rewrite length_map, length_firstn. lia. }
  split.
  { unfold LocationSearch.searchLocation. rewrite Hfz. simpl.
    by destruct type. }
  intros Hchildren. eexists. split; [exact Hwith|].
  destruct narrowed as [|n narrowed']; [by destruct children|done].
Qed.

Lemma searchLocation_parent_hint_witness :
  (∃ results,
      LocationSearch.searchLocation "Aurangabad" (Some Schema.DISTRICT)
        (Some "Atlantis") LocationSearch.loadedState = Js.Ok results
      ∧ results ≠ [])
  ∧ LocationSearch.searchLocation "Aurangabad" (Some Schema.DISTRICT)
      (Some "maharashtra") LocationSearch.loadedState
    = Js.Ok [ {| LocationSearch.location :=
                   {| Schema.id := "d2"; Schema.externalId := None;
                      Schema.name := "Aurangabad"; Schema.type := Schema.DISTRICT;
                      Schema.parentId := Some "s2" |};
                 LocationSearch.score_ := 1 |} ].
Proof.
  split.
  - apply (searchLocation_parent_hint LocationSearch.loadedState
             (LocationSearch.exactFuse LocationSearch.exampleLocations)
             "Aurangabad" "Atlantis" Schema.DISTRICT Schema.STATE);
      [reflexivity | reflexivity | discriminate | discriminate].
  - destruct (searchLocation_parent_hint LocationSearch.loadedState
                (LocationSearch.exactFuse LocationSearch.exampleLocations)
                "Aurangabad" "maharashtra" Schema.DISTRICT Schema.STATE)
      as (Hres & _); [reflexivity | reflexivity | discriminate |].
    rewrite Hres. reflexivity.
Defined.

(** ** Stable sorting *)

Section sortBy_facts.
Context {A : Type} (le : A → A → bool).

Lemma insertSorted_Permutation (x : A) (l : list A) :
  StableSort.insertSorted le x l ≡ₚ x :: l.
Proof.
  induction l as [|y l IH]; simpl; [done|].
  destruct (le x y); [done|]. rewrite IH. apply Permutation_swap.
Qed.

Lemma sortBy_Permutation (l : list A) : StableSort.sortBy le l ≡ₚ l.
Proof.
  induction l as [|x l IH]; simpl; [done|].
  by rewrite insertSorted_Permutation, IH.
Qed.

Context (le_total : ∀ a b, le a b = true ∨ le b a = true).
Context (le_trans : ∀ a b c, le a b = true → le b c = true → le a c = true).

Lemma insertSorted_StronglySorted (x : A) (l : list A) :
  StronglySorted (λ a b, le a b = true) l →
  StronglySorted (λ a b, le a b = true) (StableSort.insertSorted le x l).
Proof.
  induction 1 as [|y l Hs IH Hy]; simpl.
  - repeat constructor.
  - destruct (le x y) eqn:E.
    + constructor; [by constructor|]. constructor; [done|].
      eapply Forall_impl; [exact Hy|]. intros z Hz. by eapply le_trans.
    + constructor; [done|].
      rewrite insertSorted_Permutation. constructor; [|done].
      destruct (le_total x y) as [Hxy | Hyx]; [congruence | done].
Qed.

Lemma sortBy_StronglySorted (l : list A) :
  StronglySorted (λ a b, le a b = true) (StableSort.sortBy le l).
Proof.
  induction l as [|x l IH]; simpl; [constructor|].
  by apply insertSorted_StronglySorted.
Qed.

End sortBy_facts.

(** The same for an order that is total and transitive on the elements that
    satisfy [P] only. *)
Section sortBy_on.
Context {A : Type} (le : A → A → bool) (P : A → Prop).
Context (le_total : ∀ a b, P a → P b → le a b = true ∨ le b a = true).
Context (le_trans : ∀ a b c, P a → P b → P c →
                      le a b = true → le b c = true → le a c = true).

Lemma insertSorted_StronglySorted_on (x : A) (l : list A) :
  P x → Forall P l →
  StronglySorted (λ a b, le a b = true) l →
  StronglySorted (λ a b, le a b = true) (StableSort.insertSorted le x l).
Proof.
  intros Px HP. induction 1 as [|y l Hs IH Hy]; simpl.
  - repeat constructor.
  - apply Forall_cons in HP as [Py HP]. destruct (le x y) eqn:E.
    + constructor; [by constructor|]. constructor; [done|].
      rewrite Forall_forall in Hy, HP. apply Forall_forall. intros z Hz.
      apply (le_trans x y z); auto.
    + constructor; [by apply IH|].
      rewrite insertSorted_Permutation. constructor; [|done].
      destruct (le_total x y Px Py) as [Hxy | Hyx]; [congruence | done].
Qed.

Lemma sortBy_StronglySorted_on (l : list A) :
  Forall P l → StronglySorted (λ a b, le a b = true) (StableSort.sortBy le l).
Proof.
  induction l as [|x l IH]; simpl; [constructor|].
  intros [Px HP]%Forall_cons. apply insertSorted_StronglySorted_on; auto.
  by rewrite sortBy_Permutation.
Qed.

End sortBy_on.

Lemma StronglySorted_fmap_Forall {A B : Type} (f : A → B) (P : A → Prop)
    (R1 : relation A) (R2 : relation B) (l : list A) :
  (∀ x y, P x → P y → R1 x y → R2 (f x) (f y)) →
  Forall P l → StronglySorted R1 l → StronglySorted R2 (f <$> l).
Proof.
  intros Hf HP Hs. induction Hs as [|x l Hs IH Hx]; simpl; [constructor|].
  apply Forall_cons in HP as [Px HP]. constructor; [by apply IH|].
  apply Forall_fmap. apply Forall_forall. intros y Hy.
  rewrite Forall_forall in Hx, HP. apply Hf; auto.
Qed.

(** ** Groundwater service *)

Lemma num_le_total (x y : float) :
  GroundwaterService.num_le x y = true ∨ GroundwaterService.num_le y x = true.
Proof.
  unfold GroundwaterService.num_le.
  destruct (Js.isNaN y) eqn:Ey; [by left|].
  destruct (Js.isNaN x) eqn:Ex; [by right|].
  by apply leb_total.
Qed.

Lemma num_le_trans (x y z : float) :
  GroundwaterService.num_le x y = true → GroundwaterService.num_le y z = true →
  GroundwaterService.num_le x z = true.
Proof.
  unfold GroundwaterService.num_le.
  destruct (Js.isNaN z) eqn:Ez; [done|].
  destruct (Js.isNaN y) eqn:Ey; [done|].
  destruct (Js.isNaN x) eqn:Ex; [done|].
  apply leb_trans.
Qed.

Lemma sql_le_total (a b : option float) :
  GroundwaterService.sql_le a b = true ∨ GroundwaterService.sql_le b a = true.
Proof.
  destruct a as [x|], b as [y|]; simpl; auto. apply num_le_total.
Qed.

Lemma sql_le_trans (a b c : option float) :
  GroundwaterService.sql_le a b = true → GroundwaterService.sql_le b c = true →
  GroundwaterService.sql_le a c = true.
Proof.
  destruct a as [x|], b as [y|], c as [z|]; simpl; try done.
  apply num_le_trans.
Qed.

(** The rows come back ordered by the column, in the requested order, and
    are the rows that went in. *)
Lemma orderBy_Permutation (order : GroundwaterService.Order) (columnName : string)
    (rows : list (Schema.GwRow * Schema.LocationRecord)) :
  GroundwaterService.orderBy order columnName rows ≡ₚ rows.
Proof. destruct order; apply sortBy_Permutation. Qed.

Lemma orderBy_StronglySorted (order : GroundwaterService.Order) (columnName : string)
    (rows : list (Schema.GwRow * Schema.LocationRecord)) :
  StronglySorted
    (λ a b, match order with
            | GroundwaterService.asc =>
                GroundwaterService.sql_le (GroundwaterService.cell columnName a.1)
                  (GroundwaterService.cell columnName b.1)
            | GroundwaterService.desc =>
                GroundwaterService.sql_le (GroundwaterService.cell columnName b.1)
                  (GroundwaterService.cell columnName a.1)
            end = true)
    (GroundwaterService.orderBy order columnName rows).
Proof.
  destruct order; simpl; apply sortBy_StronglySorted.
  - intros a b. apply sql_le_total.
  - intros a b c. apply sql_le_trans.
  - intros a b. apply sql_le_total.
  - intros a b c H1 H2. by eapply sql_le_trans.
Qed.

(** In the object of a row the number found under a property is the cell of
    the numeric column of that name. *)
Lemma numberAt_toRecord (row : Schema.GwRow * Schema.LocationRecord)
    (property : string) :
  GroundwaterService.numberAt property (GroundwaterService.toRecord row)
  = Schema.nums row.1 !! property.
Proof.
  unfold GroundwaterService.numberAt, GroundwaterService.toRecord, Schema.rowObject.
  cbn [Aggregation.data]. rewrite !lookup_union, !lookup_fmap.
  destruct (Schema.nums row.1 !! property) as [q|]; simpl.
  - by destruct (Js.Str <$> Schema.texts row.1 !! property),
      (<["id":=_]> _ !! property).
  - destruct (Schema.texts row.1 !! property); simpl.
    + by destruct (<["id":=_]> _ !! property).
    + destruct (<["id":=_]> _ !! property) as [v|] eqn:E; simpl; [|done].
      apply lookup_insert_Some in E as [[_ <-] | [_ E]]; [done|].
      apply lookup_insert_Some in E as [[_ <-] | [_ E]]; [done|].
      apply lookup_insert_Some in E as [[_ <-] | [_ E]]; [done|].
      by rewrite lookup_empty in E.
Qed.

Lemma numericField_numberAt (property : string) (r : Aggregation.GroundwaterRecord) :
  Aggregation.numericField property r
  = match GroundwaterService.numberAt property r with
    | Some v => if Js.isNaN v then None else Some v
    | None => None
    end.
Proof.
  unfold Aggregation.numericField, GroundwaterService.numberAt.
  by destruct (Aggregation.data r !! property) as [[| | |v|]|].
Qed.

(** The number that a sum takes from a row: the cell, unless it is NaN. *)
Lemma numericField_toRecord (row : Schema.GwRow * Schema.LocationRecord)
    (property : string) :
  Aggregation.numericField property (GroundwaterService.toRecord row)
  = match Schema.nums row.1 !! property with
    | Some v => if Js.isNaN v then None else Some v
    | None => None
    end.
Proof. by rewrite numericField_numberAt, numberAt_toRecord. Qed.

(** Every field the ranking knows names a column of the schema. *)
Lemma fieldToColumn_property (field columnName : string) :
  GroundwaterService.fieldToColumn field = Some columnName →
  ∃ property,
    GroundwaterService.assoc columnName GroundwaterService.columnProperties
    = Some property.
Proof.
  unfold GroundwaterService.fieldToColumn, GroundwaterService.fieldMap.
  generalize (Js.toLowerCase field). intros f. cbn [GroundwaterService.assoc].
  repeat (match goal with
          | |- context [String.eqb ?a f] => destruct (String.eqb a f)
          end; [intros [= <-]; eexists; reflexivity|]).
  done.
Qed.

Lemma qualifies_spec (columnName property : string)
    (locationType : Schema.LocationType) (year : string)
    (row : Schema.GwRow * Schema.LocationRecord) :
  GroundwaterService.assoc columnName GroundwaterService.columnProperties
  = Some property →
  GroundwaterService.qualifies columnName locationType year row = true
  ↔ Schema.type row.2 = locationType ∧ Schema.year row.1 = year
    ∧ is_Some (Schema.nums row.1 !! property).
Proof.
  intros Hp. unfold GroundwaterService.qualifies, GroundwaterService.cell.
  rewrite Hp, !andb_true_iff, bool_decide_eq_true, String.eqb_eq.
  assert (Ht : Schema.LocationType_eqb (Schema.type row.2) locationType = true
               ↔ Schema.type row.2 = locationType)
    by (destruct (Schema.type row.2), locationType; simpl; split; done).
  rewrite Ht. tauto.
Qed.

Lemma ordered_rows_ranked (order : GroundwaterService.Order)
    (columnName property : string) (locationType : Schema.LocationType)
    (year : string) (a b : Schema.GwRow * Schema.LocationRecord) :
  GroundwaterService.assoc columnName GroundwaterService.columnProperties
  = Some property →
  GroundwaterService.qualifies columnName locationType year a = true →
  GroundwaterService.qualifies columnName locationType year b = true →
  match order with
  | GroundwaterService.asc =>
      GroundwaterService.sql_le (GroundwaterService.cell columnName a.1)
        (GroundwaterService.cell columnName b.1)
  | GroundwaterService.desc =>
      GroundwaterService.sql_le (GroundwaterService.cell columnName b.1)
        (GroundwaterService.cell columnName a.1)
  end = true →
  GroundwaterService.rankedBefore order property
    (GroundwaterService.toRecord a) (GroundwaterService.toRecord b).
Proof.
  intros Hp Ha Hb Hle.
  apply (qualifies_spec _ _ _ _ _ Hp) in Ha as (_ & _ & [x Hx]).
  apply (qualifies_spec _ _ _ _ _ Hp) in Hb as (_ & _ & [y Hy]).
  exists x, y. rewrite !numberAt_toRecord. split; [done|]. split; [done|].
  unfold GroundwaterService.cell in Hle. rewrite Hp, Hx, Hy in Hle.
  by destruct order.
Qed.

Lemma List_filter_decide {A : Type} (f : A → bool) (P : A → Prop)
    `{∀ x, Decision (P x)} (l : list A) :
  (∀ x, f x = true ↔ P x) → List.filter f l = filter P l.
Proof.
  intros Hf. induction l as [|x l IH]; [done|].
  cbn [List.filter]. rewrite filter_cons, IH.
  destruct (f x) eqn:E; case_decide as HP; try done.
  - by apply Hf in E.
  - apply Hf in HP. congruence.
Qed.

(** For a field the ranking knows, the result consists of the first
    [limit] of the joined rows of the given type and year that hold a value
    for the field, ordered by that value in the requested order ([desc]:
    highest first); a row without a value is never ranked, so with at least
    [limit] such rows the result has exactly [limit] entries, and no row
    left out ranks before a row returned.  A field the ranking does not
    know ranks nothing. *)
Lemma getTopLocationsByField_rows (s : Schema.Store) (field : string)
    (locationType : Schema.LocationType) (order : GroundwaterService.Order)
    (limit : nat) (year : string) :
  let result :=
    GroundwaterService.getTopLocationsByField field locationType order limit year s in
  (GroundwaterService.fieldToColumn field = None → result = [])
  ∧ ∀ columnName, GroundwaterService.fieldToColumn field = Some columnName →
      ∃ property,
        GroundwaterService.assoc columnName GroundwaterService.columnProperties
        = Some property
        ∧ let candidates :=
            GroundwaterService.rankable property locationType year s in
          length result = (limit `min` length candidates)%nat
          ∧ ((limit ≤ length candidates)%nat → length result = limit)
          ∧ (∀ r, r ∈ result →
               Aggregation.type (Aggregation.location r) = locationType
               ∧ Aggregation.year r = year
               ∧ is_Some (GroundwaterService.numberAt property r))
          ∧ StronglySorted (GroundwaterService.rankedBefore order property) result
          ∧ ∃ rest, result ++ rest ≡ₚ GroundwaterService.toRecord <$> candidates
                    ∧ ∀ a b, a ∈ result → b ∈ rest →
                             GroundwaterService.rankedBefore order property a b.
Proof.
  intros result. split.
  { intros Hnone. subst result. unfold GroundwaterService.getTopLocationsByField.
    by rewrite Hnone. }
  intros columnName Hcol.
  destruct (fieldToColumn_property field columnName Hcol) as [property Hprop].
  exists property. split; [exact Hprop|]. intros candidates.
  assert (Hfilter : List.filter
            (GroundwaterService.qualifies columnName locationType year)
            (Schema.innerJoin s) = candidates).
  { apply List_filter_decide. intros row. by apply qualifies_spec. }
  assert (Hcand : ∀ row, row ∈ candidates →
            GroundwaterService.qualifies columnName locationType year row = true).
  { intros row Hrow. rewrite <- Hfilter in Hrow.
    by apply elem_of_List_filter in Hrow as [_ ?]. }
  set (sorted := GroundwaterService.orderBy order columnName candidates).
  assert (Hres : result = GroundwaterService.toRecord <$> take limit sorted).
  { subst result. unfold GroundwaterService.getTopLocationsByField.
    by rewrite Hcol, Hfilter. }
  assert (Hperm : sorted ≡ₚ candidates) by apply orderBy_Permutation.
  assert (Hq : Forall (λ row, GroundwaterService.qualifies columnName locationType
                                year row = true) sorted).
  { apply Forall_forall. intros row Hrow. rewrite Hperm in Hrow. by apply Hcand. }
  assert (Hsorted := orderBy_StronglySorted order columnName candidates).
  fold sorted in Hsorted.
  assert (Hlen : length result = (limit `min` length candidates)%nat).
  { by rewrite Hres, length_fmap, length_take, Hperm. }
  split; [exact Hlen|]. split; [lia|]. split; [|split].
  - intros r Hr. rewrite Hres in Hr.
    apply list_elem_of_fmap in Hr as (row & -> & Hrow).
    apply elem_of_take in Hrow as (i & Hrow & _).
    apply list_elem_of_lookup_2 in Hrow. rewrite Hperm in Hrow.
    apply Hcand, (qualifies_spec _ _ _ _ _ Hprop) in Hrow as (Ht & Hy & Hn).
    by rewrite numberAt_toRecord.
  - rewrite Hres.
    apply (StronglySorted_fmap_Forall _
             (λ row, GroundwaterService.qualifies columnName locationType year row
                     = true) _ _ _
             (λ x y Hx Hy, ordered_rows_ranked order columnName property
                             locationType year x y Hprop Hx Hy)).
    + rewrite <- (take_drop limit sorted) in Hq. by apply Forall_app in Hq as [? _].
    + rewrite <- (take_drop limit sorted) in Hsorted.
      by apply StronglySorted_app_1_l in Hsorted.
  - exists (GroundwaterService.toRecord <$> drop limit sorted). split.
    + by rewrite Hres, <- fmap_app, take_drop, Hperm.
    + intros a b Ha Hb. rewrite Hres in Ha.
      apply list_elem_of_fmap in Ha as (x & -> & Hx).
      apply list_elem_of_fmap in Hb as (y & -> & Hy).
      rewrite <- (take_drop limit sorted) in Hq, Hsorted.
      rewrite Forall_app, !Forall_forall in Hq. destruct Hq as [Hq1 Hq2].
      apply (ordered_rows_ranked order columnName property locationType year);
        auto.
      by apply (StronglySorted_app_1_elem_of _ _ _ _ _ Hsorted).
Qed.

(** C6, on a store in which one state has two raw rows for the year: the
    single-year ranking returns joined rows, one entry for each, and does
    not merge the rows of a location as the lookup by id does.  Karnataka
    has the rows 10 and 15 for 2024-2025, Kerala has 30, Punjab 20 and Goa
    no extraction.  The first three by extraction are Kerala, Punjab and
    one raw row of Karnataka with 15; the first four list Karnataka twice;
    the record of Karnataka for that year has extraction 25, which ranks
    second. *)
Theorem getTopLocationsByField_ranks_raw_rows :
  let top := λ limit,
    GroundwaterService.getTopLocationsByField "extraction" Schema.STATE
      GroundwaterService.desc limit "2024-2025" GroundwaterService.exampleStore in
  let entry := λ r : Aggregation.GroundwaterRecord,
    (Aggregation.name (Aggregation.location r),
     GroundwaterService.numberAt "draftTotalTotal" r) in
  entry <$> top 3%nat
  = [("Kerala", Some 30%float); ("Punjab", Some 20%float);
     ("Karnataka", Some 15%float)]
  ∧ entry <$> top 4%nat
    = [("Kerala", Some 30%float); ("Punjab", Some 20%float);
       ("Karnataka", Some 15%float); ("Karnataka", Some 10%float)]
  ∧ ∃ record,
      GroundwaterService.getGroundwaterDataByLocationId "s1" (Some "2024-2025")
        GroundwaterService.exampleStore = Some record
      ∧ Aggregation.name (Aggregation.location record) = "Karnataka"
      ∧ GroundwaterService.numberAt "draftTotalTotal" record = Some 25%float.
Proof.
  split; [by vm_compute|]. split; [by vm_compute|].
  eexists. split; [reflexivity|]. split; by vm_compute.
Qed.
(** ** Ranking and trend engine *)

Lemma accumulate_lookup (name : string) (value : option float)
    (aggs : list (string * list float)) (n : string) :
  GwTools.aggValues (GwTools.accumulate name value aggs) n
  = if String.eqb name n
    then Some (default [] (GwTools.aggValues aggs n) ++ option_list value)
    else GwTools.aggValues aggs n.
Proof.
  unfold GwTools.aggValues.
  induction aggs as [|[k vs] aggs IH]; simpl.
  - by destruct (String.eqb name n).
  - destruct (String.eqb_spec k name) as [-> | Hk]; simpl.
    + by destruct (String.eqb name n).
    + destruct (String.eqb_spec k n) as [-> | Hn]; simpl.
      * destruct (String.eqb_spec name n) as [-> | _]; done.
      * exact IH.
Qed.

Lemma accumulate_keys (name : string) (value : option float)
    (aggs : list (string * list float)) :
  (GwTools.accumulate name value aggs).*1
  = if bool_decide (name ∈ aggs.*1) then aggs.*1 else aggs.*1 ++ [name].
Proof.
  induction aggs as [|[k vs] aggs IH]; [done|].
  cbn [GwTools.accumulate]. rewrite !fmap_cons. cbn [fst].
  destruct (String.eqb_spec k name) as [-> | Hk].
  - rewrite fmap_cons. cbn [fst]. rewrite bool_decide_eq_true_2; [done | by left].
  - rewrite fmap_cons, IH. cbn [fst]. case_bool_decide as Hin.
    + rewrite bool_decide_eq_true_2; [done | by right].
    + rewrite bool_decide_eq_false_2; [done|].
      intros [? | ?]%elem_of_cons; congruence.
Qed.

Lemma accumulate_NoDup (name : string) (value : option float)
    (aggs : list (string * list float)) :
  NoDup aggs.*1 → NoDup (GwTools.accumulate name value aggs).*1.
Proof.
  intros Hnd. rewrite accumulate_keys. case_bool_decide as Hin; [done|].
  apply NoDup_app. split; [done|]. split; [|apply NoDup_singleton].
  intros x Hx ->%list_elem_of_singleton. done.
Qed.

Lemma valuesIn_absent (events : list (string * option float)) (n : string) :
  n ∉ events.*1 → GwTools.valuesIn events n = [].
Proof.
  unfold GwTools.valuesIn. induction events as [|e events IH]; [done|].
  rewrite fmap_cons, not_elem_of_cons. intros [Hne Hnot]. simpl.
  destruct (String.eqb_spec e.1 n) as [E | _]; [congruence|]. by apply IH.
Qed.

(** After a run of contributions, the entry under a name holds what it held
    before followed by the values contributed under that name, in order. *)
Lemma fold_accumulate_lookup (events : list (string * option float))
    (aggs : list (string * list float)) (n : string) :
  GwTools.aggValues
    (fold_left (λ a e, GwTools.accumulate e.1 e.2 a) events aggs) n
  = if bool_decide (n ∈ events.*1)
    then Some (default [] (GwTools.aggValues aggs n) ++ GwTools.valuesIn events n)
    else GwTools.aggValues aggs n.
Proof.
  revert aggs. induction events as [|[k v] events IH]; intros aggs; [done|].
  cbn [fold_left fst snd]. rewrite IH, accumulate_lookup, fmap_cons. cbn [fst].
  unfold GwTools.valuesIn at 2. cbn [flat_map fst snd].
  fold (GwTools.valuesIn events n).
  destruct (String.eqb_spec k n) as [-> | E].
  - rewrite (bool_decide_eq_true_2 (n ∈ n :: events.*1)) by (by left).
    cbn [default]. unfold id. case_bool_decide as Hin.
    + by rewrite <- app_assoc.
    + by rewrite (valuesIn_absent events n Hin), app_nil_r.
  - cbn [app]. case_bool_decide as Hin.
    + rewrite bool_decide_eq_true_2; [done | by right].
    + rewrite bool_decide_eq_false_2; [done|].
      intros [? | ?]%elem_of_cons; congruence.
Qed.

Lemma fold_accumulate_NoDup (events : list (string * option float))
    (aggs : list (string * list float)) :
  NoDup aggs.*1 →
  NoDup (fold_left (λ a e, GwTools.accumulate e.1 e.2 a) events aggs).*1.
Proof.
  revert aggs. induction events as [|e events IH]; intros aggs Hnd; [done|].
  cbn [fold_left]. apply IH. by apply accumulate_NoDup.
Qed.

Lemma aggValues_Some (aggs : list (string * list float)) (n : string) (vs : list float) :
  NoDup aggs.*1 →
  (n, vs) ∈ aggs ↔ GwTools.aggValues aggs n = Some vs.
Proof.
  unfold GwTools.aggValues. induction aggs as [|[k ws] aggs IH]; intros Hnd.
  - split; [intros H; inversion H | done].
  - rewrite fmap_cons in Hnd. apply NoDup_cons in Hnd as [Hk Hnd]. cbn [fst] in Hk.
    cbn [List.find fst]. destruct (String.eqb_spec k n) as [-> | Hne].
    + split.
      * intros [[= <-] | Hin]%elem_of_cons; [done|].
        exfalso. apply Hk. apply list_elem_of_fmap. by exists (n, vs).
      * intros [= <-]. by left.
    + rewrite <- (IH Hnd). split.
      * intros [[= ? ?] | Hin]%elem_of_cons; [congruence | done].
      * intros Hin. by right.
Qed.

Lemma contributions_of_entries (metric : string)
    (records : list Aggregation.GroundwaterRecord) :
  (λ e, (GwTools.name e, GwTools.value e))
    <$> imap (GwTools.rankedEntry metric) records
  = GwTools.eventOf metric <$> records.
Proof.
  rewrite fmap_imap. rewrite <- (imap_const (GwTools.eventOf metric)).
  by apply imap_ext.
Qed.

Lemma fold_left_fmap_arg {A B C : Type} (g : C → B → C) (h : A → B)
    (l : list A) (c : C) :
  fold_left (λ a e, g a (h e)) l c = fold_left g (h <$> l) c.
Proof. revert c. induction l as [|x l IH]; intros c; [done | apply IH]. Qed.

Section yearLoop_facts.
Context (metric : string) (type : Schema.LocationType)
  (order : GroundwaterService.Order) (limit : nat) (s : Schema.Store).

Local Abbreviation eventsOf := (GwTools.eventsOf metric type order limit s).

Lemma yearLoop_locationAggregates (years : list string) (st : GwTools.LoopState) :
  GwTools.locationAggregates
    (fold_left (GwTools.yearStep metric type order limit s) years st)
  = fold_left (λ a e, GwTools.accumulate e.1 e.2 a) (eventsOf years)
      (GwTools.locationAggregates st).
Proof.
  revert st. induction years as [|y years IH]; intros st; [done|].
  cbn [fold_left]. rewrite IH. unfold GwTools.eventsOf. cbn [flat_map].
  rewrite fold_left_app. f_equal.
  unfold GwTools.yearStep. cbn [GwTools.locationAggregates].
  rewrite <- contributions_of_entries.
  by rewrite <- (fold_left_fmap_arg (λ a e, GwTools.accumulate e.1 e.2 a)
                   (λ e, (GwTools.name e, GwTools.value e))).
Qed.

Lemma yearLoop_yearlyRankings (years : list string) (st : GwTools.LoopState)
    (y : string) :
  GwTools.yearlyRankings
    (fold_left (GwTools.yearStep metric type order limit s) years st) !! y
  = if bool_decide (y ∈ years)
    then Some (imap (GwTools.rankedEntry metric)
                 (GwTools.fetched metric type order limit s y))
    else GwTools.yearlyRankings st !! y.
Proof.
  revert st. induction years as [|y' years IH]; intros st; [done|].
  cbn [fold_left]. rewrite IH. case_bool_decide as Hin.
  - rewrite bool_decide_eq_true_2; [done | by right].
  - unfold GwTools.yearStep at 1. cbn [GwTools.yearlyRankings].
    destruct (decide (y' = y)) as [-> | Hne].
    + rewrite lookup_insert_eq. rewrite bool_decide_eq_true_2; [done | by left].
    + rewrite lookup_insert_ne by done. rewrite bool_decide_eq_false_2; [done|].
      intros [? | ?]%elem_of_cons; congruence.
Qed.

Lemma valuesIn_eventsOf (years : list string) (n : string) :
  GwTools.valuesIn (eventsOf years) n
  = GwTools.valuesOf metric type order limit s years n.
Proof.
  unfold GwTools.valuesIn, GwTools.valuesOf, GwTools.eventsOf.
  induction years as [|y years IH]; [done|].
  cbn [flat_map]. rewrite flat_map_app, IH. f_equal.
  induction (GwTools.fetched metric type order limit s y) as [|r l IHl]; [done|].
  rewrite fmap_cons. cbn [flat_map]. by rewrite IHl.
Qed.

Lemma elem_of_eventsOf (years : list string) (n : string) :
  n ∈ (eventsOf years).*1 ↔ GwTools.appears metric type order limit s years n.
Proof.
  unfold GwTools.appears, GwTools.eventsOf. split.
  - intros (e & -> & He)%list_elem_of_fmap.
    apply list_elem_of_In, in_flat_map in He as (y & Hy & He).
    apply list_elem_of_In, list_elem_of_fmap in He as (r & -> & Hr).
    exists y, r. split; [by apply list_elem_of_In|]. done.
  - intros (y & r & Hy & Hr & <-).
    apply list_elem_of_fmap. exists (GwTools.eventOf metric r). split; [done|].
    apply list_elem_of_In, in_flat_map. exists y.
    split; [by apply list_elem_of_In|].
    apply list_elem_of_In, list_elem_of_fmap. by exists r.
Qed.

(** What the loop leaves in [locationAggregates]: one entry per location
    that appears, holding its values over the years. *)
Lemma yearLoop_entries (years : list string) :
  let aggs := GwTools.locationAggregates
                (GwTools.yearLoop metric type order limit s years) in
  NoDup aggs.*1
  ∧ (∀ n, n ∈ aggs.*1 ↔ GwTools.appears metric type order limit s years n)
  ∧ ∀ n vs, (n, vs) ∈ aggs →
            vs = GwTools.valuesOf metric type order limit s years n.
Proof.
  intros aggs.
  assert (Haggs : aggs = fold_left (λ a e, GwTools.accumulate e.1 e.2 a)
                           (eventsOf years) []).
  { subst aggs. unfold GwTools.yearLoop. by rewrite yearLoop_locationAggregates. }
  assert (Hnd : NoDup aggs.*1).
  { rewrite Haggs. apply fold_accumulate_NoDup. constructor. }
  assert (Hlook : ∀ n, GwTools.aggValues aggs n
            = if bool_decide (n ∈ (eventsOf years).*1)
              then Some (GwTools.valuesOf metric type order limit s years n)
              else None).
  { intros n. rewrite Haggs, fold_accumulate_lookup. case_bool_decide; [|done].
    by rewrite valuesIn_eventsOf. }
  split; [done|]. split.
  - intros n. rewrite <- elem_of_eventsOf. split.
    + intros ([n' vs] & -> & Hin)%list_elem_of_fmap. cbn [fst].
      apply (aggValues_Some _ _ _ Hnd) in Hin. rewrite Hlook in Hin.
      by case_bool_decide.
    + intros Hin. specialize (Hlook n). rewrite bool_decide_eq_true_2 in Hlook by done.
      apply (aggValues_Some _ _ _ Hnd) in Hlook.
      apply list_elem_of_fmap. by eexists (n, _).
  - intros n vs Hin. apply (aggValues_Some _ _ _ Hnd) in Hin.
    rewrite Hlook in Hin. case_bool_decide; congruence.
Qed.

End yearLoop_facts.

(** The row computed for a location with at least one value holds the
    average, the minimum and the maximum of its values. *)
Lemma summarize_spec (n : string) (values : list float) :
  values ≠ [] → GwTools.summarizes (GwTools.summarize (n, values)) values.
Proof.
  intros Hne. destruct values as [|v values]; [done|].
  unfold GwTools.summarizes, GwTools.summarize.
  cbn [snd fst GwTools.avgValue GwTools.minValue GwTools.maxValue].
  replace (0 <? length (v :: values))%nat with true by done.
  split; [done|]. split; [done|]. split; [done|]. intros Hnum.
  destruct (minOf_spec (v :: values) Hne Hnum) as [Hmin1 Hmin2].
  destruct (maxOf_spec (v :: values) Hne Hnum) as [Hmax1 Hmax2].
  done.
Qed.

(** The comparator of the final sort is positive exactly when the second
    average should come first. *)
Lemma byAverage_ltb (order : GroundwaterService.Order) (a b : GwTools.AggregateRow) :
  GwTools.byAverage order a b
  = negb match order with
         | GroundwaterService.desc =>
             PrimFloat.ltb (GwTools.avgValue a) (GwTools.avgValue b)
         | GroundwaterService.asc =>
             PrimFloat.ltb (GwTools.avgValue b) (GwTools.avgValue a)
         end.
Proof.
  unfold GwTools.byAverage, GwTools.compareAverage.
  destruct order; by rewrite sub_sign.
Qed.

Lemma byAverage_spec (order : GroundwaterService.Order) (a b : GwTools.AggregateRow) :
  Js.isNaN (GwTools.avgValue a) = false → Js.isNaN (GwTools.avgValue b) = false →
  GwTools.byAverage order a b = true ↔ GwTools.averageBefore order a b.
Proof.
  intros Ha Hb. rewrite byAverage_ltb. unfold GwTools.averageBefore.
  destruct order.
  - by rewrite (leb_dual _ _ Ha Hb).
  - by rewrite (leb_dual _ _ Hb Ha).
Qed.

Lemma byAverage_total (order : GroundwaterService.Order) (a b : GwTools.AggregateRow) :
  Js.isNaN (GwTools.avgValue a) = false → Js.isNaN (GwTools.avgValue b) = false →
  GwTools.byAverage order a b = true ∨ GwTools.byAverage order b a = true.
Proof.
  intros Ha Hb. rewrite !byAverage_spec by done. destruct order; simpl.
  - destruct (leb_total _ _ Ha Hb); auto.
  - destruct (leb_total _ _ Ha Hb); auto.
Qed.

Lemma byAverage_trans (order : GroundwaterService.Order)
    (a b c : GwTools.AggregateRow) :
  Js.isNaN (GwTools.avgValue a) = false → Js.isNaN (GwTools.avgValue b) = false →
  Js.isNaN (GwTools.avgValue c) = false →
  GwTools.byAverage order a b = true → GwTools.byAverage order b c = true →
  GwTools.byAverage order a c = true.
Proof.
  intros Ha Hb Hc. rewrite !byAverage_spec by done.
  destruct order; simpl; intros H1 H2.
  - by apply leb_trans with (GwTools.avgValue b).
  - by apply leb_trans with (GwTools.avgValue b).
Qed.

(** Looking a name up among the ranked entries of a year finds the value of
    the first fetched record of that name. *)
Lemma find_ranked_entry (metric : string) (n : string)
    (records : list Aggregation.GroundwaterRecord) :
  match List.find (λ e, String.eqb (GwTools.name e) n)
          (imap (GwTools.rankedEntry metric) records) with
  | Some e => GwTools.value e
  | None => None
  end
  = match List.find (λ r, String.eqb (Aggregation.name (Aggregation.location r)) n)
            records with
    | Some r => GwTools.metricValue metric r
    | None => None
    end.
Proof.
  assert (H : ∀ f : nat → Aggregation.GroundwaterRecord → GwTools.RankedEntry,
    (∀ i r, GwTools.name (f i r) = Aggregation.name (Aggregation.location r)
            ∧ GwTools.value (f i r) = GwTools.metricValue metric r) →
    match List.find (λ e, String.eqb (GwTools.name e) n) (imap f records) with
    | Some e => GwTools.value e
    | None => None
    end
    = match List.find (λ r, String.eqb (Aggregation.name (Aggregation.location r)) n)
              records with
      | Some r => GwTools.metricValue metric r
      | None => None
      end).
  { induction records as [|r records IH]; intros f Hf; [done|].
    rewrite imap_cons. cbn [List.find]. destruct (Hf 0%nat r) as [-> Hv].
    destruct (String.eqb _ n); [done|].
    apply IH. intros i r'. apply Hf. }
  apply H. done.
Qed.

Lemma trendValue_yearLoop (metric : string) (type : Schema.LocationType)
    (order : GroundwaterService.Order) (limit : nat) (s : Schema.Store)
    (years : list string) (y n : string) :
  y ∈ years →
  GwTools.trendValue (GwTools.yearLoop metric type order limit s years) y n
  = GwTools.yearValue metric type order limit s y n.
Proof.
  intros Hy. unfold GwTools.trendValue, GwTools.yearLoop, GwTools.yearValue.
  rewrite yearLoop_yearlyRankings, bool_decide_eq_true_2 by done.
  apply find_ranked_entry.
Qed.

(** What the ranking of one year holds, for a metric whose column is the
    property the tool reads: joined rows of the type and year that hold a
    number in the column, each with that number as its value. *)
Lemma fetched_rows (metric columnName property : string)
    (type : Schema.LocationType) (order : GroundwaterService.Order) (limit : nat)
    (s : Schema.Store) (y : string) (rec : Aggregation.GroundwaterRecord) :
  GroundwaterService.fieldToColumn metric = Some columnName →
  GroundwaterService.assoc columnName GroundwaterService.columnProperties
  = Some property →
  MetricHelpers.metricToField metric = property →
  rec ∈ GwTools.fetched metric type order limit s y →
  ∃ row v, row ∈ GroundwaterService.rankable property type y s
           ∧ rec = GroundwaterService.toRecord row
           ∧ Schema.nums row.1 !! property = Some v
           ∧ GwTools.metricValue metric rec = Some v.
Proof.
  intros Hcol Hprop Hfield Hrec. unfold GwTools.fetched in Hrec.
  destruct (getTopLocationsByField_rows s metric type order (limit * 2) y)
    as [_ Hknown].
  destruct (Hknown columnName Hcol) as (property' & Hprop' & _ & _ & _ & _ & rest & Hperm & _).
  assert (property' = property) as -> by congruence.
  assert (Hin : rec ∈ GroundwaterService.toRecord
                        <$> GroundwaterService.rankable property type y s).
  { rewrite <- Hperm. apply elem_of_app. by left. }
  apply list_elem_of_fmap in Hin as (row & -> & Hrow).
  pose proof Hrow as Hq. unfold GroundwaterService.rankable in Hq.
  apply list_elem_of_filter in Hq as [(_ & _ & [v Hv]) _].
  exists row, v. split; [done|]. split; [done|]. split; [done|].
  unfold GwTools.metricValue. by rewrite Hfield, numberAt_toRecord.
Qed.

(** In a store with one row for a location and a year, the joined rows of a
    location and a year are that row alone. *)
Lemma filter_key_unique {A : Type} (f : A → string) (xs : list A) (x : A) :
  NoDup (f <$> xs) → x ∈ xs →
  List.filter (λ x', String.eqb (f x) (f x')) xs = [x].
Proof.
  induction xs as [|x0 xs IH]; intros Hnd Hx; [by inversion Hx|].
  rewrite fmap_cons in Hnd. apply NoDup_cons in Hnd as [Hx0 Hnd].
  cbn [List.filter]. apply elem_of_cons in Hx as [-> | Hx].
  - rewrite String.eqb_refl. f_equal.
    clear IH. induction xs as [|x1 xs IH]; [done|].
    rewrite fmap_cons in Hx0, Hnd. apply not_elem_of_cons in Hx0 as [Hne Hx0].
    apply NoDup_cons in Hnd as [_ Hnd]. cbn [List.filter].
    destruct (String.eqb_spec (f x0) (f x1)) as [E|_]; [congruence | by apply IH].
  - destruct (String.eqb_spec (f x) (f x0)) as [E|_]; [|by apply IH].
    exfalso. apply Hx0. rewrite <- E. by apply list_elem_of_fmap_2.
Qed.

Lemma selectByLocationAndYear_unique (s : Schema.Store)
    (row : Schema.GwRow * Schema.LocationRecord) :
  GwTools.oneRowPerLocationYear s → row ∈ Schema.innerJoin s →
  GroundwaterService.selectByLocationAndYear (Schema.id row.2) (Schema.year row.1) s
  = [row].
Proof.
  intros [Hrows Hids] Hrow. destruct row as [g l]. cbn [fst snd].
  unfold GroundwaterService.selectByLocationAndYear, Schema.innerJoin in *.
  apply list_elem_of_In, in_flat_map in Hrow as (g' & Hg & Hl).
  apply list_elem_of_In, list_elem_of_fmap in Hl as (l' & [= <- <-] & Hl).
  apply list_elem_of_In in Hg.
  apply elem_of_List_filter in Hl as [Hl Hjoin]. apply String.eqb_eq in Hjoin.
  set (key := λ g : Schema.GwRow, (Schema.locationId g, Schema.year g)) in *.
  set (P := λ row : Schema.GwRow * Schema.LocationRecord,
              String.eqb (Schema.id row.2) (Schema.id l)
              && String.eqb (Schema.year row.1) (Schema.year g)).
  assert (Hany : ∀ (ls : list Schema.LocationRecord) g0, key g0 ≠ key g →
            List.filter P
              ((λ l0, (g0, l0))
                 <$> List.filter
                       (λ l0, String.eqb (Schema.locationId g0) (Schema.id l0)) ls)
            = []).
  { intros ls g0 Hne. induction ls as [|l0 ls IH]; [done|].
    cbn [List.filter].
    destruct (String.eqb_spec (Schema.locationId g0) (Schema.id l0)) as [E|_];
      [|exact IH].
    rewrite fmap_cons. cbn [List.filter]. unfold P at 1. cbn [fst snd].
    destruct (String.eqb_spec (Schema.id l0) (Schema.id l)) as [E1|_]; [|exact IH].
    destruct (String.eqb_spec (Schema.year g0) (Schema.year g)) as [E2|_]; [|exact IH].
    exfalso. apply Hne. unfold key. congruence. }
  set (F := λ g0 : Schema.GwRow,
              (λ l0, (g0, l0))
                <$> List.filter (λ l0, String.eqb (Schema.locationId g0) (Schema.id l0))
                      (Schema.locations s)).
  assert (Hother : ∀ g0, key g0 ≠ key g → List.filter P (F g0) = []).
  { intros g0 Hne. apply Hany, Hne. }
  assert (Hown : List.filter P (F g) = [(g, l)]).
  { unfold F. rewrite Hjoin.
    rewrite (filter_key_unique Schema.id (Schema.locations s) l Hids Hl).
    cbn. unfold P. cbn [fst snd]. by rewrite !String.eqb_refl. }
  clear Hl Hjoin.
  induction (Schema.groundwaterData s) as [|g0 gs IH]; [by inversion Hg|].
  rewrite fmap_cons in Hrows. apply NoDup_cons in Hrows as [Hg0 Hrows].
  cbn [flat_map]. fold (F g0). rewrite List.filter_app.
  apply elem_of_cons in Hg as [<- | Hg].
  - rewrite Hown.
    assert (Hrest : List.filter P (flat_map F gs) = []).
    { clear IH Hrows. induction gs as [|g1 gs IH]; [done|].
      rewrite fmap_cons in Hg0. apply not_elem_of_cons in Hg0 as [Hne Hg0].
      cbn [flat_map]. rewrite List.filter_app, (Hother g1) by done. by apply IH. }
    by rewrite Hrest.
  - rewrite (Hother g0), (IH Hrows Hg); [done|].
    intros E. apply Hg0. rewrite E. by apply (list_elem_of_fmap_2 key).
Qed.



(** ** The worked examples of the specification *)

Example resolve_single_year :
  YearFiltering.getFilteredYears
    {| YearFiltering.year := Some "2022-2023"; YearFiltering.fromYear := None;
       YearFiltering.toYear := None; YearFiltering.specificYears := None |}
    YearFiltering.exampleYears
  = {| YearFiltering.isHistorical := false;
       YearFiltering.yearsToQuery := ["2022-2023"];
       YearFiltering.targetYear := "2022-2023" |}.
Proof. reflexivity. Qed.

Example resolve_range :
  YearFiltering.getFilteredYears YearFiltering.rangeSpec YearFiltering.exampleYears
  = {| YearFiltering.isHistorical := true;
       YearFiltering.yearsToQuery := ["2016-2017"; "2018-2019"];
       YearFiltering.targetYear := "2024-2025" |}.
Proof. reflexivity. Qed.

Example aggregate_two_rows :
  Aggregation.numericField "draftTotalTotal"
    <$> Aggregation.aggregateGroundwaterRecords Aggregation.exampleRows
  = Some (Some 25%float)
  ∧ (Aggregation.data <$> Aggregation.aggregateGroundwaterRecords Aggregation.exampleRows)
      ≫= (.!! "categoryTotal")
    = Some (Js.Str "Semi-Critical")
  ∧ Aggregation.aggregateGroundwaterRecords [Aggregation.exampleRow1]
    = Some Aggregation.exampleRow1.
Proof. split; [|split]; by vm_compute. Qed.

(** Sums are sums of doubles: 84.99, 3.99 and 1.02 add up to
    89.99999999999999, and 60.3 and 9.7 to 70. *)
Example aggregate_rounds :
  Aggregation.sum [84.99; 3.99; 1.02]%float = 89.99999999999999%float
  ∧ Aggregation.determineCategoryFromStage
      (Some (Aggregation.sum [84.99; 3.99; 1.02]%float)) = "Semi-Critical"
  ∧ Aggregation.sum [60.3; 9.7]%float = 70%float
  ∧ Aggregation.determineCategoryFromStage
      (Some (Aggregation.sum [60.3; 9.7]%float)) = "Semi-Critical".
Proof. repeat split; by vm_compute. Qed.

(** The average of a row is a double as well: three times 12.3 average to
    12.300000000000002, which is above the maximum. *)
Example average_rounds :
  GwTools.summarize ("a", [12.3; 12.3; 12.3]%float)
  = {| GwTools.aname := "a"; GwTools.avgValue := 12.300000000000002;
       GwTools.minValue := 12.3; GwTools.maxValue := 12.3 |}.
Proof. by vm_compute. Qed.

(** * Further properties of the code *)

(** ** Order of strings *)

Lemma String_compare_refl (s : string) : String.compare s s = Eq.
Proof.
  induction s as [|c s IH]; [done|]. simpl.
  unfold Ascii.compare. by rewrite N.compare_refl.
Qed.

Lemma String_leb_trans (a b c : string) :
  String.leb a b = true → String.leb b c = true → String.leb a c = true.
Proof.
  unfold String.leb. revert b c.
  induction a as [|x a IH]; intros [|y b] [|z c]; simpl; try done.
  unfold Ascii.compare.
  destruct (N.compare_spec (N_of_ascii x) (N_of_ascii y)) as [Hxy | Hxy | Hxy];
    [| |done];
    destruct (N.compare_spec (N_of_ascii y) (N_of_ascii z)) as [Hyz | Hyz | Hyz];
    try done.
  - rewrite Hxy, Hyz, N.compare_refl. apply IH.
  - rewrite Hxy. by destruct (N.compare_spec (N_of_ascii y) (N_of_ascii z));
      try lia.
  - rewrite <- Hyz. by destruct (N.compare_spec (N_of_ascii x) (N_of_ascii y));
      try lia.
  - intros _ _.
    by destruct (N.compare_spec (N_of_ascii x) (N_of_ascii z)); try lia.
Qed.

(** ** Grouping *)

Section grouping.
Context {T : Type}.

Lemma groupOf_elem_of (grouped : list (string * list T)) (key : string)
    (xs : list T) :
  NoDup grouped.*1 →
  (key, xs) ∈ grouped ↔ HistoricalAggregation.groupOf grouped key = Some xs.
Proof.
  unfold HistoricalAggregation.groupOf.
  induction grouped as [|[k ws] grouped IH]; intros Hnd.
  - split; [intros H; inversion H | done].
  - rewrite fmap_cons in Hnd. apply NoDup_cons in Hnd as [Hk Hnd]. cbn [fst] in Hk.
    cbn [List.find fst]. destruct (String.eqb_spec k key) as [-> | Hne].
    + split.
      * intros [[= <-] | Hin]%elem_of_cons; [done|].
        exfalso. apply Hk. apply list_elem_of_fmap. by exists (key, xs).
      * intros [= <-]. by left.
    + rewrite <- (IH Hnd). split.
      * intros [[= ? ?] | Hin]%elem_of_cons; [congruence | done].
      * intros Hin. by right.
Qed.

Lemma mapPush_lookup (key : string) (record : T)
    (grouped : list (string * list T)) (n : string) :
  HistoricalAggregation.groupOf (HistoricalAggregation.mapPush key record grouped) n
  = if String.eqb key n
    then Some (default [] (HistoricalAggregation.groupOf grouped n) ++ [record])
    else HistoricalAggregation.groupOf grouped n.
Proof.
  unfold HistoricalAggregation.groupOf.
  induction grouped as [|[k vs] grouped IH]; simpl.
  - by destruct (String.eqb key n).
  - destruct (String.eqb_spec k key) as [-> | Hk]; simpl.
    + by destruct (String.eqb key n).
    + destruct (String.eqb_spec k n) as [-> | Hn]; simpl.
      * destruct (String.eqb_spec key n) as [-> | _]; done.
      * exact IH.
Qed.

Lemma mapPush_keys (key : string) (record : T) (grouped : list (string * list T)) :
  (HistoricalAggregation.mapPush key record grouped).*1
  = if bool_decide (key ∈ grouped.*1) then grouped.*1 else grouped.*1 ++ [key].
Proof.
  induction grouped as [|[k vs] grouped IH]; [done|].
  cbn [HistoricalAggregation.mapPush]. rewrite !fmap_cons. cbn [fst].
  destruct (String.eqb_spec k key) as [-> | Hk].
  - rewrite fmap_cons. cbn [fst]. rewrite bool_decide_eq_true_2; [done | by left].
  - rewrite fmap_cons, IH. cbn [fst]. case_bool_decide as Hin.
    + rewrite bool_decide_eq_true_2; [done | by right].
    + rewrite bool_decide_eq_false_2; [done|].
      intros [? | ?]%elem_of_cons; congruence.
Qed.

Lemma mapPush_concat (key : string) (record : T) (grouped : list (string * list T)) :
  concat (HistoricalAggregation.mapPush key record grouped).*2
  ≡ₚ record :: concat grouped.*2.
Proof.
  induction grouped as [|[k vs] grouped IH]; [done|].
  cbn [HistoricalAggregation.mapPush]. destruct (String.eqb k key).
  - rewrite !fmap_cons. cbn [snd concat]. rewrite <- app_assoc. cbn [app].
    by rewrite <- Permutation_middle.
  - rewrite !fmap_cons. cbn [snd concat]. rewrite IH.
    by rewrite <- Permutation_middle.
Qed.

Context (keyOf : T → string).

Lemma groupBy_fold_facts (records : list T) (grouped : list (string * list T)) :
  let result :=
    fold_left (λ g r, HistoricalAggregation.mapPush (keyOf r) r g) records grouped in
  (NoDup grouped.*1 → NoDup result.*1)
  ∧ (∀ n, HistoricalAggregation.groupOf result n
          = if bool_decide (n ∈ keyOf <$> records)
            then Some (default [] (HistoricalAggregation.groupOf grouped n)
                       ++ List.filter (λ r, String.eqb (keyOf r) n) records)
            else HistoricalAggregation.groupOf grouped n)
  ∧ concat result.*2 ≡ₚ concat grouped.*2 ++ records.
Proof.
  revert grouped. induction records as [|r records IH]; intros grouped result.
  - subst result. simpl. split; [done|]. split; [done|]. by rewrite app_nil_r.
  - subst result. cbn [fold_left].
    destruct (IH (HistoricalAggregation.mapPush (keyOf r) r grouped))
      as (Hnd & Hlook & Hperm).
    split; [|split].
    + intros Hg. apply Hnd. rewrite mapPush_keys. case_bool_decide; [done|].
      apply NoDup_app. split; [done|]. split; [|apply NoDup_singleton].
      intros x Hx ->%list_elem_of_singleton. done.
    + intros n. rewrite Hlook, mapPush_lookup, fmap_cons. cbn [List.filter].
      destruct (String.eqb_spec (keyOf r) n) as [E | E].
      * rewrite (bool_decide_eq_true_2 (n ∈ keyOf r :: _)) by (rewrite E; by left).
        cbn [default]. unfold id. case_bool_decide as Hin.
        -- by rewrite <- app_assoc.
        -- do 2 f_equal.
           assert (Hnil : List.filter (λ r0, String.eqb (keyOf r0) n) records = []).
           { clear -Hin. induction records as [|x l IHl]; [done|].
             rewrite fmap_cons, not_elem_of_cons in Hin. destruct Hin as [Hx Hl].
             simpl. destruct (String.eqb_spec (keyOf x) n); [congruence|].
             by apply IHl. }
           by rewrite Hnil.
      * case_bool_decide as Hin.
        -- rewrite bool_decide_eq_true_2; [done | by right].
        -- rewrite bool_decide_eq_false_2; [done|].
           intros [? | ?]%elem_of_cons; congruence.
    + rewrite Hperm, mapPush_concat. by rewrite <- Permutation_middle.
Qed.

End grouping.

Lemma groupBy_spec {T : Type} (keyOf : T → string) (records : list T) :
  let grouped := HistoricalAggregation.groupBy keyOf records in
  NoDup grouped.*1
  ∧ (∀ key xs, (key, xs) ∈ grouped
               ↔ xs ≠ [] ∧ xs = List.filter (λ r, String.eqb (keyOf r) key) records)
  ∧ concat grouped.*2 ≡ₚ records.
Proof.
  intros grouped.
  destruct (groupBy_fold_facts keyOf records []) as (Hnd & Hlook & Hperm).
  fold (HistoricalAggregation.groupBy keyOf records) in Hnd, Hlook, Hperm.
  fold grouped in Hnd, Hlook, Hperm.
  specialize (Hnd (NoDup_nil_2 (A:=string))).
  split; [done|]. split; [|done].
  intros key xs. rewrite (groupOf_elem_of _ _ _ Hnd), Hlook. cbn [default].
  case_bool_decide as Hin.
  - apply list_elem_of_fmap in Hin as (r & -> & Hr).
    assert (Hne : List.filter (λ r0, String.eqb (keyOf r0) (keyOf r)) records ≠ []).
    { intros Hnil. assert (Hm : r ∈ List.filter (λ r0, String.eqb (keyOf r0) (keyOf r))
                                     records).
      { apply elem_of_List_filter. split; [done | apply String.eqb_refl]. }
      rewrite Hnil in Hm. inversion Hm. }
    split.
    + intros [= <-]. done.
    + intros [_ ->]. done.
  - split; [done|]. intros [Hne ->]. exfalso. apply Hne.
    clear -Hin. induction records as [|x l IHl]; [done|].
    rewrite fmap_cons, not_elem_of_cons in Hin. destruct Hin as [Hx Hl].
    simpl. destruct (String.eqb_spec (keyOf x) key); [congruence|]. by apply IHl.
Qed.

(** X1: grouping by year and grouping by name put every record in exactly
    one group: the keys are distinct, the group of a key is never empty and
    holds the records of that key in their original order, and the groups
    together hold the records that came in.  The name key is the location
    name in lower case, trimmed. *)
Theorem groupRecords_partition {T : Type} (yearOf locationNameOf : T → string)
    (records : list T) :
  let byYear := HistoricalAggregation.groupRecordsByYear yearOf records in
  let byName := HistoricalAggregation.groupRecordsByName locationNameOf records in
  (NoDup byYear.*1
   ∧ (∀ year xs, (year, xs) ∈ byYear
                 ↔ xs ≠ []
                   ∧ xs = List.filter (λ r, String.eqb (yearOf r) year) records)
   ∧ concat byYear.*2 ≡ₚ records)
  ∧ (NoDup byName.*1
     ∧ (∀ key xs, (key, xs) ∈ byName
                  ↔ xs ≠ []
                    ∧ xs = List.filter
                             (λ r, String.eqb
                                     (Js.trim (Js.toLowerCase (locationNameOf r))) key)
                             records)
     ∧ concat byName.*2 ≡ₚ records).
Proof.
  intros byYear byName. split.
  - apply (groupBy_spec yearOf records).
  - apply (groupBy_spec (λ r, Js.trim (Js.toLowerCase (locationNameOf r))) records).
Qed.

(** ** Aggregation per year *)

Lemma historical_addRecord_lookup (aggregated : gmap string float)
    (record : HistoricalAggregation.HistoricalRecord) (key : string) :
  fold_left Aggregation.addEntry
    (map_to_list (HistoricalAggregation.data record)) aggregated !! key
  = match HistoricalAggregation.numericField key record with
    | Some v => Some (PrimFloat.add (Aggregation.orZero (aggregated !! key)) v)
    | None => aggregated !! key
    end.
Proof.
  unfold HistoricalAggregation.numericField.
  destruct (fold_addEntry_lookup (map_to_list (HistoricalAggregation.data record))
              aggregated key) as [Hnum Hnone].
  { apply NoDup_fst_map_to_list. }
  destruct (HistoricalAggregation.data record !! key) as [x|] eqn:E.
  - destruct x as [| | |v|];
      try (apply Hnone; intros v Hv; apply elem_of_map_to_list in Hv; congruence).
    destruct (Js.isNaN v) eqn:Ev.
    + apply Hnone. intros v' Hv'. apply elem_of_map_to_list in Hv'. congruence.
    + apply Hnum; [by apply elem_of_map_to_list | done].
  - apply Hnone. intros v Hv. apply elem_of_map_to_list in Hv. congruence.
Qed.

(** The accumulator of a year, key by key: the left-to-right sum of the
    numbers the records hold under the key, absent when none holds one. *)
Lemma sumData_lookup (key : string)
    (records : list HistoricalAggregation.HistoricalRecord) :
  HistoricalAggregation.sumData records !! key
  = HistoricalAggregation.summedField key records.
Proof.
  assert (Hfold : ∀ aggregated,
    fold_left (λ agg record,
                 fold_left Aggregation.addEntry
                   (map_to_list (HistoricalAggregation.data record)) agg)
      records aggregated !! key
    = Aggregation.sumFrom (aggregated !! key)
        (HistoricalAggregation.numericField key <$> records)).
  { induction records as [|r records IH]; intros aggregated; [done|].
    cbn [fold_left]. rewrite IH, historical_addRecord_lookup.
    unfold Aggregation.sumFrom. rewrite fmap_cons. cbn [fold_left].
    by destruct (HistoricalAggregation.numericField key r). }
  unfold HistoricalAggregation.sumData, HistoricalAggregation.summedField,
    HistoricalAggregation.fieldValues, Aggregation.sum.
  by rewrite Hfold, lookup_empty, sumFrom_omap.
Qed.

Lemma omap_nil_iff {A B : Type} (f : A → option B) (l : list A) :
  omap f l = [] ↔ ∀ x, x ∈ l → f x = None.
Proof.
  induction l as [|x l IH].
  - split; [intros _ y Hy; inversion Hy | done].
  - cbn [omap list_omap]. destruct (f x) eqn:E.
    + split; [done|]. intros H. specialize (H x ltac:(left)). congruence.
    + rewrite IH. split.
      * intros H y [-> | Hy]%elem_of_cons; auto.
      * intros H y Hy. apply H. by right.
Qed.

(** A summed field, read off: the sum of the numbers held, which some
    record holds, or nothing where no record holds a number. *)
Lemma historical_summedField_cases (key : string)
    (records : list HistoricalAggregation.HistoricalRecord) :
  match HistoricalAggregation.summedField key records with
  | Some v =>
      v = Aggregation.sum (HistoricalAggregation.fieldValues key records)
      ∧ ∃ r, r ∈ records ∧ is_Some (HistoricalAggregation.numericField key r)
  | None => ∀ r, r ∈ records → HistoricalAggregation.numericField key r = None
  end.
Proof.
  unfold HistoricalAggregation.summedField, HistoricalAggregation.fieldValues.
  destruct (omap (HistoricalAggregation.numericField key) records) as [|v vs] eqn:E.
  - by apply omap_nil_iff.
  - split; [done|].
    assert (Hv : v ∈ omap (HistoricalAggregation.numericField key) records)
      by (rewrite E; by left).
    apply list_elem_of_omap in Hv as (r & Hr & Hf). exists r. split; [done|].
    by rewrite Hf.
Qed.

(** The record pushed for a year: its numeric fields are the sums over the
    year's records, everything else but the recomputed category is gone. *)
Lemma aggregateYear_fields (year : string)
    (first : HistoricalAggregation.HistoricalRecord)
    (records : list HistoricalAggregation.HistoricalRecord) :
  let out := HistoricalAggregation.aggregateYear year first records in
  HistoricalAggregation.data out !! "categoryTotal"
  = Some (Js.Str (Aggregation.determineCategoryFromStage
                    (HistoricalAggregation.summedField "stageOfExtractionTotal"
                       records)))
  ∧ (∀ key, key ≠ "categoryTotal" →
       HistoricalAggregation.data out !! key
       = Js.Num <$> HistoricalAggregation.summedField key records).
Proof.
  intros out. subst out. unfold HistoricalAggregation.aggregateYear.
  cbn [HistoricalAggregation.data]. split.
  - by rewrite lookup_insert_eq, sumData_lookup.
  - intros key Hkey. rewrite lookup_insert_ne by done.
    by rewrite lookup_fmap, sumData_lookup.
Qed.

Lemma aggregatedRecords_omap
    (groups : list (string * list HistoricalAggregation.HistoricalRecord))
    (acc : list HistoricalAggregation.HistoricalRecord) :
  fold_left (λ acc entry,
               match entry.2 with
               | [] => acc
               | first :: _ =>
                   acc ++ [HistoricalAggregation.aggregateYear entry.1 first entry.2]
               end) groups acc
  = acc ++ omap (λ entry, match entry.2 with
                          | [] => None
                          | first :: _ =>
                              Some (HistoricalAggregation.aggregateYear entry.1 first
                                      entry.2)
                          end) groups.
Proof.
  revert acc. induction groups as [|[y xs] groups IH]; intros acc.
  - by rewrite app_nil_r.
  - cbn [fold_left omap list_omap fst snd]. rewrite IH.
    destruct xs as [|first xs]; [done|]. by rewrite <- app_assoc.
Qed.

(** The records of the per-year aggregate, before any property of the
    collation is used: one per year that occurs, each the aggregate of the
    records of its year. *)
Lemma aggregateHistoricalRecords_members
    (localeCompare : string → string → comparison)
    (records : list HistoricalAggregation.HistoricalRecord) :
  let out :=
    HistoricalAggregation.aggregateHistoricalRecords localeCompare
      (HistoricalAggregation.groupRecordsByYear HistoricalAggregation.year records) in
  NoDup (HistoricalAggregation.year <$> out)
  ∧ (∀ y, y ∈ HistoricalAggregation.year <$> out
          ↔ ∃ r, r ∈ records ∧ HistoricalAggregation.year r = y)
  ∧ ∀ o, o ∈ out →
      ∃ first rest,
        List.filter (λ r, String.eqb (HistoricalAggregation.year r)
                            (HistoricalAggregation.year o)) records
        = first :: rest
        ∧ o = HistoricalAggregation.aggregateYear (HistoricalAggregation.year o)
                first (first :: rest).
Proof.
  intros out.
  set (groups := HistoricalAggregation.groupRecordsByYear
                   HistoricalAggregation.year records).
  set (f := λ entry : string * list HistoricalAggregation.HistoricalRecord,
              match entry.2 with
              | [] => None
              | first :: _ =>
                  Some (HistoricalAggregation.aggregateYear entry.1 first entry.2)
              end).
  destruct (groupBy_spec HistoricalAggregation.year records)
    as (Hnd & Hgroups & _).
  fold (HistoricalAggregation.groupRecordsByYear HistoricalAggregation.year records)
    in Hnd, Hgroups.
  fold groups in Hnd, Hgroups.
  assert (Hperm : out ≡ₚ omap f groups).
  { subst out. unfold HistoricalAggregation.aggregateHistoricalRecords.
    fold groups. rewrite sortBy_Permutation. by rewrite aggregatedRecords_omap. }
  assert (Hyears : HistoricalAggregation.year <$> omap f groups = groups.*1).
  { assert (Hne : ∀ y xs, (y, xs) ∈ groups → xs ≠ [])
      by (intros y xs Hin; by apply Hgroups in Hin as [? _]).
    clear -Hne. induction groups as [|[y xs] groups IH]; [done|].
    cbn [omap list_omap]. unfold f at 1. cbn [fst snd].
    destruct xs as [|first xs]; [by destruct (Hne y []); [left|]|].
    rewrite !fmap_cons. cbn [fst HistoricalAggregation.aggregateYear
                               HistoricalAggregation.year].
    f_equal. apply IH. intros y' xs' Hin. apply (Hne y'). by right. }
  split; [|split].
  - by rewrite Hperm, Hyears.
  - intros y. rewrite Hperm, Hyears. split.
    + intros ([y' xs] & -> & Hin)%list_elem_of_fmap. cbn [fst].
      apply Hgroups in Hin as [Hne Hxs].
      destruct xs as [|r xs]; [done|]. exists r.
      assert (Hr : r ∈ List.filter (λ r0, String.eqb (HistoricalAggregation.year r0) y')
                         records) by (rewrite <- Hxs; by left).
      apply elem_of_List_filter in Hr as [Hr He]. by apply String.eqb_eq in He.
    + intros (r & Hr & <-).
      set (xs := List.filter (λ r0, String.eqb (HistoricalAggregation.year r0)
                                      (HistoricalAggregation.year r)) records).
      assert (Hin : (HistoricalAggregation.year r, xs) ∈ groups).
      { apply Hgroups. split; [|done]. intros Hnil.
        assert (Hm : r ∈ xs)
          by (apply elem_of_List_filter; split; [done | apply String.eqb_refl]).
        rewrite Hnil in Hm. inversion Hm. }
      apply list_elem_of_fmap. by eexists (_, _).
  - intros o Ho. rewrite Hperm in Ho.
    apply list_elem_of_omap in Ho as ([y xs] & Hin & Hf).
    unfold f in Hf. cbn [fst snd] in Hf. destruct xs as [|first rest]; [done|].
    injection Hf as <-. cbn [HistoricalAggregation.aggregateYear
                              HistoricalAggregation.year].
    apply Hgroups in Hin as [_ Hxs]. exists first, rest. by rewrite <- Hxs.
Qed.

(** X2: the per-year aggregate of a list of records has one record for each
    year that occurs, in ascending order of the year labels; the record of a
    year takes its location from the first record of that year, holds under
    every other key the sum of the numbers the year's records hold there,
    the doubles being added in the order of the records (and nothing where
    none holds a number), and carries the category
    computed from the summed stage of extraction, also when the year has a
    single record. *)
Theorem aggregateHistoricalRecords_by_year
    (localeCompare : string → string → comparison)
    (records : list HistoricalAggregation.HistoricalRecord) :
  (∀ a b, HistoricalAggregation.localeLe localeCompare a b = true
          ∨ HistoricalAggregation.localeLe localeCompare b a = true) →
  (∀ a b c, HistoricalAggregation.localeLe localeCompare a b = true →
            HistoricalAggregation.localeLe localeCompare b c = true →
            HistoricalAggregation.localeLe localeCompare a c = true) →
  let out :=
    HistoricalAggregation.aggregateHistoricalRecords localeCompare
      (HistoricalAggregation.groupRecordsByYear HistoricalAggregation.year records) in
  StronglySorted
    (λ a b, HistoricalAggregation.localeLe localeCompare
              (HistoricalAggregation.year a) (HistoricalAggregation.year b) = true)
    out
  ∧ NoDup (HistoricalAggregation.year <$> out)
  ∧ (∀ y, y ∈ HistoricalAggregation.year <$> out
          ↔ ∃ r, r ∈ records ∧ HistoricalAggregation.year r = y)
  ∧ ∀ o, o ∈ out →
      let ofYear :=
        List.filter (λ r, String.eqb (HistoricalAggregation.year r)
                            (HistoricalAggregation.year o)) records in
      (∃ first, head ofYear = Some first
                ∧ HistoricalAggregation.locationId o
                  = HistoricalAggregation.locationId first
                ∧ HistoricalAggregation.locationName o
                  = HistoricalAggregation.locationName first)
      ∧ HistoricalAggregation.data o !! "categoryTotal"
        = Some (Js.Str (Aggregation.determineCategoryFromStage
                          (HistoricalAggregation.summedField
                             "stageOfExtractionTotal" ofYear)))
      ∧ ∀ key, key ≠ "categoryTotal" →
          HistoricalAggregation.data o !! key
          = Js.Num <$> HistoricalAggregation.summedField key ofYear
          ∧ match HistoricalAggregation.data o !! key with
            | Some v =>
                v = Js.Num (Aggregation.sum
                              (HistoricalAggregation.fieldValues key ofYear))
                ∧ ∃ r, r ∈ ofYear
                       ∧ is_Some (HistoricalAggregation.numericField key r)
            | None =>
                ∀ r, r ∈ ofYear → HistoricalAggregation.numericField key r = None
            end.
Proof.
  intros Htotal Htrans out.
  destruct (aggregateHistoricalRecords_members localeCompare records)
    as (Hnd & Hyears & Hmem).
  fold out in Hnd, Hyears, Hmem.
  split; [|split; [exact Hnd | split; [exact Hyears|]]].
  - subst out. unfold HistoricalAggregation.aggregateHistoricalRecords.
    apply sortBy_StronglySorted.
    + intros a b. apply Htotal.
    + intros a b c. apply Htrans.
  - intros o Ho ofYear. destruct (Hmem o Ho) as (first & rest & Hfilter & Ho').
    subst ofYear. rewrite Hfilter.
    destruct (aggregateYear_fields (HistoricalAggregation.year o) first
                (first :: rest)) as [Hcat Hnum].
    rewrite <- Ho' in Hcat, Hnum.
    split; [|split; [exact Hcat|]].
    { exists first. split; [done|]. by rewrite Ho'. }
    intros key Hkey. split; [by apply Hnum|]. rewrite (Hnum key Hkey).
    pose proof (historical_summedField_cases key (first :: rest)) as Hc.
    destruct (HistoricalAggregation.summedField key (first :: rest)) as [v|];
      simpl; [|done].
    destruct Hc as [-> Hr]. done.
Qed.

Lemma aggregateHistoricalRecords_by_year_witness :
  HistoricalAggregation.year
    <$> HistoricalAggregation.aggregateHistoricalRecords String.compare
          (HistoricalAggregation.groupRecordsByYear HistoricalAggregation.year
             HistoricalAggregation.exampleHistory)
  = ["2016-2017"; "2018-2019"]
  ∧ (λ o, HistoricalAggregation.data o !! "draftTotalTotal")
      <$> HistoricalAggregation.aggregateHistoricalRecords String.compare
            (HistoricalAggregation.groupRecordsByYear HistoricalAggregation.year
               HistoricalAggregation.exampleHistory)
    = [Some (Js.Num 7); Some (Js.Num 25)]
  ∧ StronglySorted
      (λ a b, HistoricalAggregation.localeLe String.compare
                (HistoricalAggregation.year a) (HistoricalAggregation.year b) = true)
      (HistoricalAggregation.aggregateHistoricalRecords String.compare
         (HistoricalAggregation.groupRecordsByYear HistoricalAggregation.year
            HistoricalAggregation.exampleHistory)).
Proof.
  split; [by vm_compute|]. split; [by vm_compute|].
  apply (aggregateHistoricalRecords_by_year String.compare
           HistoricalAggregation.exampleHistory).
  - intros a b. apply String.leb_total.
  - intros a b c. apply String_leb_trans.
Defined.

(** ** Normalisation of names *)

Lemma list_of_trimStart (s : string) :
  list_ascii_of_string (Js.trimStart s) = Text.trimStartL (list_ascii_of_string s).
Proof.
  induction s as [|c s IH]; [done|]. simpl. by destruct (Js.isWhiteSpace c).
Qed.

Lemma list_of_trim (s : string) :
  list_ascii_of_string (Js.trim s) = Text.trimL (list_ascii_of_string s).
Proof.
  unfold Js.trim, Js.string_rev, Text.trimL.
  by rewrite list_ascii_of_string_of_list_ascii, list_of_trimStart,
    list_ascii_of_string_of_list_ascii, list_of_trimStart.
Qed.

Lemma list_of_mapChars (f : ascii → ascii) (s : string) :
  list_ascii_of_string (Js.mapChars f s) = f <$> list_ascii_of_string s.
Proof. induction s as [|c s IH]; [done|]. simpl. by rewrite IH. Qed.

Lemma string_eq_by_list (s t : string) :
  list_ascii_of_string s = list_ascii_of_string t → s = t.
Proof.
  intros H. rewrite <- (string_of_list_ascii_of_string s),
    <- (string_of_list_ascii_of_string t). by rewrite H.
Qed.

Lemma trimStartL_split (l : list ascii) :
  ∃ p, l = p ++ Text.trimStartL l ∧ Forall (λ c, Js.isWhiteSpace c = true) p.
Proof.
  induction l as [|c l (p & Hl & Hp)]; [by exists []|].
  simpl. destruct (Js.isWhiteSpace c) eqn:E.
  - exists (c :: p). split; [simpl; by rewrite <- Hl | by constructor].
  - by exists [].
Qed.

Lemma trimStartL_fixed (l : list ascii) :
  Text.trimStartL l = l
  ↔ l = [] ∨ ∃ c l', l = c :: l' ∧ Js.isWhiteSpace c = false.
Proof.
  destruct l as [|c l]; [split; auto|]. simpl.
  destruct (Js.isWhiteSpace c) eqn:E; split.
  - intros H. destruct (trimStartL_split l) as (p & Hl & _).
    assert (Hlen : length l = length (p ++ Text.trimStartL l)) by (by rewrite <- Hl).
    rewrite H in Hlen. rewrite length_app in Hlen. simpl in Hlen. lia.
  - intros [? | (c' & l' & [= -> ->] & ?)]; congruence.
  - intros _. right. by exists c, l.
  - done.
Qed.

Lemma trimStartL_idemp (l : list ascii) :
  Text.trimStartL (Text.trimStartL l) = Text.trimStartL l.
Proof.
  induction l as [|c l IH]; [done|]. simpl.
  destruct (Js.isWhiteSpace c) eqn:E; [done|]. simpl. by rewrite E.
Qed.

(** A trimmed list neither starts nor ends with white space, and such a
    list is left alone by [trim]. *)
Lemma trimL_good (l : list ascii) :
  Text.trimStartL (Text.trimL l) = Text.trimL l
  ∧ Text.trimStartL (rev (Text.trimL l)) = rev (Text.trimL l).
Proof.
  unfold Text.trimL.
  set (l' := Text.trimStartL l).
  set (m := Text.trimStartL (rev l')).
  split.
  - destruct (trimStartL_split (rev l')) as (p & Hrev & _). fold m in Hrev.
    assert (Hl' : l' = rev m ++ rev p).
    { rewrite <- (rev_involutive l'), Hrev. by rewrite rev_app_distr. }
    assert (Hfix : Text.trimStartL l' = l') by apply trimStartL_idemp.
    apply trimStartL_fixed. destruct (rev m) as [|c r] eqn:E; [by left|].
    right. exists c, r. split; [done|].
    apply trimStartL_fixed in Hfix as [Hnil | (c' & r' & Hc & Hws)].
    + rewrite Hnil in Hl'. done.
    + rewrite Hl' in Hc. by injection Hc as -> _.
  - rewrite rev_involutive. apply trimStartL_idemp.
Qed.

Lemma trimL_idemp (l : list ascii) : Text.trimL (Text.trimL l) = Text.trimL l.
Proof.
  destruct (trimL_good l) as [H1 H2]. unfold Text.trimL at 1.
  by rewrite H1, H2, rev_involutive.
Qed.

Lemma trimStartL_Forall (P : ascii → Prop) (l : list ascii) :
  Forall P l → Forall P (Text.trimStartL l).
Proof.
  induction 1 as [|c l Hc Hl IH]; [done|]. simpl.
  destruct (Js.isWhiteSpace c); [done | by constructor].
Qed.

Lemma trimL_Forall (P : ascii → Prop) (l : list ascii) :
  Forall P l → Forall P (Text.trimL l).
Proof.
  intros H. unfold Text.trimL.
  apply Forall_rev, trimStartL_Forall, Forall_rev, trimStartL_Forall, H.
Qed.

Lemma trimL_fmap (f : ascii → ascii) (l : list ascii) :
  (∀ c, Js.isWhiteSpace (f c) = Js.isWhiteSpace c) →
  Text.trimL (f <$> l) = f <$> Text.trimL l.
Proof.
  intros Hf.
  assert (Hd : ∀ x, Text.trimStartL (f <$> x) = f <$> Text.trimStartL x).
  { induction x as [|c x IH]; [done|]. rewrite fmap_cons. simpl.
    rewrite Hf. destruct (Js.isWhiteSpace c); [done|]. by rewrite fmap_cons. }
  assert (Hr : ∀ x : list ascii, f <$> rev x = rev (f <$> x)).
  { induction x as [|c x IH]; [done|]. rewrite fmap_cons. simpl.
    by rewrite fmap_app, IH. }
  unfold Text.trimL. by rewrite Hd, <- Hr, Hd, <- Hr.
Qed.

Lemma lowerChar_facts (c : ascii) :
  Text.lowerChar (Text.lowerChar c) = Text.lowerChar c
  ∧ Js.isWhiteSpace (Text.lowerChar c) = Js.isWhiteSpace c
  ∧ Text.separatorToSpace (Text.lowerChar c)
    = Text.lowerChar (Text.separatorToSpace c)
  ∧ Text.separatorToSpace (Text.separatorToSpace c) = Text.separatorToSpace c.
Proof. destruct c as [[] [] [] [] [] [] [] []]; by vm_compute. Qed.

Lemma list_of_replaceSeparators (s : string) :
  list_ascii_of_string (Js.replaceSeparators s)
  = Text.separatorToSpace <$> list_ascii_of_string s.
Proof. apply list_of_mapChars. Qed.

Lemma list_of_toLowerCase (s : string) :
  list_ascii_of_string (Js.toLowerCase s)
  = Text.lowerChar <$> list_ascii_of_string s.
Proof. apply list_of_mapChars. Qed.

Lemma fmap_fixed {A : Type} (f : A → A) (l : list A) :
  Forall (λ x, f x = x) l → f <$> l = l.
Proof. induction 1 as [|x l Hx Hl IH]; [done|]. by rewrite fmap_cons, Hx, IH. Qed.

(** Replacing the separators of a string that was already cleaned and
    trimmed changes nothing, and trimming it again changes nothing. *)
Lemma clean_query_fixed (query : string) :
  Js.trim (Js.replaceSeparators (Js.trim (Js.replaceSeparators query)))
  = Js.trim (Js.replaceSeparators query).
Proof.
  apply string_eq_by_list.
  rewrite !list_of_trim, !list_of_replaceSeparators, !list_of_trim,
    !list_of_replaceSeparators.
  set (l := list_ascii_of_string query).
  rewrite (fmap_fixed Text.separatorToSpace
             (Text.trimL (Text.separatorToSpace <$> l))).
  - apply trimL_idemp.
  - apply trimL_Forall. apply Forall_fmap, Forall_forall. intros c _.
    apply lowerChar_facts.
Qed.

Lemma normalizeName_idemp (name : string) :
  Catalog.normalizeName (Catalog.normalizeName name) = Catalog.normalizeName name.
Proof.
  unfold Catalog.normalizeName. apply string_eq_by_list.
  rewrite !list_of_toLowerCase, !list_of_trim, !list_of_replaceSeparators,
    !list_of_toLowerCase, !list_of_trim, !list_of_replaceSeparators.
  set (l := list_ascii_of_string name).
  set (t := Text.trimL (Text.separatorToSpace <$> l)).
  assert (Hswap : Text.separatorToSpace <$> (Text.lowerChar <$> t)
                  = Text.lowerChar <$> (Text.separatorToSpace <$> t)).
  { rewrite <- !list_fmap_compose. apply list_fmap_ext. intros i c _.
    apply lowerChar_facts. }
  assert (Hfix : Text.separatorToSpace <$> t = t).
  { apply fmap_fixed. subst t. apply trimL_Forall.
    apply Forall_fmap, Forall_forall. intros c _. apply lowerChar_facts. }
  rewrite Hswap, Hfix.
  rewrite (trimL_fmap Text.lowerChar t) by (intros c; apply lowerChar_facts).
  subst t. rewrite trimL_idemp.
  rewrite <- list_fmap_compose. apply list_fmap_ext. intros i c _.
  apply lowerChar_facts.
Qed.

Lemma LocationType_eqb_eq (a b : Schema.LocationType) :
  Schema.LocationType_eqb a b = true ↔ a = b.
Proof. destruct a, b; simpl; split; done. Qed.

(** X3: the lookup by name and type ignores letter case, separators
    ([_] and [-]) and surrounding white space: it returns the catalog
    entries of the type whose normalised name is the normalised query, a
    query gives the same entries as its normalised form, and every catalog
    entry is found under its own name and type. *)
Theorem getLocationsByNameAndType_normalized (name : string)
    (type : Schema.LocationType) (st : LocationSearch.State) :
  Catalog.getLocationsByNameAndType (Catalog.normalizeName name) type st
  = Catalog.getLocationsByNameAndType name type st
  ∧ (∀ l, l ∈ Catalog.getLocationsByNameAndType name type st
          ↔ l ∈ LocationSearch.locationCache st ∧ Schema.type l = type
            ∧ Catalog.normalizeName (Schema.name l) = Catalog.normalizeName name)
  ∧ (∀ l, l ∈ LocationSearch.locationCache st →
          l ∈ Catalog.getLocationsByNameAndType (Schema.name l) (Schema.type l) st)
  ∧ (∀ other, Catalog.normalizeName other = Catalog.normalizeName name →
              Catalog.getLocationsByNameAndType other type st
              = Catalog.getLocationsByNameAndType name type st).
Proof.
  assert (Hmem : ∀ n t l, l ∈ Catalog.getLocationsByNameAndType n t st
            ↔ l ∈ LocationSearch.locationCache st ∧ Schema.type l = t
              ∧ Catalog.normalizeName (Schema.name l) = Catalog.normalizeName n).
  { intros n t l. unfold Catalog.getLocationsByNameAndType.
    rewrite elem_of_List_filter, andb_true_iff, LocationType_eqb_eq, String.eqb_eq.
    tauto. }
  split; [|split; [|split]].
  - unfold Catalog.getLocationsByNameAndType. by rewrite normalizeName_idemp.
  - apply Hmem.
  - intros l Hl. by apply Hmem.
  - intros other Heq. unfold Catalog.getLocationsByNameAndType. by rewrite Heq.
Qed.

Lemma getLocationsByNameAndType_normalized_witness :
  Catalog.getLocationsByNameAndType "  bangalore_urban " Schema.DISTRICT
    Catalog.exampleCatalogState
  = Catalog.getLocationsByNameAndType "Bangalore-Urban" Schema.DISTRICT
      Catalog.exampleCatalogState.
Proof.
  apply (getLocationsByNameAndType_normalized "Bangalore-Urban" Schema.DISTRICT
           Catalog.exampleCatalogState).
  reflexivity.
Defined.

(** ** Lookups by search *)

Lemma searchLocation_clean_query (query : string)
    (type : option Schema.LocationType) (parentName : option string)
    (st : LocationSearch.State) :
  LocationSearch.searchLocation (Js.trim (Js.replaceSeparators query)) type
    parentName st
  = LocationSearch.searchLocation query type parentName st.
Proof. unfold LocationSearch.searchLocation. by rewrite clean_query_fixed. Qed.

(** X4: a lookup by search is the fuzzy search on the query as typed (the
    cleaning done beforehand changes nothing), followed by the lookup of the
    first match by id: it fails with the search when the catalog is not
    loaded, finds nothing when the search finds nothing, and uses a parent
    hint only for a DISTRICT or TALUK query. *)
Theorem searchAndGetGroundwaterData_spec (query : string)
    (locationType : option Schema.LocationType) (parentName year : option string)
    (st : LocationSearch.State) (s : Schema.Store) :
  let hint :=
    match locationType with
    | Some Schema.DISTRICT | Some Schema.TALUK =>
        GroundwaterQueries.normalizeOptional parentName
    | _ => None
    end in
  GroundwaterQueries.searchAndGetGroundwaterData query locationType parentName
    year st s
  = match LocationSearch.searchLocation query locationType hint st with
    | Js.Throw e => Js.Throw e
    | Js.Ok [] => Js.Ok None
    | Js.Ok (bestMatch :: _) =>
        Js.Ok (GroundwaterService.getGroundwaterDataByLocationId
                 (Schema.id (LocationSearch.location bestMatch)) year s)
    end.
Proof.
  intros hint. subst hint. unfold GroundwaterQueries.searchAndGetGroundwaterData,
    LocationSearch.searchState, LocationSearch.searchDistrict,
    LocationSearch.searchTaluk.
  destruct locationType as [[| | |]|]; by rewrite searchLocation_clean_query.
Qed.

Lemma fold_push_omap {A B : Type} (f : A → option B) (l : list A) (acc : list B) :
  fold_left (λ results x, match f x with
                          | Some data => results ++ [data]
                          | None => results
                          end) l acc
  = acc ++ omap f l.
Proof.
  revert acc. induction l as [|x l IH]; intros acc; [by rewrite app_nil_r|].
  cbn [fold_left omap list_omap]. rewrite IH.
  destruct (f x); [by rewrite <- app_assoc | done].
Qed.

Lemma omap_length_le {A B : Type} (f : A → option B) (l : list A) :
  (length (omap f l) ≤ length l)%nat.
Proof.
  induction l as [|x l IH]; [done|]. cbn [omap list_omap].
  destruct (f x); simpl; lia.
Qed.

(** X5: comparing locations returns the records of the ids that have data
    for the year, in the order of the ids; an id without data is skipped
    without a trace, so the result may be shorter than the list of ids, and
    it is as long exactly when every id has data. *)
Theorem compareLocations_spec (locationIds : list string) (year : option string)
    (s : Schema.Store) :
  let result := GroundwaterQueries.compareLocations locationIds year s in
  result = omap (λ id, GroundwaterService.getGroundwaterDataByLocationId id year s)
             locationIds
  ∧ (length result ≤ length locationIds)%nat
  ∧ (length result = length locationIds
     ↔ ∀ id, id ∈ locationIds →
             is_Some (GroundwaterService.getGroundwaterDataByLocationId id year s))
  ∧ ∀ more, GroundwaterQueries.compareLocations (locationIds ++ more) year s
            = result ++ GroundwaterQueries.compareLocations more year s.
Proof.
  intros result.
  assert (Hres : ∀ ids, GroundwaterQueries.compareLocations ids year s
            = omap (λ id, GroundwaterService.getGroundwaterDataByLocationId id year s)
                ids).
  { intros ids. unfold GroundwaterQueries.compareLocations.
    by rewrite fold_push_omap. }
  split; [apply Hres|]. split; [subst result; rewrite Hres; apply omap_length_le|].
  split.
  - subst result. rewrite Hres. clear Hres.
    induction locationIds as [|id ids IH]; [split; [intros _ ? H; inversion H | done]|].
    cbn [omap list_omap].
    pose proof (omap_length_le
                  (λ id, GroundwaterService.getGroundwaterDataByLocationId id year s)
                  ids) as Hle.
    destruct (GroundwaterService.getGroundwaterDataByLocationId id year s) eqn:E.
    + simpl. split.
      * intros Hlen id' [-> | Hin]%elem_of_cons; [by rewrite E|].
        apply IH; [lia | done].
      * intros Hall. f_equal. apply IH. intros id' Hin. apply Hall. by right.
    + simpl. split; [lia|]. intros Hall.
      destruct (Hall id) as [? Hs]; [by left|]. congruence.
  - intros more. subst result. rewrite !Hres. apply omap_app.
Qed.

(** X6: the lookup by id finds nothing exactly when the store has no row for
    the location and year; a single row is returned as it is stored, with
    all its properties; whatever is returned belongs to the location and
    year asked for; and an omitted year stands for 2024-2025. *)
Theorem getGroundwaterDataByLocationId_found (locationId : string)
    (year : option string) (s : Schema.Store) :
  let rows :=
    GroundwaterService.selectByLocationAndYear locationId
      (default GroundwaterService.LATEST_YEAR year) s in
  let found := GroundwaterService.getGroundwaterDataByLocationId locationId year s in
  (found = None ↔ rows = [])
  ∧ (∀ row, rows = [row] → found = Some (GroundwaterService.toRecord row))
  ∧ (∀ r, found = Some r →
       Aggregation.id (Aggregation.location r) = locationId
       ∧ Aggregation.year r = default GroundwaterService.LATEST_YEAR year)
  ∧ GroundwaterService.getGroundwaterDataByLocationId locationId None s
    = GroundwaterService.getGroundwaterDataByLocationId locationId
        (Some "2024-2025") s.
Proof.
  intros rows found.
  assert (Hrows : ∀ row, row ∈ rows →
            Schema.id row.2 = locationId
            ∧ Schema.year row.1 = default GroundwaterService.LATEST_YEAR year).
  { intros row Hrow. subst rows.
    unfold GroundwaterService.selectByLocationAndYear in Hrow.
    apply elem_of_List_filter in Hrow as [_ Hb].
    apply andb_true_iff in Hb as [H1 H2]. by apply String.eqb_eq in H1, H2. }
  subst found. unfold GroundwaterService.getGroundwaterDataByLocationId.
  cbn zeta. fold rows.
  split; [|split; [|split; [|done]]].
  - destruct rows as [|row [|row' rest]]; cbn [length Nat.eqb];
      rewrite ?fmap_cons; [done | done |].
    split; [|done]. intros Hnone.
    destruct (aggregate_many (GroundwaterService.toRecord row)
                (GroundwaterService.toRecord row')
                (GroundwaterService.toRecord <$> rest)) as (m & Hm & _).
    congruence.
  - intros row ->. done.
  - intros r Hr. destruct rows as [|row [|row' rest]] eqn:E;
      cbn [length Nat.eqb] in Hr; rewrite ?fmap_cons in Hr; [done | |].
    + injection Hr as <-. apply (Hrows row). by left.
    + destruct (aggregate_many (GroundwaterService.toRecord row)
                  (GroundwaterService.toRecord row')
                  (GroundwaterService.toRecord <$> rest))
        as (m & Hm & Hloc & Hyear & _).
      rewrite Hm in Hr. injection Hr as <-.
      rewrite Hloc, Hyear. apply (Hrows row). by left.
Qed.

Lemma getGroundwaterDataByLocationId_found_witness :
  ∃ row,
    GroundwaterService.selectByLocationAndYear "s2" "2024-2025"
      GroundwaterService.exampleStore = [row]
    ∧ GroundwaterService.getGroundwaterDataByLocationId "s2" None
        GroundwaterService.exampleStore
      = Some (GroundwaterService.toRecord row).
Proof.
  eexists. split; [vm_compute; reflexivity|].
  destruct (getGroundwaterDataByLocationId_found "s2" None
              GroundwaterService.exampleStore) as (_ & Hone & _).
  apply Hone. vm_compute. reflexivity.
Defined.


(** X7: a location with its children: no record for the location, no
    children; at most twenty children are returned; each is the record of a
    catalog entry whose parent is the location and whose level is the one
    below (districts for a state, taluks for a district); a taluk and a
    country have no children here. *)
Theorem getLocationWithChildren_spec (locationId : string) (year : option string)
    (st : LocationSearch.State) (s : Schema.Store) :
  let result := GroundwaterQueries.getLocationWithChildren locationId year st s in
  result.1 = GroundwaterService.getGroundwaterDataByLocationId locationId year s
  ∧ (result.1 = None → result.2 = [])
  ∧ (length result.2 ≤ 20)%nat
  ∧ (∀ child, child ∈ result.2 →
       ∃ location l,
         Catalog.getLocationById locationId s = Some location
         ∧ l ∈ LocationSearch.locationCache st
         ∧ Schema.parentId l = Some locationId
         ∧ Catalog.level (Schema.type l) = S (Catalog.level (Schema.type location))
         ∧ GroundwaterService.getGroundwaterDataByLocationId (Schema.id l) year s
           = Some child)
  ∧ (∀ location, Catalog.getLocationById locationId s = Some location →
       Schema.type location = Schema.TALUK ∨ Schema.type location = Schema.COUNTRY →
       result.2 = []).
Proof.
  intros result. subst result. unfold GroundwaterQueries.getLocationWithChildren.
  destruct (GroundwaterService.getGroundwaterDataByLocationId locationId year s)
    as [parent|] eqn:Hparent; [|simpl; repeat split; auto; try lia;
                                 intros child Hc; inversion Hc].
  destruct (Catalog.getLocationById locationId s) as [location|] eqn:Hloc;
    [|simpl; repeat split; auto; try lia; try done; intros child Hc; inversion Hc].
  cbn [fst snd]. rewrite fold_push_omap. cbn [app].
  set (childLocations :=
         match Schema.type location with
         | Schema.STATE => Catalog.getDistrictsOfState locationId st
         | Schema.DISTRICT => Catalog.getTaluksOfDistrict locationId st
         | _ => []
         end).
  assert (Hchildren : ∀ l, l ∈ childLocations →
            l ∈ LocationSearch.locationCache st
            ∧ Schema.parentId l = Some locationId
            ∧ Catalog.level (Schema.type l) = S (Catalog.level (Schema.type location))).
  { intros l Hl. subst childLocations.
    assert (Hp : ∀ x, Catalog.parentIs x locationId = true →
                      Schema.parentId x = Some locationId).
    { intros x. unfold Catalog.parentIs. destruct (Schema.parentId x); [|done].
      by intros ->%String.eqb_eq. }
    destruct (Schema.type location) eqn:Ht; try by inversion Hl.
    - apply elem_of_List_filter in Hl as [Hin Hb].
      apply andb_true_iff in Hb as [Hty Hpar]. apply LocationType_eqb_eq in Hty.
      rewrite Hty. auto.
    - apply elem_of_List_filter in Hl as [Hin Hb].
      apply andb_true_iff in Hb as [Hty Hpar]. apply LocationType_eqb_eq in Hty.
      rewrite Hty. auto. }
  split; [done|]. split; [done|]. split; [|split].
  - etrans; [apply omap_length_le|]. rewrite length_take. lia.
  - intros child (l & Hl & Hget)%list_elem_of_omap.
    apply elem_of_take in Hl as (i & Hl & _). apply list_elem_of_lookup_2 in Hl.
    destruct (Hchildren l Hl) as (? & ? & ?). by exists location, l.
  - intros location' [= <-] Hty. subst childLocations.
    by destruct Hty as [-> | ->].
Qed.

Lemma getLocationWithChildren_spec_witness :
  ∃ child l,
    (GroundwaterQueries.getLocationWithChildren "s1" None
       CompareTool.exampleSearchState GroundwaterService.exampleStore).2 = [child]
    ∧ l ∈ LocationSearch.locationCache CompareTool.exampleSearchState
    ∧ Schema.parentId l = Some "s1"
    ∧ Schema.type l = Schema.DISTRICT
    ∧ GroundwaterService.getGroundwaterDataByLocationId (Schema.id l) None
        GroundwaterService.exampleStore
      = Some child.
Proof.
  assert (Hrun : ∃ child,
            (GroundwaterQueries.getLocationWithChildren "s1" None
               CompareTool.exampleSearchState GroundwaterService.exampleStore).2
            = [child]) by (eexists; vm_compute; reflexivity).
  destruct Hrun as [child Hrun]. exists child.
  destruct (getLocationWithChildren_spec "s1" None CompareTool.exampleSearchState
              GroundwaterService.exampleStore) as (_ & _ & _ & Hchild & _).
  destruct (Hchild child) as (location & l & Hloc & Hin & Hparent & Hlevel & Hdata).
  { rewrite Hrun. by left. }
  exists l. vm_compute in Hloc. injection Hloc as <-.
  split; [exact Hrun|]. split; [exact Hin|]. split; [exact Hparent|].
  split; [|exact Hdata]. cbn [Schema.type Catalog.level] in Hlevel.
  by destruct (Schema.type l).
Defined.


(** ** Walking up the hierarchy *)

Lemma getLocationById_Some (id : string) (s : Schema.Store) (l : Schema.LocationRecord) :
  Catalog.getLocationById id s = Some l → l ∈ Schema.locations s ∧ Schema.id l = id.
Proof.
  unfold Catalog.getLocationById. intros H.
  assert (Hin : l ∈ List.filter (λ l, String.eqb (Schema.id l) id) (Schema.locations s)).
  { destruct (List.filter _ _) as [|x xs]; [done|]. injection H as ->. by left. }
  apply elem_of_List_filter in Hin as [? ?%String.eqb_eq]. done.
Qed.

Lemma isChain_cons (a : Schema.LocationRecord) (chain : list Schema.LocationRecord) :
  Catalog.isChain chain →
  (∀ b, head chain = Some b → Schema.parentId b = Some (Schema.id a)) →
  Catalog.isChain (a :: chain).
Proof. destruct chain as [|b rest]; [done|]. intros Hc Hb. split; auto. Qed.

(** The loop under a bound on the levels still above: it ends, after
    prepending at most that many ancestors. *)
Lemma hierarchyLoop_layered (s : Schema.Store) :
  Catalog.wellLayered s →
  ∀ fuel n currentId hierarchy,
    (∀ l, Js.truthy_str currentId = true →
          Catalog.getLocationById (default "" currentId) s = Some l →
          (Catalog.level (Schema.type l) < n)%nat) →
    (n < fuel)%nat →
    Catalog.isChain hierarchy →
    (∀ b, head hierarchy = Some b → Schema.parentId b = currentId) →
    ∃ ancestors,
      Catalog.hierarchyLoop fuel s currentId hierarchy = Some (ancestors ++ hierarchy)
      ∧ (length ancestors ≤ n)%nat
      ∧ Catalog.isChain (ancestors ++ hierarchy)
      ∧ (∀ a, a ∈ ancestors → a ∈ Schema.locations s)
      ∧ (ancestors = [] →
         Js.truthy_str currentId = false
         ∨ Catalog.getLocationById (default "" currentId) s = None).
Proof.
  intros Hwl. induction fuel as [|fuel IH]; intros n currentId hierarchy Hn Hfuel Hc Hhead;
    [lia|].
  cbn [Catalog.hierarchyLoop].
  destruct (Js.truthy_str currentId) eqn:Ht.
  2:{ exists []. repeat split; auto; try (simpl; lia). intros a Ha. inversion Ha. }
  destruct (Catalog.getLocationById (default "" currentId) s) as [location|] eqn:Hloc.
  2:{ exists []. repeat split; auto; try (simpl; lia). intros a Ha. inversion Ha. }
  pose proof (Hn location eq_refl eq_refl) as Hlevel.
  destruct (getLocationById_Some _ _ _ Hloc) as [Hin Hid].
  assert (Hcur : currentId = Some (Schema.id location)).
  { destruct currentId as [c|]; [|done]. simpl in Hid. by rewrite Hid. }
  destruct (IH (n - 1)%nat (Schema.parentId location) (location :: hierarchy))
    as (ancestors & Hrun & Hlen & Hchain & Hmem & _).
  - intros parent Htp Hparent.
    destruct (Schema.parentId location) as [p|] eqn:Hp; [|done].
    simpl in Hparent. pose proof (Hwl location p parent Hin Hp Hparent). lia.
  - lia.
  - apply isChain_cons; [done|]. intros b Hb. rewrite (Hhead b Hb). done.
  - by intros b [= <-].
  - exists (ancestors ++ [location]). rewrite <- app_assoc. cbn [app].
    split; [done|]. split; [rewrite length_app; simpl; lia|]. split; [done|].
    split.
    + intros a [Ha | ->%list_elem_of_singleton]%elem_of_app; auto.
    + intros Hnil. by destruct ancestors.
Qed.

(** X8: in a catalog where every parent reference that resolves leads one
    level up, walking up from a location ends within five tests of the loop
    condition (a larger bound changes nothing); it returns at most four
    entries of the catalog, listed from the top down, each the parent of the
    next; and when the location itself is in the catalog the last entry is
    the location, otherwise the list is empty. *)
Theorem getLocationHierarchy_layered (s : Schema.Store) (locationId : string)
    (fuel : nat) :
  Catalog.wellLayered s →
  (5 ≤ fuel)%nat →
  ∃ chain,
    Catalog.getLocationHierarchy fuel locationId s = Some chain
    ∧ Catalog.getLocationHierarchy 5 locationId s = Some chain
    ∧ (length chain ≤ 4)%nat
    ∧ Catalog.isChain chain
    ∧ (∀ a, a ∈ chain → a ∈ Schema.locations s)
    ∧ match Catalog.getLocationById locationId s with
      | Some location => locationId ≠ "" → last chain = Some location
      | None => chain = []
      end.
Proof.
  intros Hwl Hfuel.
  assert (Hbound : ∀ l, Js.truthy_str (Some locationId) = true →
            Catalog.getLocationById (default "" (Some locationId)) s = Some l →
            (Catalog.level (Schema.type l) < 4)%nat).
  { intros l _ _. destruct (Schema.type l); simpl; lia. }
  destruct (hierarchyLoop_layered s Hwl fuel 4 (Some locationId) [] Hbound)
    as (chain & Hrun & Hlen & Hchain & Hmem & Hempty); [lia | done | done |].
  destruct (hierarchyLoop_layered s Hwl 5 4 (Some locationId) [] Hbound)
    as (chain5 & Hrun5 & _); [lia | done | done |].
  rewrite app_nil_r in Hrun, Hrun5, Hchain.
  assert (Heq : chain5 = chain).
  { clear -Hrun Hrun5 Hfuel.
    assert (Hmono : ∀ f cur acc r, Catalog.hierarchyLoop f s cur acc = Some r →
              ∀ f', (f ≤ f')%nat → Catalog.hierarchyLoop f' s cur acc = Some r).
    { induction f as [|f IH]; intros cur acc r Hr f' Hle; [done|].
      destruct f' as [|f']; [lia|]. cbn [Catalog.hierarchyLoop] in *.
      destruct (Js.truthy_str cur); [|done].
      destruct (Catalog.getLocationById (default "" cur) s); [|done].
      apply (IH _ _ _ Hr). lia. }
    pose proof (Hmono _ _ _ _ Hrun5 fuel Hfuel) as H.
    unfold Catalog.getLocationHierarchy in *. congruence. }
  subst chain5. exists chain. repeat split; try done.
  unfold Catalog.getLocationHierarchy in Hrun.
  destruct fuel as [|fuel']; [lia|]. cbn [Catalog.hierarchyLoop] in Hrun.
  change (default "" (Some locationId)) with locationId in Hrun.
  destruct (Catalog.getLocationById locationId s) as [location|] eqn:Hloc.
  - intros Hne.
    assert (Ht : Js.truthy_str (Some locationId) = true).
    { apply truthy_str_spec. exists locationId. done. }
    rewrite Ht in Hrun.
    assert (Hlast : ∀ f cur acc r x, Catalog.hierarchyLoop f s cur (acc ++ [x]) = Some r →
              last r = Some x).
    { induction f as [|f IH]; intros cur acc r x Hr; [done|].
      cbn [Catalog.hierarchyLoop] in Hr.
      destruct (Js.truthy_str cur); [|injection Hr as <-; apply last_snoc].
      destruct (Catalog.getLocationById (default "" cur) s) as [l|];
        [|injection Hr as <-; apply last_snoc].
      apply (IH _ (l :: acc) _ _ Hr). }
    apply (Hlast fuel' _ [] _ _ Hrun).
  - destruct (Js.truthy_str (Some locationId)); congruence.
Qed.

Lemma exampleCatalog_wellLayered : Catalog.wellLayered Catalog.exampleCatalog.
Proof.
  intros l p parent Hin Hp Hpar.
  cbn [Catalog.exampleCatalog Schema.locations] in Hin.
  repeat (apply elem_of_cons in Hin as [-> | Hin]); [..|by inversion Hin];
    cbn [Schema.parentId] in Hp; try discriminate; injection Hp as <-;
    vm_compute in Hpar; injection Hpar as <-; reflexivity.
Qed.

Lemma getLocationHierarchy_layered_witness :
  ∃ chain,
    Catalog.getLocationHierarchy 9 "t1" Catalog.exampleCatalog = Some chain
    ∧ (length chain ≤ 4)%nat ∧ Catalog.isChain chain.
Proof.
  destruct (getLocationHierarchy_layered Catalog.exampleCatalog "t1" 9)
    as (chain & Hrun & _ & Hlen & Hchain & _).
  - exact exampleCatalog_wellLayered.
  - lia.
  - exists chain. done.
Defined.

(** X9: in a catalog where every location names a parent that is itself in
    the catalog, walking up from a location of the catalog never ends:
    whatever the number of tests of the loop condition allowed, the loop has
    not returned. *)
Theorem getLocationHierarchy_no_root (s : Schema.Store) (locationId : string)
    (fuel : nat) :
  (∀ l, l ∈ Schema.locations s →
        ∃ p, Schema.parentId l = Some p ∧ p ≠ ""
             ∧ Catalog.getLocationById p s ≠ None) →
  locationId ≠ "" →
  Catalog.getLocationById locationId s ≠ None →
  Catalog.getLocationHierarchy fuel locationId s = None.
Proof.
  intros Hroot. unfold Catalog.getLocationHierarchy. generalize (@nil Schema.LocationRecord).
  revert locationId. induction fuel as [|fuel IH]; intros locationId acc Hne Hsome; [done|].
  cbn [Catalog.hierarchyLoop].
  assert (Ht : Js.truthy_str (Some locationId) = true).
  { apply truthy_str_spec. by exists locationId. }
  rewrite Ht. change (default "" (Some locationId)) with locationId.
  destruct (Catalog.getLocationById locationId s) as [location|] eqn:Hloc; [|done].
  destruct (getLocationById_Some _ _ _ Hloc) as [Hin _].
  destruct (Hroot location Hin) as (p & -> & Hp & Hpar).
  by apply IH.
Qed.

Lemma getLocationHierarchy_no_root_witness :
  Catalog.getLocationHierarchy 1000 "x1" Catalog.loopingCatalog = None.
Proof.
  apply (getLocationHierarchy_no_root Catalog.loopingCatalog "x1" 1000).
  - intros l Hin. cbn [Catalog.loopingCatalog Schema.locations] in Hin.
    apply elem_of_cons in Hin as [-> | Hin]; [|by inversion Hin].
    exists "x1". repeat split; done.
  - done.
  - done.
Defined.

(** ** Years: the table's years, the resolver and the record filter *)

Lemma includes_filter (p : string → bool) (availableYears : list string) (y : string) :
  y ∈ availableYears → Js.includes (List.filter p availableYears) y = p y.
Proof.
  intros Hin. destruct (p y) eqn:Hp.
  - apply includes_spec. apply elem_of_List_filter. done.
  - apply not_true_is_false. intros H%includes_spec.
    apply elem_of_List_filter in H as [_ H]. congruence.
Qed.

Lemma List_filter_ext_elem {A : Type} (f g : A → bool) (l : list A) :
  (∀ x, x ∈ l → f x = g x) → List.filter f l = List.filter g l.
Proof.
  intros H. apply List.filter_ext_in. intros x Hx. apply H.
  by apply list_elem_of_In.
Qed.

Lemma List_filter_all {A : Type} (f : A → bool) (l : list A) :
  (∀ x, x ∈ l → f x = true) → List.filter f l = l.
Proof.
  induction l as [|a l IH]; intros H; simpl; [done|].
  rewrite (H a) by (by left). f_equal. apply IH. intros x Hx. apply H. by right.
Qed.

(** X10: the record filter keeps what the year resolver selects. For records
    whose years are among the available years, a request that the resolver
    treats as historical keeps exactly the records whose year is one of the
    resolved years, in their order; a request that it does not treat as
    historical keeps every record. *)
Theorem filterRecordsByYear_resolved {T : Type} (yearOf : T → string)
    (records : list T) (params : YearFiltering.YearFilterParams)
    (availableYears : list string) :
  (∀ r, r ∈ records → yearOf r ∈ availableYears) →
  let resolved := YearFiltering.getFilteredYears params availableYears in
  YearFiltering.filterRecordsByYear yearOf records params
  = if YearFiltering.isHistorical resolved
    then List.filter (λ r, Js.includes (YearFiltering.yearsToQuery resolved) (yearOf r))
           records
    else records.
Proof.
  intros Hyears resolved. subst resolved.
  unfold YearFiltering.filterRecordsByYear, YearFiltering.getFilteredYears.
  destruct (YearFiltering.specificYears params) as [[|y0 l]|] eqn:Hsp;
    destruct (Js.truthy_str (YearFiltering.fromYear params)) eqn:Hf;
    destruct (Js.truthy_str (YearFiltering.toYear params)) eqn:Ht;
    cbn [negb andb orb Js.truthy_arr YearFiltering.isHistorical
         YearFiltering.yearsToQuery];
    try done;
    try (apply List_filter_ext_elem; intros r Hr;
         by rewrite (includes_filter _ _ _ (Hyears r Hr)));
    symmetry; apply List_filter_all; intros r Hr; apply includes_spec; auto.
Qed.

Lemma filterRecordsByYear_resolved_witness :
  YearFiltering.filterRecordsByYear id ["2018-2019"; "2024-2025"; "2018-2019"]
    YearFiltering.rangeSpec
  = ["2018-2019"; "2018-2019"].
Proof.
  rewrite (filterRecordsByYear_resolved id ["2018-2019"; "2024-2025"; "2018-2019"]
             YearFiltering.rangeSpec YearFiltering.exampleYears).
  - reflexivity.
  - intros r Hr. apply includes_spec.
    repeat (apply elem_of_cons in Hr as [-> | Hr]); [reflexivity..|by inversion Hr].
Defined.

Lemma getAvailableYears_sorted (s : Schema.Store) :
  StronglySorted (λ a b, String.leb a b = true) (GwTools.getAvailableYears s).
Proof.
  apply sortBy_StronglySorted; [apply String.leb_total | apply String_leb_trans].
Qed.

(** X11: the available years are the years that occur in the table of
    groundwater rows, each listed once, in ascending order. *)
Theorem getAvailableYears_spec (s : Schema.Store) :
  NoDup (GwTools.getAvailableYears s)
  ∧ StronglySorted (λ a b, String.leb a b = true) (GwTools.getAvailableYears s)
  ∧ ∀ y, y ∈ GwTools.getAvailableYears s
         ↔ ∃ g, g ∈ Schema.groundwaterData s ∧ Schema.year g = y.
Proof.
  unfold GwTools.getAvailableYears.
  pose proof (sortBy_Permutation String.leb
                (remove_dups (Schema.year <$> Schema.groundwaterData s))) as Hperm.
  split; [|split].
  - rewrite Hperm. apply NoDup_remove_dups.
  - apply getAvailableYears_sorted.
  - intros y. rewrite Hperm, elem_of_remove_dups, list_elem_of_fmap. naive_solver.
Qed.

Section contiguous.
Context {A : Type} (R : relation A) (p : A → bool).
Context (convex : ∀ a b c, R a b → R b c → p a = true → p c = true → p b = true).

Lemma List_filter_contiguous (l : list A) :
  StronglySorted R l →
  ∃ before after,
    l = before ++ List.filter p l ++ after
    ∧ Forall (λ x, p x = false) before ∧ Forall (λ x, p x = false) after.
Proof.
  induction 1 as [|a l Hsorted IH Hhead].
  - exists [], []. done.
  - destruct IH as (before & after & Hl & Hb & Ha). cbn [List.filter].
    destruct (p a) eqn:Hpa.
    + destruct (List.filter p l) as [|c kept] eqn:Hkept.
      * exists [], l. split; [done|]. split; [done|].
        apply Forall_forall. intros x Hx. apply not_true_is_false. intros Hpx.
        assert (Hin : x ∈ List.filter p l) by (by apply elem_of_List_filter).
        rewrite Hkept in Hin. inversion Hin.
      * assert (Hc : c ∈ l ∧ p c = true).
        { apply elem_of_List_filter. rewrite Hkept. by left. }
        destruct before as [|b before].
        -- exists [], after. cbn [app] in *. by rewrite Hl at 1.
        -- exfalso. apply Forall_cons in Hb as [Hpb _].
           assert (Hab : R a b).
           { rewrite Forall_forall in Hhead. apply Hhead. rewrite Hl. by left. }
           assert (Hbc : R b c).
           { rewrite Hl in Hsorted. cbn [app] in Hsorted.
             apply StronglySorted_inv in Hsorted as [_ Hall].
             rewrite Forall_forall in Hall. apply Hall.
             apply elem_of_app. right. by left. }
           rewrite (convex a b c Hab Hbc Hpa (proj2 Hc)) in Hpb. done.
    + exists (a :: before), after. split; [cbn [app]; by rewrite Hl at 1|].
      split; [by constructor | done].
Qed.

End contiguous.

(** X12: a range request selects a run of consecutive available years: the
    available years of a store split into the years before the run, the
    selected years and the years after it, and no year before or after the
    run is within the bounds. *)
Theorem getFilteredYears_range_contiguous (params : YearFiltering.YearFilterParams)
    (s : Schema.Store) :
  YearFiltering.specificYears params = None
  ∨ YearFiltering.specificYears params = Some [] →
  Js.truthy_str (YearFiltering.fromYear params) = true
  ∨ Js.truthy_str (YearFiltering.toYear params) = true →
  ∃ before after,
    GwTools.getAvailableYears s
    = before
      ++ YearFiltering.yearsToQuery
           (YearFiltering.getFilteredYears params (GwTools.getAvailableYears s))
      ++ after
    ∧ Forall (λ y, ¬ YearFiltering.withinBounds params y) before
    ∧ Forall (λ y, ¬ YearFiltering.withinBounds params y) after.
Proof.
  intros Hsp Hbound. rewrite (getFilteredYears_range _ _ Hsp Hbound).
  cbn [YearFiltering.yearsToQuery].
  pose proof (getAvailableYears_sorted s) as Hsorted.
  destruct (List_filter_contiguous (λ a b, String.leb a b = true)
              (YearFiltering.inRange (YearFiltering.fromYear params)
                 (YearFiltering.toYear params))) with (l := GwTools.getAvailableYears s)
    as (before & after & Hl & Hb & Ha).
  - intros a b c Hab Hbc Hpa Hpc. apply inRange_spec.
    apply inRange_spec in Hpa as [Hfa _]. apply inRange_spec in Hpc as [_ Htc].
    split.
    + intros f Hf Hne. apply (String_leb_trans _ a); auto.
    + intros t Ht Hne. apply (String_leb_trans _ c); auto.
  - exact Hsorted.
  - exists before, after. split; [done|].
    split; eapply Forall_impl; eauto; intros y Hy Hw%inRange_spec; congruence.
Qed.

Lemma getFilteredYears_range_contiguous_witness :
  ∃ before after,
    GwTools.getAvailableYears GroundwaterService.exampleStore
    = before
      ++ YearFiltering.yearsToQuery
           (YearFiltering.getFilteredYears GwTools.rangeFrom2023
              (GwTools.getAvailableYears GroundwaterService.exampleStore))
      ++ after
    ∧ Forall (λ y, ¬ YearFiltering.withinBounds GwTools.rangeFrom2023 y) before.
Proof.
  destruct (getFilteredYears_range_contiguous GwTools.rangeFrom2023
              GroundwaterService.exampleStore)
    as (before & after & Hl & Hb & _).
  - left. reflexivity.
  - left. reflexivity.
  - exists before, after. done.
Defined.

(** ** The ranking tool and its metrics *)

Lemma ranked_records_have_value (field columnName property : string)
    (type : Schema.LocationType) (order : GroundwaterService.Order) (limit : nat)
    (year : string) (s : Schema.Store) (r : Aggregation.GroundwaterRecord) :
  GroundwaterService.fieldToColumn field = Some columnName →
  GroundwaterService.assoc columnName GroundwaterService.columnProperties
  = Some property →
  r ∈ GroundwaterService.getTopLocationsByField field type order limit year s →
  is_Some (GroundwaterService.numberAt property r).
Proof.
  intros Hcol Hprop. unfold GroundwaterService.getTopLocationsByField. rewrite Hcol.
  intros (row & -> & Hrow)%list_elem_of_fmap.
  apply elem_of_take in Hrow as (i & Hrow & _). apply list_elem_of_lookup_2 in Hrow.
  rewrite orderBy_Permutation in Hrow.
  apply elem_of_List_filter in Hrow as [_ Hq].
  apply (qualifies_spec _ _ _ _ _ Hprop) in Hq as (_ & _ & Hsome).
  by rewrite numberAt_toRecord.
Qed.

(** X13: the metric table and the ranking's column table agree. For a metric
    the tool's schema admits, the ranking has no column exactly when the
    metric is net_balance; when it has one, the property the tool reads from
    a record is the property that holds the column ranked on; so for every
    other admitted metric each ranked record carries a value of the metric. *)
Theorem valid_metric_column (metric : string) :
  metric ∈ Ranking.VALID_METRICS →
  (GroundwaterService.fieldToColumn metric = None ↔ metric = "net_balance")
  ∧ (∀ columnName,
       GroundwaterService.fieldToColumn metric = Some columnName →
       GroundwaterService.assoc columnName GroundwaterService.columnProperties
       = Some (MetricHelpers.metricToField metric))
  ∧ (metric ≠ "net_balance" →
     ∀ type order limit year s r,
       r ∈ GroundwaterService.getTopLocationsByField metric type order limit year s →
       is_Some (GwTools.metricValue metric r)).
Proof.
  intros Hvalid.
  assert (Htable : (GroundwaterService.fieldToColumn metric = None
                    ∧ metric = "net_balance")
                   ∨ (metric ≠ "net_balance"
                      ∧ ∃ columnName,
                          GroundwaterService.fieldToColumn metric = Some columnName
                          ∧ GroundwaterService.assoc columnName
                              GroundwaterService.columnProperties
                            = Some (MetricHelpers.metricToField metric))).
  { unfold Ranking.VALID_METRICS, MetricHelpers.METRIC_CONFIG in Hvalid.
    rewrite !fmap_cons in Hvalid. cbn [fst] in Hvalid.
    repeat (apply elem_of_cons in Hvalid as [-> | Hvalid]);
      [right; split; [done|]; eexists; split; vm_compute; reflexivity ..
      | left; split; vm_compute; reflexivity
      | by inversion Hvalid]. }
  destruct Htable as [[Hnone ->] | (Hne & columnName & Hcol & Hprop)].
  - split; [done|]. split; [intros c Hc; congruence | done].
  - split; [split; [congruence | done]|].
    split; [intros c Hc; congruence|].
    intros _ type order limit year s r Hr. unfold GwTools.metricValue.
    by eapply ranked_records_have_value.
Qed.

Lemma valid_metric_column_witness :
  GroundwaterService.fieldToColumn "stage_of_extraction"
  = Some "stage_of_extraction_total"
  ∧ GroundwaterService.assoc "stage_of_extraction_total"
      GroundwaterService.columnProperties
    = Some "stageOfExtractionTotal".
Proof.
  destruct (valid_metric_column "stage_of_extraction") as (_ & Hcol & _).
  - vm_compute. do 4 right. left.
  - split; [reflexivity|]. apply (Hcol "stage_of_extraction_total"). reflexivity.
Defined.

Lemma yearLoop_no_records (metric : string) (type : Schema.LocationType)
    (order : GroundwaterService.Order) (limit : nat) (s : Schema.Store)
    (years : list string) (st : GwTools.LoopState) :
  (∀ y, GroundwaterService.getTopLocationsByField metric type order (limit * 2) y s
        = []) →
  GwTools.locationAggregates
    (fold_left (GwTools.yearStep metric type order limit s) years st)
  = GwTools.locationAggregates st.
Proof.
  intros Hnone. revert st. induction years as [|y years IH]; intros st; [done|].
  cbn [fold_left]. rewrite IH. unfold GwTools.yearStep.
  cbn [GwTools.locationAggregates]. by rewrite Hnone.
Qed.

(** X14: a metric for which the ranking has no column names no location,
    whatever the store holds: a request answered for one year reports that
    there is no data, and a request over several years reports an empty
    ranking and a trend whose points chart nothing. *)
Theorem getTopLocationsTool_no_column (metric : string)
    (type : Schema.LocationType) (order : GroundwaterService.Order) (limit : nat)
    (yearParams : YearFiltering.YearFilterParams) (s : Schema.Store) :
  GroundwaterService.fieldToColumn metric = None →
  Ranking.reportsNoLocation
    (GwTools.getTopLocationsTool metric type order limit yearParams s).
Proof.
  intros Hnone.
  assert (Hempty : ∀ n y, GroundwaterService.getTopLocationsByField metric type order
                            n y s = []).
  { intros n y. unfold GroundwaterService.getTopLocationsByField. by rewrite Hnone. }
  unfold GwTools.getTopLocationsTool.
  destruct (_ && _).
  - unfold GwTools.aggregatedDataOf, GwTools.yearLoop.
    rewrite yearLoop_no_records by (intros y; apply Hempty).
    cbn [GwTools.locationAggregates fmap list_fmap StableSort.sortBy].
    rewrite firstn_nil. split; [done|].
    unfold GwTools.trendDataOf. apply Forall_fmap, Forall_forall. intros y _. done.
  - rewrite Hempty. done.
Qed.

Lemma getTopLocationsTool_no_column_witness :
  Ranking.reportsNoLocation
    (GwTools.getTopLocationsTool "net_balance" Schema.STATE GroundwaterService.desc 3
       GwTools.rangeFrom2023 GroundwaterService.exampleStore).
Proof.
  apply (getTopLocationsTool_no_column "net_balance"). reflexivity.
Defined.

(** X15: a request whose bounds or list select at most one year is answered
    as the request for its [year] alone: the selected year is not used, the
    ranking is that of [year], or of 2024-2025 when no [year] was given. *)
Theorem getTopLocationsTool_one_selected_year (metric : string)
    (type : Schema.LocationType) (order : GroundwaterService.Order) (limit : nat)
    (yearParams : YearFiltering.YearFilterParams) (s : Schema.Store) :
  (length (YearFiltering.yearsToQuery
             (YearFiltering.getFilteredYears yearParams (GwTools.getAvailableYears s)))
   ≤ 1)%nat →
  GwTools.getTopLocationsTool metric type order limit yearParams s
  = GwTools.getTopLocationsTool metric type order limit (Ranking.yearOnly yearParams) s
  ∧ GwTools.getTopLocationsTool metric type order limit yearParams s
    = let records :=
        GroundwaterService.getTopLocationsByField metric type order limit
          (YearFiltering.orDefaultYear (YearFiltering.year yearParams)) s in
      match records with
      | [] => GwTools.NoData
      | _ => GwTools.SingleYear
               (YearFiltering.orDefaultYear (YearFiltering.year yearParams))
               (imap (GwTools.rankedRow metric) records)
      end.
Proof.
  intros Hlen.
  assert (Htarget : ∀ p a, YearFiltering.targetYear (YearFiltering.getFilteredYears p a)
                           = YearFiltering.orDefaultYear (YearFiltering.year p)).
  { intros p a. unfold YearFiltering.getFilteredYears. by destruct (_ && _). }
  assert (Hrun : ∀ p,
            (length (YearFiltering.yearsToQuery
                       (YearFiltering.getFilteredYears p (GwTools.getAvailableYears s)))
             ≤ 1)%nat →
            GwTools.getTopLocationsTool metric type order limit p s
            = match GroundwaterService.getTopLocationsByField metric type order limit
                      (YearFiltering.orDefaultYear (YearFiltering.year p)) s with
              | [] => GwTools.NoData
              | records => GwTools.SingleYear
                       (YearFiltering.orDefaultYear (YearFiltering.year p))
                       (imap (GwTools.rankedRow metric) records)
              end).
  { intros p Hp. unfold GwTools.getTopLocationsTool.
    replace (1 <? _)%nat with false by (symmetry; apply Nat.ltb_ge; exact Hp).
    rewrite andb_false_r, Htarget.
    by destruct (GroundwaterService.getTopLocationsByField _ _ _ _ _ _). }
  split.
  - rewrite (Hrun yearParams Hlen), (Hrun (Ranking.yearOnly yearParams)); [done|].
    cbn. lia.
  - rewrite (Hrun yearParams Hlen). cbv zeta.
    by destruct (GroundwaterService.getTopLocationsByField _ _ _ _ _ _).
Qed.

Lemma getTopLocationsTool_one_selected_year_witness :
  YearFiltering.yearsToQuery
    (YearFiltering.getFilteredYears Ranking.range2023Only
       (GwTools.getAvailableYears GroundwaterService.exampleStore))
  = ["2023-2024"]
  ∧ ∃ data,
      GwTools.getTopLocationsTool "extraction" Schema.STATE GroundwaterService.desc 3
        Ranking.range2023Only GroundwaterService.exampleStore
      = GwTools.SingleYear "2024-2025" data.
Proof.
  split; [reflexivity|].
  destruct (getTopLocationsTool_one_selected_year "extraction" Schema.STATE
              GroundwaterService.desc 3 Ranking.range2023Only
              GroundwaterService.exampleStore) as [_ Hrun].
  - vm_compute. lia.
  - rewrite Hrun. eexists. vm_compute. reflexivity.
Defined.

Lemma fold_min2_nan_acc (values : list float) (a : float) :
  Js.isNaN a = true → Js.isNaN (fold_left Js.min2 values a) = true.
Proof.
  revert a. induction values as [|v values IH]; intros a Ha; [done|].
  simpl. apply IH. unfold Js.min2. by rewrite Ha.
Qed.

Lemma fold_max2_nan_acc (values : list float) (a : float) :
  Js.isNaN a = true → Js.isNaN (fold_left Js.max2 values a) = true.
Proof.
  revert a. induction values as [|v values IH]; intros a Ha; [done|].
  simpl. apply IH. unfold Js.max2. by rewrite Ha.
Qed.

(** A NaN among the values makes the minimum and the maximum NaN. *)
Lemma minOf_maxOf_nan (values : list float) :
  Exists (λ v, Js.isNaN v = true) values →
  Js.isNaN (Js.minOf values) = true ∧ Js.isNaN (Js.maxOf values) = true.
Proof.
  unfold Js.minOf, Js.maxOf.
  generalize PrimFloat.infinity, PrimFloat.neg_infinity.
  induction values as [|v values IH]; intros a b Hex; [by inversion Hex|].
  simpl. apply Exists_cons in Hex as [Hv | Hex]; [|by apply IH].
  split.
  - apply fold_min2_nan_acc. unfold Js.min2.
    destruct (Js.isNaN a) eqn:Ea; [done|]. by rewrite Hv.
  - apply fold_max2_nan_acc. unfold Js.max2.
    destruct (Js.isNaN b) eqn:Eb; [done|]. by rewrite Hv.
Qed.

Lemma summarize_spanned (loc : string * list float) :
  Ranking.spanned (GwTools.summarize loc).
Proof.
  destruct loc as [n [|v values]]; [by left|].
  unfold Ranking.spanned, GwTools.summarize.
  cbn [snd fst GwTools.minValue GwTools.maxValue].
  replace (0 <? length (v :: values))%nat with true by done.
  destruct (decide (Forall (λ w, Js.isNaN w = false) (v :: values))) as [Hnum | Hnan].
  - left.
    destruct (minOf_spec (v :: values) ltac:(done) Hnum) as [_ Hmin].
    destruct (maxOf_spec (v :: values) ltac:(done) Hnum) as [_ Hmax].
    apply leb_trans with v; [apply Hmin | apply Hmax]; by left.
  - right. apply minOf_maxOf_nan. apply not_Forall_Exists in Hnan; [|apply _].
    eapply Exists_impl; [exact Hnan|]. intros w Hw. simpl in Hw.
    by destruct (Js.isNaN w).
Qed.

(** X16: in every multi-year ranking the tool reports, the minimum of each
    row is at most its maximum, unless one of the values collected under the
    name is NaN, in which case both are NaN.  (Nothing of the kind is said
    of the average, which is a rounded quotient of a rounded sum.) *)
Theorem getTopLocationsTool_rows_bounded (metric : string)
    (type : Schema.LocationType) (order : GroundwaterService.Order) (limit : nat)
    (yearParams : YearFiltering.YearFilterParams) (s : Schema.Store)
    (years : list string) (data : list GwTools.AggregateRow)
    (trend : list GwTools.TrendPoint) :
  GwTools.getTopLocationsTool metric type order limit yearParams s
  = GwTools.Historical years data trend →
  Forall Ranking.spanned data.
Proof.
  unfold GwTools.getTopLocationsTool. destruct (_ && _).
  - intros [= _ <- _]. unfold GwTools.aggregatedDataOf.
    apply Forall_forall. intros row Hrow.
    apply elem_of_take in Hrow as (i & Hrow & _). apply list_elem_of_lookup_2 in Hrow.
    rewrite sortBy_Permutation in Hrow.
    apply list_elem_of_fmap in Hrow as (loc & -> & _). apply summarize_spanned.
  - by destruct (length _ =? 0)%nat.
Qed.

Lemma getTopLocationsTool_rows_bounded_witness :
  ∃ years data trend,
    GwTools.getTopLocationsTool "extraction" Schema.STATE GroundwaterService.desc 2
      GwTools.rangeFrom2023 GroundwaterService.exampleStore
    = GwTools.Historical years data trend
    ∧ data ≠ [] ∧ Forall Ranking.spanned data.
Proof.
  eexists _, _, _. split; [vm_compute; reflexivity|]. split; [discriminate|].
  eapply (getTopLocationsTool_rows_bounded "extraction" Schema.STATE
            GroundwaterService.desc 2 GwTools.rangeFrom2023
            GroundwaterService.exampleStore).
  vm_compute. reflexivity.
Defined.

(** ** What a catalog search returns *)

Lemma filterByParent_sublist (fz : LocationSearch.Fuse)
    (parentType : Schema.LocationType) (parentName : string)
    (filtered : list LocationSearch.FuseResult) :
  sublist (LocationSearch.filterByParent fz parentType parentName filtered) filtered.
Proof.
  rewrite filterByParent_spec. cbv zeta.
  destruct (List.filter _ filtered) eqn:E; [done|]. rewrite <- E.
  apply List_filter_sublist.
Qed.

Lemma firstn_sublist {A : Type} (n : nat) (l : list A) : sublist (firstn n l) l.
Proof.
  revert n. induction l as [|a l IH]; intros [|n]; cbn [firstn]; try done.
  - apply sublist_nil_l.
  - by apply sublist_skip.
Qed.

Lemma hasType_spec (t : Schema.LocationType) (r : LocationSearch.FuseResult) :
  LocationSearch.hasType t r = true ↔ Schema.type (LocationSearch.item r) = t.
Proof.
  unfold LocationSearch.hasType. by destruct (Schema.type (LocationSearch.item r)), t.
Qed.

(** X17: whatever the type and the parent hint, a search that returns gives
    at most five results; they are matches of the library for the cleaned
    query, in the library's order, each with one minus the library's
    distance as its score; and with a type given every result is of that
    type. *)
Theorem searchLocation_results (query : string) (type : option Schema.LocationType)
    (parentName : option string) (st : LocationSearch.State)
    (results : list LocationSearch.SearchResult) :
  LocationSearch.searchLocation query type parentName st = Js.Ok results →
  ∃ fz matches,
    LocationSearch.fuse st = Some fz
    ∧ results = LocationSearch.toSearchResult <$> matches
    ∧ sublist matches
        (LocationSearch.search fz (Js.trim (Js.replaceSeparators query)))
    ∧ (length results ≤ 5)%nat
    ∧ ∀ t, type = Some t →
           Forall (λ r, Schema.type (LocationSearch.location r) = t) results.
Proof.
  unfold LocationSearch.searchLocation.
  destruct (LocationSearch.fuse st) as [fz|]; [|done].
  set (found := LocationSearch.search fz (Js.trim (Js.replaceSeparators query))).
  set (typed := match type with
                | Some t => List.filter (LocationSearch.hasType t) found
                | None => found
                end).
  set (narrowed1 := match type with
                    | Some Schema.DISTRICT =>
                        if Js.truthy_str parentName
                        then LocationSearch.filterByParent fz Schema.STATE
                               (default "" parentName) typed
                        else typed
                    | _ => typed
                    end).
  set (narrowed2 := match type with
                    | Some Schema.TALUK =>
                        if Js.truthy_str parentName
                        then LocationSearch.filterByParent fz Schema.DISTRICT
                               (default "" parentName) narrowed1
                        else narrowed1
                    | _ => narrowed1
                    end).
  intros [= <-]. exists fz, (firstn 5 narrowed2).
  assert (Htyped : sublist typed found).
  { subst typed. destruct type; [apply List_filter_sublist | done]. }
  assert (H1 : sublist narrowed1 typed).
  { subst narrowed1. destruct type as [[]|]; try done.
    destruct (Js.truthy_str parentName); [apply filterByParent_sublist | done]. }
  assert (H2 : sublist narrowed2 narrowed1).
  { subst narrowed2. destruct type as [[]|]; try done.
    destruct (Js.truthy_str parentName); [apply filterByParent_sublist | done]. }
  assert (Hall : sublist (firstn 5 narrowed2) typed).
  { etrans; [apply firstn_sublist|]. by etrans. }
  split; [done|]. split; [done|]. split; [by etrans|].
  split; [rewrite length_map, length_firstn; lia|].
  intros t ->. apply Forall_fmap, Forall_forall. intros r Hr.
  cbn [LocationSearch.toSearchResult LocationSearch.location compose].
  apply hasType_spec.
  assert (Hin : r ∈ typed) by (by eapply elem_of_sublist).
  subst typed. by apply elem_of_List_filter in Hin as [_ Hin].
Qed.

Lemma searchLocation_results_witness :
  ∃ results,
    LocationSearch.searchLocation "mysuru" (Some Schema.DISTRICT)
      (Some "karnataka") Catalog.exampleCatalogState
    = Js.Ok results
    ∧ results ≠ []
    ∧ (length results ≤ 5)%nat
    ∧ Forall (λ r, Schema.type (LocationSearch.location r) = Schema.DISTRICT) results.
Proof.
  eexists. split; [vm_compute; reflexivity|]. split; [discriminate|].
  destruct (searchLocation_results "mysuru" (Some Schema.DISTRICT)
              (Some "karnataka") Catalog.exampleCatalogState _ eq_refl)
    as (fz & matches & _ & _ & _ & Hlen & Htype).
  split; [exact Hlen | by apply Htype].
Defined.

(** X18: a parent hint is used only for DISTRICT and TALUK queries: with any
    other type, with no type, or with an empty hint, the search is the
    search without the hint. *)
Theorem searchLocation_hint_unused (query : string) (type : option Schema.LocationType)
    (parentName : option string) (st : LocationSearch.State) :
  (type ≠ Some Schema.DISTRICT ∧ type ≠ Some Schema.TALUK)
  ∨ Js.truthy_str parentName = false →
  LocationSearch.searchLocation query type parentName st
  = LocationSearch.searchLocation query type None st.
Proof.
  intros H. unfold LocationSearch.searchLocation.
  destruct (LocationSearch.fuse st) as [fz|]; [|done].
  destruct H as [[Hd Ht] | ->].
  - by destruct type as [[]|].
  - by destruct type as [[]|].
Qed.

Lemma searchLocation_hint_unused_witness :
  LocationSearch.searchLocation "karnataka" (Some Schema.STATE) (Some "india")
    Catalog.exampleCatalogState
  = LocationSearch.searchLocation "karnataka" (Some Schema.STATE) None
      Catalog.exampleCatalogState.
Proof.
  apply searchLocation_hint_unused. left. split; discriminate.
Defined.

(** ** Listing locations *)

Lemma parentIs_spec (l : Schema.LocationRecord) (parent : string) :
  Catalog.parentIs l parent = true ↔ Schema.parentId l = Some parent.
Proof.
  unfold Catalog.parentIs. destruct (Schema.parentId l) as [p|]; [|done].
  rewrite String.eqb_eq. naive_solver.
Qed.

Lemma listChildren_found (level childType : Schema.LocationType)
    (children : string → LocationSearch.State → list Schema.LocationRecord)
    (parentName : string) (st : LocationSearch.State) (count : nat)
    (locations : list Listing.Listed) :
  (∀ parent, children parent st
             = List.filter (λ l, Schema.LocationType_eqb (Schema.type l) childType
                                 && Catalog.parentIs l parent)
                 (LocationSearch.locationCache st)) →
  Listing.listChildren level children parentName st
  = Js.Ok (Listing.Found count locations) →
  ∃ first rest entries,
    LocationSearch.searchLocation (Js.replaceSeparators parentName) (Some level) None st
    = Js.Ok (first :: rest)
    ∧ Schema.type (LocationSearch.location first) = level
    ∧ locations = Listing.listed <$> entries
    ∧ count = length locations
    ∧ sublist entries (LocationSearch.locationCache st)
    ∧ ∀ l, l ∈ entries
           ↔ l ∈ LocationSearch.locationCache st
             ∧ Schema.type l = childType
             ∧ Schema.parentId l = Some (Schema.id (LocationSearch.location first)).
Proof.
  intros Hchildren. unfold Listing.listChildren.
  destruct (LocationSearch.searchLocation _ _ _ _) as [[|first rest]|e] eqn:Hsearch;
    try done.
  unfold Listing.found. intros [= <- <-].
  exists first, rest, (children (Schema.id (LocationSearch.location first)) st).
  split; [done|]. split.
  { unfold LocationSearch.searchLocation in Hsearch.
    destruct (LocationSearch.fuse st) as [fz|]; [|done].
    assert (Hin : first ∈ first :: rest) by left.
    assert (Hs : LocationSearch.toSearchResult
                   <$> firstn 5 (List.filter (LocationSearch.hasType level)
                         (LocationSearch.search fz
                            (Js.trim (Js.replaceSeparators
                                        (Js.replaceSeparators parentName)))))
                 = first :: rest).
    { by destruct level; injection Hsearch as Hs. }
    rewrite <- Hs in Hin. clear Hs.
    apply list_elem_of_fmap in Hin as (r & -> & Hr).
    pose proof (elem_of_sublist _ _ _ Hr (firstn_sublist _ _)) as Hr'.
    apply elem_of_List_filter in Hr' as [_ Hr']. by apply hasType_spec. }
  split; [done|]. split; [by rewrite length_fmap|].
  rewrite Hchildren. split; [apply List_filter_sublist|].
  intros l. rewrite elem_of_List_filter, andb_true_iff, parentIs_spec.
  assert (Ht : Schema.LocationType_eqb (Schema.type l) childType = true
               ↔ Schema.type l = childType) by (by destruct (Schema.type l), childType).
  rewrite Ht. done.
Qed.

(** X19: what a listing holds. Listing states gives the states of the
    catalog without any search. When listing districts or taluks gives a
    list, a parent name was supplied, the search for it at the level above
    returned a first result of that level, and the list consists of the
    entries of the catalog of the requested type whose parent is that first
    result, in catalog order; the count is the length of the list. *)
Theorem listLocationsTool_found (locationType : Listing.ListedType)
    (parentName : option string) (st : LocationSearch.State) (count : nat)
    (locations : list Listing.Listed) :
  Listing.listLocationsTool locationType parentName st
  = Js.Ok (Listing.Found count locations) →
  count = length locations
  ∧ ∃ entries,
      locations = Listing.listed <$> entries
      ∧ sublist entries (LocationSearch.locationCache st)
      ∧ match Listing.parentOf locationType with
        | None =>
            ∀ l, l ∈ entries
                 ↔ l ∈ LocationSearch.locationCache st ∧ Schema.type l = Schema.STATE
        | Some level =>
            ∃ p first rest,
              parentName = Some p ∧ p ≠ ""
              ∧ LocationSearch.searchLocation (Js.replaceSeparators p) (Some level)
                  None st
                = Js.Ok (first :: rest)
              ∧ Schema.type (LocationSearch.location first) = level
              ∧ ∀ l, l ∈ entries
                     ↔ l ∈ LocationSearch.locationCache st
                       ∧ Schema.type l = Listing.catalogType locationType
                       ∧ Schema.parentId l
                         = Some (Schema.id (LocationSearch.location first))
        end.
Proof.
  destruct locationType; cbn [Listing.listLocationsTool Listing.parentOf
                              Listing.catalogType].
  - unfold Listing.found. intros [= <- <-]. split; [by rewrite length_fmap|].
    exists (Catalog.getAllStates st). split; [done|].
    split; [apply List_filter_sublist|].
    intros l. unfold Catalog.getAllStates. rewrite elem_of_List_filter.
    destruct (Schema.type l); cbn [Schema.LocationType_eqb]; naive_solver.
  - destruct (Js.truthy_str parentName) eqn:Ht; [|done].
    apply truthy_str_spec in Ht as (p & -> & Hp). cbn [default from_option].
    unfold id. intros Hrun.
    destruct (listChildren_found Schema.STATE Schema.DISTRICT _ p st count locations
                (λ _, eq_refl) Hrun)
      as (first & rest & entries & Hs & Hty & -> & -> & Hsub & Hin).
    split; [done|]. exists entries. split; [done|]. split; [done|].
    exists p, first, rest. done.
  - destruct (Js.truthy_str parentName) eqn:Ht; [|done].
    apply truthy_str_spec in Ht as (p & -> & Hp). cbn [default from_option].
    unfold id. intros Hrun.
    destruct (listChildren_found Schema.DISTRICT Schema.TALUK _ p st count locations
                (λ _, eq_refl) Hrun)
      as (first & rest & entries & Hs & Hty & -> & -> & Hsub & Hin).
    split; [done|]. exists entries. split; [done|]. split; [done|].
    exists p, first, rest. done.
Qed.

Lemma listLocationsTool_found_witness :
  ∃ locations,
    Listing.listLocationsTool Listing.district (Some "karnataka")
      Catalog.exampleCatalogState
    = Js.Ok (Listing.Found 2 locations)
    ∧ length locations = 2%nat.
Proof.
  eexists. split; [vm_compute; reflexivity|].
  destruct (listLocationsTool_found Listing.district (Some "karnataka")
              Catalog.exampleCatalogState 2 _ eq_refl) as [Hcount _].
  exact (eq_sym Hcount).
Defined.

(** X20: only a parent lookup needs the search index. Before the catalog
    search is initialized, listing fails exactly when districts or taluks
    are requested with a non-empty parent name; listing states succeeds, and
    a request for districts or taluks without a parent name is answered
    with the request for one. *)
Theorem listLocationsTool_not_initialized (locationType : Listing.ListedType)
    (parentName : option string) (st : LocationSearch.State) :
  LocationSearch.fuse st = None →
  match Listing.parentOf locationType with
  | None =>
      Listing.listLocationsTool locationType parentName st
      = Js.Ok (Listing.found (Catalog.getAllStates st))
  | Some _ =>
      Listing.listLocationsTool locationType parentName st
      = if Js.truthy_str parentName
        then Js.Throw LocationSearch.NotInitialized
        else Js.Ok Listing.ParentNeeded
  end.
Proof.
  intros Hfuse.
  destruct locationType; cbn [Listing.listLocationsTool Listing.parentOf]; [done|..];
    destruct (Js.truthy_str parentName); try done;
    unfold Listing.listChildren, LocationSearch.searchLocation; by rewrite Hfuse.
Qed.

Lemma listLocationsTool_not_initialized_witness :
  Listing.listLocationsTool Listing.taluk (Some "mysuru") LocationSearch.initialState
  = Js.Throw LocationSearch.NotInitialized.
Proof.
  apply (listLocationsTool_not_initialized Listing.taluk (Some "mysuru")
           LocationSearch.initialState).
  reflexivity.
Defined.

(** ** Initialization of the catalog search *)

Lemma first_success {A : Type} (select : nat → option A) (n : nat) :
  (∀ j, (j < n)%nat → select j = None)
  ∨ ∃ k rows, (k < n)%nat ∧ (∀ j, (j < k)%nat → select j = None)
              ∧ select k = Some rows.
Proof.
  induction n as [|n IH].
  - left. intros j Hj. lia.
  - destruct IH as [Hnone | (k & rows & Hk & Hbefore & Hrows)].
    + destruct (select n) as [rows|] eqn:Hn.
      * right. exists n, rows. split; [lia|]. split; [exact Hnone | exact Hn].
      * left. intros j Hj. destruct (decide (j = n)) as [-> | Hne]; [done|].
        apply Hnone. lia.
    + right. exists k, rows. split; [lia|]. done.
Qed.

(** X21: the three outcomes of an initialization. Asked for no attempt it
    returns at once and changes nothing; otherwise it makes attempts until
    one loads the catalog, then holds the rows of that attempt and the index
    built from them; and when all [retries] attempts fail it throws, leaving
    the catalog and the index as they were. *)
Theorem initLocationSearch_outcomes
    (newFuse : list Schema.LocationRecord → LocationSearch.Fuse)
    (select : nat → option (list Schema.LocationRecord))
    (retries : nat) (st : LocationSearch.State) :
  let out := LocationSearch.initLocationSearch newFuse select retries st in
  (retries = 0%nat ∧ out = (Js.Ok tt, st))
  ∨ (∃ k rows,
       (k < retries)%nat ∧ (∀ j, (j < k)%nat → select j = None)
       ∧ select k = Some rows
       ∧ out = (Js.Ok tt, {| LocationSearch.locationCache := rows;
                             LocationSearch.fuse := Some (newFuse rows) |}))
  ∨ ((0 < retries)%nat ∧ (∀ j, (j < retries)%nat → select j = None)
     ∧ out = (Js.Throw (LocationSearch.InitFailed retries), st)).
Proof.
  intros out. subst out. unfold LocationSearch.initLocationSearch.
  destruct (first_success select retries) as [Hnone | (k & rows & Hk & Hbefore & Hrows)].
  - rewrite (initLoop_all_fail newFuse select retries retries 0 st)
      by (try done; intros j Hj; apply Hnone; lia).
    destruct (Nat.eqb_spec retries 0) as [-> | Hne].
    + left. done.
    + right. right. split; [lia|]. done.
  - right. left. exists k, rows. split; [done|]. split; [done|]. split; [done|].
    apply (initLoop_success newFuse select retries retries 0 k rows st);
      try done; try lia. intros j Hj. apply Hbefore. lia.
Qed.

(** ** The history of a name *)

Lemma includes_ids_existsb (p : Schema.LocationRecord → bool)
    (cache : list Schema.LocationRecord) (x : string) :
  Js.includes (Schema.id <$> List.filter p cache) x
  = existsb (λ l, p l && String.eqb (Schema.id l) x) cache.
Proof.
  unfold Js.includes. induction cache as [|l cache IH]; [done|].
  cbn [List.filter existsb]. destruct (p l); cbn [andb orb].
  - rewrite fmap_cons. cbn [existsb]. rewrite IH. f_equal. apply String.eqb_sym.
  - exact IH.
Qed.

Lemma historical_numericField_toHistorical
    (row : Schema.GwRow * Schema.LocationRecord) (property : string) :
  HistoricalAggregation.numericField property (GroundwaterQueries.toHistorical row)
  = match Schema.nums row.1 !! property with
    | Some v => if Js.isNaN v then None else Some v
    | None => None
    end.
Proof. exact (numericField_toRecord row property). Qed.

Lemma fieldValues_valuesUnder (property : string)
    (rows : list (Schema.GwRow * Schema.LocationRecord)) :
  HistoricalAggregation.fieldValues property (GroundwaterQueries.toHistorical <$> rows)
  = History.valuesUnder property rows.
Proof.
  unfold HistoricalAggregation.fieldValues, History.valuesUnder.
  induction rows as [|row rows IH]; [done|].
  rewrite fmap_cons. cbn [omap list_omap].
  by rewrite historical_numericField_toHistorical, IH.
Qed.

Lemma filter_year_toHistorical (y : string)
    (rows : list (Schema.GwRow * Schema.LocationRecord)) :
  List.filter (λ r, String.eqb (HistoricalAggregation.year r) y)
    (GroundwaterQueries.toHistorical <$> rows)
  = GroundwaterQueries.toHistorical <$> History.rowsOfYear y rows.
Proof.
  unfold History.rowsOfYear. induction rows as [|row rows IH]; [done|].
  rewrite fmap_cons. cbn [List.filter GroundwaterQueries.toHistorical
                            HistoricalAggregation.year].
  destruct (String.eqb (Schema.year row.1) y); [rewrite fmap_cons|]; by rewrite IH.
Qed.

Lemma getHistoricalDataByLocationName_rows
    (localeCompare : string → string → comparison) (name : string)
    (type : Schema.LocationType) (st : LocationSearch.State) (s : Schema.Store) :
  GroundwaterQueries.getHistoricalDataByLocationName localeCompare name type st s
  = HistoricalAggregation.aggregateHistoricalRecords localeCompare
      (HistoricalAggregation.groupRecordsByYear HistoricalAggregation.year
         (GroundwaterQueries.toHistorical <$> History.namedRows name type st s)).
Proof.
  unfold GroundwaterQueries.getHistoricalDataByLocationName, History.namedRows.
  assert (Hrows : ∀ row : Schema.GwRow * Schema.LocationRecord,
            Js.includes (Schema.id <$> Catalog.getLocationsByNameAndType name type st)
              (Schema.id row.2)
            = existsb (λ l, History.answersTo name type l
                            && String.eqb (Schema.id l) (Schema.id row.2))
                (LocationSearch.locationCache st)).
  { intros row. unfold Catalog.getLocationsByNameAndType. cbv zeta.
    apply includes_ids_existsb. }
  destruct (Nat.eqb_spec (length (Catalog.getLocationsByNameAndType name type st)) 0)
    as [Hnone | Hsome].
  - apply length_zero_iff_nil in Hnone.
    assert (Hnil : List.filter
              (λ row, existsb (λ l, History.answersTo name type l
                                    && String.eqb (Schema.id l) (Schema.id row.2))
                        (LocationSearch.locationCache st)) (Schema.innerJoin s) = []).
    { induction (Schema.innerJoin s) as [|row rows IH]; [done|].
      cbn [List.filter]. rewrite <- Hrows, Hnone. done. }
    by rewrite Hnil.
  - do 3 f_equal. apply List_filter_ext_elem. intros row _. apply Hrows.
Qed.

(** X22: the history of a name merges every location of that name. The
    result has one record per year in which a location answering to the name
    at the requested level has a row, each year once, in ascending order of
    the year labels; and under every property other than the category, the
    record of a year holds the sum of the numbers that the rows of all these
    locations hold for that year, the doubles being added in the order of
    the rows, and nothing when none of them holds a number. *)
Theorem getHistoricalDataByLocationName_merged
    (localeCompare : string → string → comparison) (name : string)
    (type : Schema.LocationType) (st : LocationSearch.State) (s : Schema.Store) :
  (∀ a b, HistoricalAggregation.localeLe localeCompare a b = true
          ∨ HistoricalAggregation.localeLe localeCompare b a = true) →
  (∀ a b c, HistoricalAggregation.localeLe localeCompare a b = true →
            HistoricalAggregation.localeLe localeCompare b c = true →
            HistoricalAggregation.localeLe localeCompare a c = true) →
  let out :=
    GroundwaterQueries.getHistoricalDataByLocationName localeCompare name type st s in
  let rows := History.namedRows name type st s in
  StronglySorted
    (λ a b, HistoricalAggregation.localeLe localeCompare
              (HistoricalAggregation.year a) (HistoricalAggregation.year b) = true)
    out
  ∧ NoDup (HistoricalAggregation.year <$> out)
  ∧ (∀ y, y ∈ HistoricalAggregation.year <$> out
          ↔ ∃ row, row ∈ rows ∧ Schema.year row.1 = y)
  ∧ ∀ o, o ∈ out →
      ∀ property, property ≠ "categoryTotal" →
        let values :=
          History.valuesUnder property
            (History.rowsOfYear (HistoricalAggregation.year o) rows) in
        match HistoricalAggregation.data o !! property with
        | Some v => v = Js.Num (Aggregation.sum values) ∧ values ≠ []
        | None => values = []
        end.
Proof.
  intros Htotal Htrans out rows. subst out.
  rewrite getHistoricalDataByLocationName_rows. fold rows.
  destruct (aggregateHistoricalRecords_members localeCompare
              (GroundwaterQueries.toHistorical <$> rows)) as (Hnd & Hyears & Hmem).
  split; [|split; [exact Hnd | split]].
  - unfold HistoricalAggregation.aggregateHistoricalRecords.
    apply sortBy_StronglySorted.
    + intros a b. apply Htotal.
    + intros a b c. apply Htrans.
  - intros y. rewrite Hyears. split.
    + intros (r & (row & -> & Hrow)%list_elem_of_fmap & <-). by exists row.
    + intros (row & Hrow & <-). exists (GroundwaterQueries.toHistorical row).
      split; [|done]. apply list_elem_of_fmap. by exists row.
  - intros o Ho property Hp values. destruct (Hmem o Ho) as (first & rest & Hf & Ho').
    destruct (aggregateYear_fields (HistoricalAggregation.year o) first
                (first :: rest)) as [_ Hnum].
    rewrite <- Ho' in Hnum. specialize (Hnum property Hp).
    rewrite <- Hf, filter_year_toHistorical in Hnum. subst values.
    rewrite Hnum. unfold HistoricalAggregation.summedField.
    rewrite fieldValues_valuesUnder.
    by destruct (History.valuesUnder property
                   (History.rowsOfYear (HistoricalAggregation.year o) rows)).
Qed.

Lemma getHistoricalDataByLocationName_merged_witness :
  HistoricalAggregation.year
    <$> GroundwaterQueries.getHistoricalDataByLocationName String.compare
          "AURANGABAD" Schema.DISTRICT History.twinState History.twinStore
  = ["2023-2024"; "2024-2025"]
  ∧ ∀ o,
      o ∈ GroundwaterQueries.getHistoricalDataByLocationName String.compare
            "AURANGABAD" Schema.DISTRICT History.twinState History.twinStore →
      HistoricalAggregation.year o = "2023-2024" →
      HistoricalAggregation.data o !! "draftTotalTotal" = Some (Js.Num 30).
Proof.
  split; [by vm_compute|]. intros o Ho Hy.
  destruct (getHistoricalDataByLocationName_merged String.compare "AURANGABAD"
              Schema.DISTRICT History.twinState History.twinStore)
    as (_ & _ & _ & Hvalues).
  - intros a b. apply String.leb_total.
  - intros a b c. apply String_leb_trans.
  - specialize (Hvalues o Ho "draftTotalTotal"). cbv zeta in Hvalues.
    rewrite Hy in Hvalues.
    destruct (HistoricalAggregation.data o !! "draftTotalTotal") as [v|].
    + destruct Hvalues as [-> _]; [done|]. by vm_compute.
    + exfalso. assert (H := Hvalues ltac:(done)). by vm_compute in H.
Defined.

(** ** The tools that report on one location *)

Lemma StronglySorted_sublist {A : Type} (R : relation A) (l k : list A) :
  sublist l k → StronglySorted R k → StronglySorted R l.
Proof.
  induction 1 as [|x l k Hsub IH|x l k Hsub IH]; intros Hs; [done|..].
  - apply StronglySorted_inv in Hs as [Hs Hall]. constructor; [by apply IH|].
    rewrite Forall_forall in Hall |- *. intros y Hy. apply Hall.
    by eapply elem_of_sublist.
  - apply StronglySorted_inv in Hs as [Hs _]. by apply IH.
Qed.

Lemma StronglySorted_fmap {A B : Type} (f : A → B) (R : relation B) (l : list A) :
  StronglySorted (λ a b, R (f a) (f b)) l → StronglySorted R (f <$> l).
Proof.
  induction 1 as [|a l Hs IH Hall]; [constructor|].
  rewrite fmap_cons. constructor; [done|]. by apply Forall_fmap.
Qed.

Lemma filterRecordsByYear_spec {T : Type} (yearOf : T → string)
    (records : list T) (params : YearFiltering.YearFilterParams) :
  sublist (YearFiltering.filterRecordsByYear yearOf records params) records
  ∧ ∀ r, r ∈ YearFiltering.filterRecordsByYear yearOf records params
         ↔ r ∈ records ∧ DataTools.admits params (yearOf r).
Proof.
  unfold YearFiltering.filterRecordsByYear, DataTools.admits.
  assert (Hrange : ∀ r,
            (if Js.truthy_str (YearFiltering.fromYear params)
                || Js.truthy_str (YearFiltering.toYear params)
             then YearFiltering.inRange (YearFiltering.fromYear params)
                    (YearFiltering.toYear params) (yearOf r)
             else true) = true
            ↔ YearFiltering.withinBounds params (yearOf r)).
  { intros r. rewrite <- inRange_spec. unfold YearFiltering.inRange.
    by destruct (Js.truthy_str (YearFiltering.fromYear params)),
      (Js.truthy_str (YearFiltering.toYear params)). }
  assert (Hcase : let kept := if Js.truthy_str (YearFiltering.fromYear params)
                                 || Js.truthy_str (YearFiltering.toYear params)
                              then List.filter
                                     (λ r, YearFiltering.inRange
                                             (YearFiltering.fromYear params)
                                             (YearFiltering.toYear params) (yearOf r))
                                     records
                              else records in
                  sublist kept records
                  ∧ ∀ r, r ∈ kept
                         ↔ r ∈ records ∧ YearFiltering.withinBounds params (yearOf r)).
  { cbv zeta. destruct (_ || _) eqn:E.
    - split; [apply List_filter_sublist|]. intros r.
      by rewrite elem_of_List_filter, <- Hrange.
    - split; [done|]. intros r. split; [|by intros [? _]].
      intros Hr. split; [done | by apply Hrange]. }
  destruct (YearFiltering.specificYears params) as [[|y0 l]|]; try exact Hcase.
  split; [apply List_filter_sublist|]. intros r.
  by rewrite elem_of_List_filter, includes_spec.
Qed.

Lemma searchAndGetHistoricalData_first_match
    (localeCompare : string → string → comparison) (query : string)
    (locationType : option Listing.ListedType) (st : LocationSearch.State)
    (s : Schema.Store) :
  GroundwaterQueries.searchAndGetHistoricalData localeCompare query
    (Listing.catalogType <$> locationType) st s
  = match LocationSearch.searchLocation query (Listing.catalogType <$> locationType)
            None st with
    | Js.Throw e => Js.Throw e
    | Js.Ok [] => Js.Ok []
    | Js.Ok (bestMatch :: _) =>
        Js.Ok (GroundwaterQueries.getHistoricalDataByLocationName localeCompare
                 (Schema.name (LocationSearch.location bestMatch))
                 (default (Schema.type (LocationSearch.location bestMatch))
                    (Listing.catalogType <$> locationType)) st s)
    end.
Proof.
  unfold GroundwaterQueries.searchAndGetHistoricalData, LocationSearch.searchState,
    LocationSearch.searchDistrict, LocationSearch.searchTaluk.
  destruct locationType as [[]|]; cbn [fmap option_fmap option_map Listing.catalogType];
    by rewrite searchLocation_clean_query.
Qed.

Lemma getHistoricalDataByLocationName_years
    (localeCompare : string → string → comparison) (name : string)
    (type : Schema.LocationType) (st : LocationSearch.State) (s : Schema.Store) :
  (∀ a b, HistoricalAggregation.localeLe localeCompare a b = true
          ∨ HistoricalAggregation.localeLe localeCompare b a = true) →
  (∀ a b c, HistoricalAggregation.localeLe localeCompare a b = true →
            HistoricalAggregation.localeLe localeCompare b c = true →
            HistoricalAggregation.localeLe localeCompare a c = true) →
  let out :=
    GroundwaterQueries.getHistoricalDataByLocationName localeCompare name type st s in
  StronglySorted
    (λ a b, HistoricalAggregation.localeLe localeCompare
              (HistoricalAggregation.year a) (HistoricalAggregation.year b) = true)
    out
  ∧ NoDup (HistoricalAggregation.year <$> out).
Proof.
  intros Htotal Htrans out. subst out. rewrite getHistoricalDataByLocationName_rows.
  split.
  - unfold HistoricalAggregation.aggregateHistoricalRecords.
    apply sortBy_StronglySorted; [intros a b; apply Htotal|].
    intros a b c. apply Htrans.
  - apply aggregateHistoricalRecords_members.
Qed.

(** X23: what [get_historical_data] reports when it finds data. The search
    for the location name, with the given type and no parent, had a first
    match; the records reported are those of the history of that match's
    name (at the given type, or the match's own type when none was given)
    whose year the request admits, in the order of the history; the years
    listed are the years of these records, none twice and in ascending
    order of the labels; the count is their number, which is not zero; the
    name and id reported are those of the first record, and the type is
    reported in the word of the request. *)
Theorem getHistoricalDataTool_found
    (localeCompare : string → string → comparison) (locationName : string)
    (locationType : option Listing.ListedType)
    (yearParams : YearFiltering.YearFilterParams) (st : LocationSearch.State)
    (s : Schema.Store) (flagged : bool) (name id : string)
    (reportedType : option DataTools.TypeLabel) (years : list string) (count : nat)
    (summarized : list HistoricalAggregation.HistoricalRecord) :
  (∀ a b, HistoricalAggregation.localeLe localeCompare a b = true
          ∨ HistoricalAggregation.localeLe localeCompare b a = true) →
  (∀ a b c, HistoricalAggregation.localeLe localeCompare a b = true →
            HistoricalAggregation.localeLe localeCompare b c = true →
            HistoricalAggregation.localeLe localeCompare a c = true) →
  DataTools.getHistoricalDataTool localeCompare locationName locationType yearParams
    st s
  = Js.Ok (DataTools.FoundHistory flagged name id reportedType years count
             summarized) →
  ∃ bestMatch others,
    LocationSearch.searchLocation locationName (Listing.catalogType <$> locationType)
      None st
    = Js.Ok (bestMatch :: others)
    ∧ let history :=
        GroundwaterQueries.getHistoricalDataByLocationName localeCompare
          (Schema.name (LocationSearch.location bestMatch))
          (default (Schema.type (LocationSearch.location bestMatch))
             (Listing.catalogType <$> locationType)) st s in
      sublist summarized history
      ∧ (∀ r, r ∈ summarized
              ↔ r ∈ history ∧ DataTools.admits yearParams (HistoricalAggregation.year r))
      ∧ years = HistoricalAggregation.year <$> summarized
      ∧ NoDup years
      ∧ StronglySorted (λ a b, HistoricalAggregation.localeLe localeCompare a b = true)
          years
      ∧ count = length years ∧ (0 < count)%nat
      ∧ flagged = false
      ∧ reportedType = DataTools.AsRequested <$> locationType
      ∧ ∃ first, head summarized = Some first
                 ∧ name = HistoricalAggregation.locationName first
                 ∧ id = HistoricalAggregation.locationId first.
Proof.
  intros Htotal Htrans. unfold DataTools.getHistoricalDataTool.
  rewrite searchAndGetHistoricalData_first_match.
  destruct (LocationSearch.searchLocation _ _ _ _) as [[|bestMatch others]|e];
    [done| |done].
  set (history := GroundwaterQueries.getHistoricalDataByLocationName _ _ _ _ _).
  destruct (length history =? 0)%nat; [done|].
  unfold DataTools.reportHistory.
  destruct (filterRecordsByYear_spec HistoricalAggregation.year history yearParams)
    as [Hsub Hmem].
  destruct (YearFiltering.filterRecordsByYear _ history yearParams)
    as [|first kept] eqn:Hkept; [done|].
  intros [= <- <- <- <- <- <- <-]. exists bestMatch, others. split; [done|].
  destruct (getHistoricalDataByLocationName_years localeCompare
              (Schema.name (LocationSearch.location bestMatch))
              (default (Schema.type (LocationSearch.location bestMatch))
                 (Listing.catalogType <$> locationType)) st s Htotal Htrans)
    as [Hsorted Hnd].
  fold history in Hsorted, Hnd. cbv zeta.
  split; [done|]. split; [done|]. split; [done|].
  split; [exact (sublist_NoDup _ _
                   Hnd
                   (fmap_sublist HistoricalAggregation.year _ _ Hsub))|].
  split; [apply (StronglySorted_fmap HistoricalAggregation.year _ (first :: kept));
            by eapply StronglySorted_sublist|].
  split; [exact (eq_sym (length_fmap HistoricalAggregation.year (first :: kept)))|].
  split; [simpl; lia|]. split; [done|]. split; [done|].
  by exists first.
Qed.

Lemma getHistoricalDataTool_found_witness :
  ∃ name id summarized,
    DataTools.getHistoricalDataTool String.compare "aurangabad"
      (Some Listing.district) DataTools.from2024 History.twinState History.twinStore
    = Js.Ok (DataTools.FoundHistory false name id
               (Some (DataTools.AsRequested Listing.district)) ["2024-2025"] 1
               summarized)
    ∧ ["2024-2025"] = HistoricalAggregation.year <$> summarized
    ∧ ∀ r, r ∈ summarized →
           DataTools.admits DataTools.from2024 (HistoricalAggregation.year r).
Proof.
  eexists _, _, _. split; [vm_compute; reflexivity|].
  destruct (getHistoricalDataTool_found String.compare "aurangabad"
              (Some Listing.district) DataTools.from2024 History.twinState
              History.twinStore _ _ _ _ _ _ _
              String.leb_total String_leb_trans eq_refl)
    as (bestMatch & others & _ & _ & Hmem & Hyears & _).
  split; [exact Hyears|]. intros r Hr. by apply Hmem in Hr as [_ Hr].
Defined.

(** X24: how [search_groundwater_data] uses its parent names and its year
    arguments. It treats a request as historical exactly when the year
    resolver does. A historical request never uses the state or district
    name: the answer is that of [get_historical_data] for the same location,
    type and years, in its own wording (flagged as historical, the type as
    the catalog constant, no list of available years on a failed search). A
    request for one year uses the state name only for a district and the
    district name only for a taluk. *)
Theorem searchGroundwaterDataTool_parents
    (localeCompare : string → string → comparison) (locationName : string)
    (locationType : option Listing.ListedType) (stateName districtName : option string)
    (yearParams : YearFiltering.YearFilterParams) (st : LocationSearch.State)
    (s : Schema.Store) :
  let answer :=
    DataTools.searchGroundwaterDataTool localeCompare locationName locationType
      stateName districtName yearParams st s in
  (∀ availableYears,
     YearFiltering.isHistorical (YearFiltering.getFilteredYears yearParams availableYears)
     = DataTools.wantsHistory yearParams)
  ∧ (DataTools.wantsHistory yearParams = true →
     answer
     = DataTools.reworded
         (DataTools.getHistoricalDataTool localeCompare locationName locationType
            yearParams st s)
     ∧ ∀ otherState otherDistrict,
         answer
         = DataTools.searchGroundwaterDataTool localeCompare locationName locationType
             otherState otherDistrict yearParams st s)
  ∧ (DataTools.wantsHistory yearParams = false →
     answer
     = DataTools.searchGroundwaterDataTool localeCompare locationName locationType
         (match locationType with Some Listing.district => stateName | _ => None end)
         (match locationType with Some Listing.taluk => districtName | _ => None end)
         yearParams st s).
Proof.
  intros answer. subst answer. split; [|split].
  - intros availableYears.
    unfold YearFiltering.getFilteredYears, DataTools.wantsHistory.
    by destruct (Js.truthy_str (YearFiltering.fromYear yearParams)),
      (Js.truthy_str (YearFiltering.toYear yearParams)),
      (Js.truthy_arr (YearFiltering.specificYears yearParams)).
  - intros Hh. unfold DataTools.searchGroundwaterDataTool,
      DataTools.getHistoricalDataTool. rewrite Hh. cbv zeta. split; [|done].
    destruct (GroundwaterQueries.searchAndGetHistoricalData _ _ _ _ _)
      as [records|e]; [|done].
    destruct (length records =? 0)%nat; [done|].
    unfold DataTools.reportHistory, DataTools.reworded.
    destruct (YearFiltering.filterRecordsByYear _ records yearParams); [done|].
    by destruct locationType.
  - intros Hh. unfold DataTools.searchGroundwaterDataTool. rewrite Hh.
    by destruct locationType as [[]|].
Qed.

Lemma searchGroundwaterDataTool_parents_witness :
  DataTools.searchGroundwaterDataTool String.compare "aurangabad"
    (Some Listing.district) (Some "bihar") None DataTools.from2024 History.twinState
    History.twinStore
  = DataTools.searchGroundwaterDataTool String.compare "aurangabad"
      (Some Listing.district) (Some "maharashtra") None DataTools.from2024
      History.twinState History.twinStore.
Proof.
  destruct (searchGroundwaterDataTool_parents String.compare "aurangabad"
              (Some Listing.district) (Some "bihar") None DataTools.from2024
              History.twinState History.twinStore) as (_ & Hhist & _).
  destruct (Hhist eq_refl) as [_ Hany]. apply Hany.
Defined.

(** ** Token estimate *)

Lemma fold_left_add_shift {A : Type} (f : A → nat) (l : list A) (n : nat) :
  fold_left (λ acc x, acc + f x) l n = (n + fold_left (λ acc x, acc + f x) l 0)%nat.
Proof.
  revert n. induction l as [|x l IH]; intros n; cbn [fold_left]; [lia|].
  rewrite (IH (n + f x)%nat), (IH (0 + f x)%nat). lia.
Qed.

Lemma approximateTokenCount_cons (content : Trimmer.Content)
    (messages : list Trimmer.Content) :
  Trimmer.approximateTokenCount (content :: messages)
  = (Trimmer.ceilQuarter (Trimmer.getContentLength content)
     + Trimmer.approximateTokenCount messages)%nat.
Proof.
  unfold Trimmer.approximateTokenCount. cbn [fold_left].
  by rewrite (fold_left_add_shift
                (λ c, Trimmer.ceilQuarter (Trimmer.getContentLength c))).
Qed.

Lemma ceilQuarter_bounds (n : nat) :
  (n ≤ 4 * Trimmer.ceilQuarter n)%nat ∧ (4 * Trimmer.ceilQuarter n ≤ n + 3)%nat.
Proof.
  unfold Trimmer.ceilQuarter.
  pose proof (Nat.div_mod_eq (n + 3) 4) as H.
  pose proof (Nat.mod_upper_bound (n + 3) 4) as Hm. lia.
Qed.

(** X25: the token estimate of a conversation. The estimate of two lists of
    messages put together is the sum of their estimates; four times the
    estimate is at least the number of characters counted and exceeds it by
    at most three per message; and a message whose content is neither a
    string nor an array counts for nothing. *)
Theorem approximateTokenCount_bounds (messages more : list Trimmer.Content) :
  Trimmer.approximateTokenCount (messages ++ more)
  = (Trimmer.approximateTokenCount messages + Trimmer.approximateTokenCount more)%nat
  ∧ (Trimmer.totalLength messages ≤ 4 * Trimmer.approximateTokenCount messages)%nat
  ∧ (4 * Trimmer.approximateTokenCount messages
     ≤ Trimmer.totalLength messages + 3 * length messages)%nat
  ∧ Trimmer.approximateTokenCount (Trimmer.OtherContent :: messages)
    = Trimmer.approximateTokenCount messages.
Proof.
  split; [|split; [|split]].
  - induction messages as [|content messages IH]; [done|].
    cbn [app]. rewrite !approximateTokenCount_cons, IH. lia.
  - induction messages as [|content messages IH]; [done|].
    rewrite approximateTokenCount_cons. cbn [Trimmer.totalLength foldr].
    fold (Trimmer.totalLength messages).
    pose proof (ceilQuarter_bounds (Trimmer.getContentLength content)). lia.
  - induction messages as [|content messages IH]; [done|].
    rewrite approximateTokenCount_cons. cbn [Trimmer.totalLength foldr length].
    fold (Trimmer.totalLength messages).
    pose proof (ceilQuarter_bounds (Trimmer.getContentLength content)). lia.
  - by rewrite approximateTokenCount_cons.
Qed.

(** ** Colours and categories *)

(** X26: the colour of a stage of extraction is the colour of its category:
    the thresholds of the colour scale are those of the categories, and a
    stage that is zero or not a number, whose category is unknown, is shown
    in the colour of the safe band. *)
Theorem getStageColor_category (stage : option float) :
  ChartHelpers.getStageColor stage
  = ChartHelpers.categoryColor (Aggregation.determineCategoryFromStage stage)
  ∧ (ChartHelpers.getStageColor stage = "hsl(142, 71%, 45%)"
     ↔ Aggregation.determineCategoryFromStage stage = "Safe"
       ∨ Aggregation.determineCategoryFromStage stage = "Unknown").
Proof.
  destruct stage as [stage|]; [|split; [done | split; [by right | done]]].
  unfold ChartHelpers.getStageColor, Aggregation.determineCategoryFromStage.
  destruct (Js.falsy stage) eqn:Hf.
  - assert (Hno : ∀ c, PrimFloat.ltb 0 c = true → PrimFloat.leb c stage = false).
    { intros c Hc. destruct (PrimFloat.leb c stage) eqn:E; [|done].
      by rewrite (leb_truthy c stage Hc E) in Hf. }
    rewrite (Hno 100%float eq_refl), (Hno 90%float eq_refl), (Hno 70%float eq_refl).
    split; [done|]. split; [by right | done].
  - assert (Hn : Js.isNaN stage = false).
    { unfold Js.falsy in Hf. by apply orb_false_iff in Hf as [_ ?]. }
    rewrite (leb_dual 100 stage eq_refl Hn), (leb_dual 90 stage eq_refl Hn),
      (leb_dual 70 stage eq_refl Hn).
    destruct (PrimFloat.ltb stage 70) eqn:H70.
    + rewrite (ltb_leb_trans stage 70 90 H70 eq_refl),
        (ltb_leb_trans stage 70 100 H70 eq_refl).
      split; [done|]. split; [by left | done].
    + destruct (PrimFloat.ltb stage 90) eqn:H90.
      * rewrite (ltb_leb_trans stage 90 100 H90 eq_refl).
        split; [done|]. split; [done | by intros [? | ?]].
      * destruct (PrimFloat.ltb stage 100) eqn:H100;
          (split; [done|]; split; [done | by intros [? | ?]]).
Qed.

(** ** Comparing locations *)

Lemma recordLoop_Ok (type : option Schema.LocationType) (targetYear : string)
    (st : LocationSearch.State) (s : Schema.Store) (locationNames : list string)
    (records out : list Aggregation.GroundwaterRecord) :
  CompareTool.recordLoop type targetYear st s locationNames records = Js.Ok out →
  out = records ++ omap (CompareTool.recordOf type targetYear st s) locationNames.
Proof.
  revert records. induction locationNames as [|name names IH]; intros records.
  - intros [= <-]. by rewrite app_nil_r.
  - cbn [CompareTool.recordLoop omap list_omap]. unfold CompareTool.recordOf at 1.
    destruct (GroundwaterQueries.searchAndGetGroundwaterData _ _ _ _ _ _)
      as [[record|]|e]; [| |done].
    + intros H%IH. by rewrite <- app_assoc in H.
    + apply IH.
Qed.

Lemma historyLoop_Ok (localeCompare : string → string → comparison)
    (type : option Schema.LocationType) (yearParams : YearFiltering.YearFilterParams)
    (st : LocationSearch.State) (s : Schema.Store) (locationNames : list string)
    (all out : list CompareTool.LocationHistory) :
  CompareTool.historyLoop localeCompare type yearParams st s locationNames all
  = Js.Ok out →
  out = all ++ omap (CompareTool.historyOf localeCompare type yearParams st s)
                 locationNames.
Proof.
  revert all. induction locationNames as [|name names IH]; intros all.
  - intros [= <-]. by rewrite app_nil_r.
  - cbn [CompareTool.historyLoop omap list_omap]. unfold CompareTool.historyOf at 1.
    destruct (GroundwaterQueries.searchAndGetHistoricalData _ _ _ _ _)
      as [records|e]; [|done].
    destruct (Nat.eqb_spec (length records) 0) as [Hnil | Hsome].
    + apply length_zero_iff_nil in Hnil as ->.
      assert (Hf : YearFiltering.filterRecordsByYear HistoricalAggregation.year []
                     yearParams = []).
      { destruct (filterRecordsByYear_spec HistoricalAggregation.year [] yearParams)
          as [Hsub _]. by apply sublist_nil_r in Hsub. }
      rewrite Hf. apply IH.
    + cbv zeta.
      destruct (YearFiltering.filterRecordsByYear _ records yearParams)
        as [|first rest]; [apply IH|].
      intros H%IH. by rewrite <- app_assoc in H.
Qed.

Lemma omap_length_lt {A B : Type} (f : A → option B) (l : list A) :
  (length (omap f l) < length l)%nat ↔ ∃ x, x ∈ l ∧ f x = None.
Proof.
  induction l as [|x l IH].
  - split; [simpl; lia | by intros (x & Hx & _); inversion Hx].
  - pose proof (omap_length_le f l) as Hle. cbn [omap list_omap].
    destruct (f x) as [y|] eqn:E; cbn [length].
    + rewrite <- Nat.succ_lt_mono, IH. split.
      * intros (z & Hz & Hn). exists z. split; [by right | done].
      * intros (z & [-> | Hz]%elem_of_cons & Hn); [congruence|]. by exists z.
    + split; [|lia]. intros _. exists x. split; [by left | done].
Qed.

(** X27: a comparison for one year. The year reported is the [year] of the
    request, or 2024-2025 without one; the records compared are those of the
    names that resolve to a record for that year, in the order of the names,
    and count, ids and locations are taken from them; but the list of
    locations compared repeats every name of the request, so it is longer
    than the count exactly when some name resolved to nothing. *)
Theorem compareLocationsTool_single_year
    (localeCompare : string → string → comparison) (locationNames : list string)
    (locationType : option Listing.ListedType)
    (yearParams : YearFiltering.YearFilterParams) (st : LocationSearch.State)
    (s : Schema.Store) (count : nat) (year : string)
    (locationsCompared locationIds : list string) (locations : list Listing.Listed)
    (summarized : list Aggregation.GroundwaterRecord) :
  CompareTool.compareLocationsTool localeCompare locationNames locationType yearParams
    st s
  = Js.Ok (CompareTool.Comparison count year locationsCompared locationIds locations
             summarized) →
  DataTools.wantsHistory yearParams = false
  ∧ year = YearFiltering.orDefaultYear (YearFiltering.year yearParams)
  ∧ locationsCompared = locationNames
  ∧ summarized
    = omap (CompareTool.recordOf (Listing.catalogType <$> locationType) year st s)
        locationNames
  ∧ count = length summarized
  ∧ (0 < count ≤ length locationNames)%nat
  ∧ locationIds = (λ r, Aggregation.id (Aggregation.location r)) <$> summarized
  ∧ locations = CompareTool.listedRecord <$> summarized
  ∧ ((count < length locationsCompared)%nat
     ↔ ∃ name, name ∈ locationNames
               ∧ CompareTool.recordOf (Listing.catalogType <$> locationType) year st s
                   name = None).
Proof.
  unfold CompareTool.compareLocationsTool.
  destruct (DataTools.wantsHistory yearParams).
  { destruct (CompareTool.historyLoop _ _ _ _ _ _ _) as [[|first rest]|e]; done. }
  cbv zeta.
  destruct (CompareTool.recordLoop _ _ _ _ _ _) as [records|e] eqn:Hloop; [|done].
  apply recordLoop_Ok in Hloop. cbn [app] in Hloop.
  destruct (Nat.eqb_spec (length records) 0) as [Hnil | Hsome]; [done|].
  intros [= <- <- <- <- <- <-].
  pose proof (omap_length_le
                (CompareTool.recordOf (Listing.catalogType <$> locationType)
                   (YearFiltering.orDefaultYear (YearFiltering.year yearParams)) st s)
                locationNames) as Hle.
  rewrite <- Hloop in Hle.
  split; [done|]. split; [done|]. split; [done|]. split; [done|]. split; [done|].
  split; [lia|]. split; [done|]. split; [done|].
  rewrite <- omap_length_lt, <- Hloop. done.
Qed.

Lemma compareLocationsTool_single_year_witness :
  ∃ ids locations summarized,
    CompareTool.compareLocationsTool String.compare ["kerala"; "atlantis"; "punjab"]
      None YearFiltering.noSpec CompareTool.exampleSearchState
      GroundwaterService.exampleStore
    = Js.Ok (CompareTool.Comparison 2 "2024-2025" ["kerala"; "atlantis"; "punjab"]
               ids locations summarized)
    ∧ ids = ["s2"; "s4"]
    ∧ (2 < length ["kerala"; "atlantis"; "punjab"])%nat.
Proof.
  eexists _, _, _. split; [vm_compute; reflexivity|].
  destruct (compareLocationsTool_single_year String.compare
              ["kerala"; "atlantis"; "punjab"] None YearFiltering.noSpec
              CompareTool.exampleSearchState GroundwaterService.exampleStore
              2 "2024-2025" _ _ _ _ eq_refl)
    as (_ & _ & _ & _ & _ & _ & _ & _ & Hshort).
  split; [reflexivity|]. apply Hshort. exists "atlantis".
  split; [right; left | by vm_compute].
Defined.

(** X28: a comparison over several years. The locations compared are the
    names that have a history with at least one year the request admits, in
    the order of the names, each reported under the name and id of its first
    record; the count is their number; every record kept is of a year the
    request admits; but the years and the number of data points reported are
    those of the first location alone, and the type reported is STATE when
    the request gives none. *)
Theorem compareLocationsTool_historical
    (localeCompare : string → string → comparison) (locationNames : list string)
    (locationType : option Listing.ListedType)
    (yearParams : YearFiltering.YearFilterParams) (st : LocationSearch.State)
    (s : Schema.Store) (count : nat) (reportedType : Schema.LocationType)
    (locationsCompared yearsAvailable : list string) (dataPointCount : nat)
    (allLocationRecords : list CompareTool.LocationHistory) :
  CompareTool.compareLocationsTool localeCompare locationNames locationType yearParams
    st s
  = Js.Ok (CompareTool.HistoricalComparison count reportedType locationsCompared
             yearsAvailable dataPointCount allLocationRecords) →
  DataTools.wantsHistory yearParams = true
  ∧ allLocationRecords
    = omap (CompareTool.historyOf localeCompare (Listing.catalogType <$> locationType)
              yearParams st s) locationNames
  ∧ count = length allLocationRecords
  ∧ (0 < count ≤ length locationNames)%nat
  ∧ locationsCompared = CompareTool.hName <$> allLocationRecords
  ∧ reportedType = default Schema.STATE (Listing.catalogType <$> locationType)
  ∧ (∃ first, head allLocationRecords = Some first
              ∧ yearsAvailable
                = HistoricalAggregation.year <$> CompareTool.hRecords first
              ∧ dataPointCount = length (CompareTool.hRecords first))
  ∧ Forall (λ h, ∃ first, head (CompareTool.hRecords h) = Some first
                          ∧ CompareTool.hName h
                            = HistoricalAggregation.locationName first
                          ∧ CompareTool.hId h = HistoricalAggregation.locationId first
                          ∧ Forall (λ r, DataTools.admits yearParams
                                           (HistoricalAggregation.year r))
                              (CompareTool.hRecords h))
      allLocationRecords.
Proof.
  unfold CompareTool.compareLocationsTool.
  destruct (DataTools.wantsHistory yearParams).
  2:{ cbv zeta. destruct (CompareTool.recordLoop _ _ _ _ _ _) as [records|e]; [|done].
      by destruct (length records =? 0)%nat. }
  destruct (CompareTool.historyLoop _ _ _ _ _ _ _) as [[|first rest]|e] eqn:Hloop;
    try done.
  apply historyLoop_Ok in Hloop. cbn [app] in Hloop. cbv zeta.
  intros [= <- <- <- <- <- <-].
  pose proof (omap_length_le
                (CompareTool.historyOf localeCompare
                   (Listing.catalogType <$> locationType) yearParams st s)
                locationNames) as Hle.
  rewrite <- Hloop in Hle.
  split; [done|]. split; [done|]. split; [done|].
  split; [cbn [length] in *; lia|]. split; [done|]. split; [done|].
  split; [by exists first|].
  rewrite Hloop. apply Forall_forall. intros h Hh.
  apply list_elem_of_omap in Hh as (name & _ & Hh).
  unfold CompareTool.historyOf in Hh.
  destruct (GroundwaterQueries.searchAndGetHistoricalData _ _ _ _ _)
    as [records|e]; [|done].
  destruct (filterRecordsByYear_spec HistoricalAggregation.year records yearParams)
    as [_ Hmem].
  destruct (YearFiltering.filterRecordsByYear _ records yearParams)
    as [|r kept]; [done|].
  injection Hh as <-. exists r. cbn [CompareTool.hRecords CompareTool.hName
                                      CompareTool.hId head].
  split; [done|]. split; [done|]. split; [done|].
  apply Forall_forall. intros x Hx. by apply Hmem in Hx as [_ Hx].
Qed.

Lemma compareLocationsTool_historical_witness :
  ∃ all,
    CompareTool.compareLocationsTool String.compare ["kerala"; "karnataka"]
      (Some Listing.state) GwTools.rangeFrom2023 CompareTool.exampleSearchState
      GroundwaterService.exampleStore
    = Js.Ok (CompareTool.HistoricalComparison 2 Schema.STATE ["Kerala"; "Karnataka"]
               ["2023-2024"; "2024-2025"] 2 all)
    ∧ CompareTool.hName <$> all = ["Kerala"; "Karnataka"]
    ∧ (HistoricalAggregation.year <$> (CompareTool.hRecords <$> all) !!! 1%nat)
      = ["2024-2025"].
Proof.
  eexists. split; [vm_compute; reflexivity|].
  destruct (compareLocationsTool_historical String.compare ["kerala"; "karnataka"]
              (Some Listing.state) GwTools.rangeFrom2023
              CompareTool.exampleSearchState GroundwaterService.exampleStore
              2 Schema.STATE _ _ 2 _ eq_refl)
    as (_ & _ & _ & _ & Hnames & _).
  split; [exact (eq_sym Hnames) | by vm_compute].
Defined.
